(** * TrikHub server playground: the agent, its gateway client and its tools

    A shallow embedding of [examples/server-playground/agent]:
    - [trik_client.py]: the HTTP client of the trik gateway and the
      conversion of gateway tools to LangChain tools;
    - [tools.py]: the built-in tools and the [ToolLoader];
    - [agent.py]: the passthrough slot and the LangGraph workflow with its
      refund validation node.

    Python values are an inductive type, dicts are association lists in
    insertion order, and effectful code lives in a state-and-exception monad
    whose state holds what the Python code mutates or talks to: the
    transport, standard output, the [_session_id] attribute of every
    [TrikClient] instance and the module global of [agent.py]. *)

From Stdlib Require Import String Ascii List ZArith Bool Arith Lia.
Import ListNotations.
Local Open Scope string_scope.
Local Open Scope list_scope.

Set Implicit Arguments.
Set Warnings "-register-all".

(** ** Python values *)

(** What [response.json()] can return and what tool arguments can hold.
    JSON numbers are kept as integers: the code never computes with them. *)
Inductive pyval : Type :=
| VNone
| VBool (b : bool)
| VInt (z : Z)
| VStr (s : string)
| VList (l : list pyval)
| VDict (d : list (string * pyval)).

Definition dict := list (string * pyval).

Definition str_empty (s : string) : bool :=
  match s with EmptyString => true | String _ _ => false end.

(** Truth value testing: [if v:], [not v], [a or b]. *)
Definition truthy (v : pyval) : bool :=
  match v with
  | VNone => false
  | VBool b => b
  | VInt z => negb (Z.eqb z 0)
  | VStr s => negb (str_empty s)
  | VList l => match l with [] => false | _ :: _ => true end
  | VDict d => match d with [] => false | _ :: _ => true end
  end.

(** [a or b] *)
Definition py_or (a b : pyval) : pyval := if truthy a then a else b.

(** [v is not None] *)
Definition is_not_None (v : pyval) : bool :=
  match v with VNone => false | _ => true end.

(** [v == s] for a string literal [s]: a [str] only equals a [str]. *)
Definition eq_str (v : pyval) (s : string) : bool :=
  match v with VStr t => String.eqb t s | _ => false end.

(** [type(v).__name__] *)
Definition type_name (v : pyval) : string :=
  match v with
  | VNone => "NoneType"
  | VBool _ => "bool"
  | VInt _ => "int"
  | VStr _ => "str"
  | VList _ => "list"
  | VDict _ => "dict"
  end.

(** ** Dicts: association lists in insertion order, keys unique *)

Section Dict.
Variable V : Type.

Fixpoint dict_get (d : list (string * V)) (k : string) : option V :=
  match d with
  | [] => None
  | (k', v) :: rest => if String.eqb k' k then Some v else dict_get rest k
  end.

(** [d[k] = v]: an existing key keeps its position, a new key goes last. *)
Fixpoint dict_set (d : list (string * V)) (k : string) (v : V)
  : list (string * V) :=
  match d with
  | [] => [(k, v)]
  | (k', v') :: rest =>
      if String.eqb k' k then (k', v) :: rest
      else (k', v') :: dict_set rest k v
  end.

(** [d.get(k, default)] *)
Definition dict_get_default (d : list (string * V)) (k : string) (default : V) : V :=
  match dict_get d k with Some v => v | None => default end.
End Dict.

(** ** Strings *)

Definition colon : ascii := ":"%char.
Definition underscore : ascii := "_"%char.
Definition slash : ascii := "/"%char.
Definition dquote : string := String (ascii_of_nat 34) EmptyString.
Definition squote : string := "'".
Definition newline : string := String (ascii_of_nat 10) EmptyString.

(** [s.replace(old, new)] for one-character [old] and [new]. *)
Fixpoint replace_char (old new : ascii) (s : string) : string :=
  match s with
  | EmptyString => EmptyString
  | String c rest =>
      String (if Ascii.eqb c old then new else c) (replace_char old new rest)
  end.

(** [s.rstrip(c)]: drops the run of [c] that ends [s]. *)
Fixpoint rstrip_char (c : ascii) (s : string) : string :=
  match s with
  | EmptyString => EmptyString
  | String a rest =>
      match rstrip_char c rest with
      | EmptyString => if Ascii.eqb a c then EmptyString else String a EmptyString
      | r => String a r
      end
  end.

(** [sub in s] *)
Fixpoint contains (sub s : string) : bool :=
  String.prefix sub s ||
  match s with
  | EmptyString => false
  | String _ rest => contains sub rest
  end.

(** The characters of a string, as Python iterates them. *)
Fixpoint chars (s : string) : list string :=
  match s with
  | EmptyString => []
  | String c rest => String c EmptyString :: chars rest
  end.

(** ** Exceptions and the monad *)

Inductive exn_class : Type :=
| ConnectionError      (* requests: the endpoint cannot be reached *)
| HTTPError            (* requests: raise_for_status *)
| JSONDecodeError      (* requests: response.json() *)
| KeyError
| IndexError
| AttributeError
| TypeError
| ValueError
| ValidationError      (* pydantic *)
| NameError            (* pydantic: a name that cannot be a field *)
| GraphRecursionError  (* langgraph *)
| OtherError.          (* any other subclass of Exception *)

(** An exception object; [exn_msg] is what [str(e)] gives. *)
Record exn : Type := Exn { exn_cls : exn_class; exn_msg : string }.

Inductive result (A : Type) : Type :=
| Ok (a : A)
| Raise (e : exn).
Arguments Ok {A} a.
Arguments Raise {A} e.

(** A computation over a mutable state [S]: it returns or raises, and the
    state it leaves behind is kept in both cases, as in Python. *)
Definition M (S A : Type) : Type := S -> result A * S.

Definition ret {S A} (a : A) : M S A := fun s => (Ok a, s).

Definition raise {S A} (c : exn_class) (msg : string) : M S A :=
  fun s => (Raise (Exn c msg), s).

Definition bind {S A B} (m : M S A) (k : A -> M S B) : M S B :=
  fun s =>
    match m s with
    | (Ok a, s') => k a s'
    | (Raise e, s') => (Raise e, s')
    end.

(** [try: body  except Exception as e: handler(e)] *)
Definition try_except {S A} (body : M S A) (handler : exn -> M S A) : M S A :=
  fun s =>
    match body s with
    | (Ok a, s') => (Ok a, s')
    | (Raise e, s') => handler e s'
    end.

Definition gets {S A} (f : S -> A) : M S A := fun s => (Ok (f s), s).
Definition modify {S} (f : S -> S) : M S unit := fun s => (Ok tt, f s).

(** A result that was computed without the state. *)
Definition lift_result {S A} (r : result A) : M S A := fun s => (r, s).

(** Runs a computation on the second component of a pair of states. *)
Definition lift_snd {S1 S2 A} (m : M S2 A) : M (S1 * S2) A :=
  fun s =>
    match m (snd s) with
    | (r, s2) => (r, (fst s, s2))
    end.

Declare Scope py_scope.
Delimit Scope py_scope with py.
Notation "x <- c1 ;; c2" := (bind c1 (fun x => c2))
  (at level 61, c1 at next level, right associativity) : py_scope.
Notation "c1 ;; c2" := (bind c1 (fun _ => c2))
  (at level 61, right associativity) : py_scope.
Local Open Scope py_scope.

(** [for x in xs: ys.append(f(x))] *)
Fixpoint for_each {S A B} (f : A -> M S B) (xs : list A) : M S (list B) :=
  match xs with
  | [] => ret []
  | x :: rest =>
      y <- f x ;;
      ys <- for_each f rest ;;
      ret (y :: ys)
  end.

(** ** Operations of Python values that can raise *)

Section PyOps.
Variable S : Type.

(** [v.get(k, default)]: only a dict has [get]. *)
Definition py_get (v : pyval) (k : string) (default : pyval) : M S pyval :=
  match v with
  | VDict d => ret (dict_get_default d k default)
  | _ => raise AttributeError
           (squote ++ type_name v ++ "' object has no attribute 'get'")
  end.

(** [v[k]] for a string key [k]. *)
Definition py_getitem (v : pyval) (k : string) : M S pyval :=
  match v with
  | VDict d =>
      match dict_get d k with
      | Some x => ret x
      | None => raise KeyError (squote ++ k ++ squote)
      end
  | VList _ => raise TypeError "list indices must be integers or slices, not str"
  | VStr _ => raise TypeError "string indices must be integers, not 'str'"
  | _ => raise TypeError
           (squote ++ type_name v ++ "' object is not subscriptable")
  end.

(** [v.items()] *)
Definition py_items (v : pyval) : M S (list (string * pyval)) :=
  match v with
  | VDict d => ret d
  | _ => raise AttributeError
           (squote ++ type_name v ++ "' object has no attribute 'items'")
  end.

(** [for x in v]: the elements of a list, the keys of a dict, the
    characters of a string. *)
Definition py_iter (v : pyval) : M S (list pyval) :=
  match v with
  | VList l => ret l
  | VDict d => ret (map (fun kv => VStr (fst kv)) d)
  | VStr s => ret (map VStr (chars s))
  | _ => raise TypeError
           (squote ++ type_name v ++ "' object is not iterable")
  end.

(** Lists and dicts are unhashable. *)
Definition hashable (v : pyval) : bool :=
  match v with VList _ | VDict _ => false | _ => true end.

(** [set(v)], kept as the list of its members. *)
Definition py_set (v : pyval) : M S (list pyval) :=
  xs <- py_iter v ;;
  if forallb hashable xs then ret xs
  else raise TypeError "unhashable type".

(** [k in s] for a string [k] and a set [s]. *)
Definition str_in (k : string) (s : list pyval) : bool :=
  existsb (fun v => eq_str v k) s.
End PyOps.

(** ** The world outside the interpreter *)

Inductive http_method : Type := GET | POST.

(** A request as [requests.Session] sends it. *)
Record request : Type := Request {
  rq_method : http_method;
  rq_url : string;
  rq_headers : list (string * string);
  rq_json : option pyval
}.

(** A [requests.Response]: the status code and the body, decoded where it
    is JSON ([None]: [response.json()] raises). *)
Record response : Type := Response {
  status_code : Z;
  body : option pyval
}.

(** What the transport does with one request. *)
Inductive reply : Type :=
| Answers (r : response)
| Fails (e : exn).

Record world : Type := World {
  (** what the transport does with the requests to come, in order *)
  net : list reply;
  (** the requests made so far, oldest first *)
  sent : list request;
  (** the lines printed so far, oldest first *)
  stdout : list string;
  (** [self._session_id] of the [TrikClient] instances, newest write first *)
  session_ids : list (nat * pyval);
  (** how many [TrikClient] instances exist *)
  instances : nat;
  (** the module global of [agent.py] *)
  _last_passthrough_content : option (pyval * pyval)
}.

Definition set_net (n : list reply) (w : world) : world :=
  World n (sent w) (stdout w) (session_ids w) (instances w)
        (_last_passthrough_content w).
Definition set_sent (x : list request) (w : world) : world :=
  World (net w) x (stdout w) (session_ids w) (instances w)
        (_last_passthrough_content w).
Definition set_stdout (x : list string) (w : world) : world :=
  World (net w) (sent w) x (session_ids w) (instances w)
        (_last_passthrough_content w).
Definition set_session_ids (x : list (nat * pyval)) (w : world) : world :=
  World (net w) (sent w) (stdout w) x (instances w)
        (_last_passthrough_content w).
Definition set_instances (x : nat) (w : world) : world :=
  World (net w) (sent w) (stdout w) (session_ids w) x
        (_last_passthrough_content w).
Definition set_last_passthrough_content (x : option (pyval * pyval)) (w : world)
  : world :=
  World (net w) (sent w) (stdout w) (session_ids w) (instances w) x.

(** [print(line)] *)
Definition print (line : string) : M world unit :=
  modify (fun w => set_stdout (stdout w ++ [line]) w).

(** One request on the transport: it is logged, and the next scripted reply
    is consumed; with none left the endpoint is unreachable. *)
Definition session_request (rq : request) : M world response :=
  fun w =>
    let w1 := set_sent (sent w ++ [rq]) w in
    match net w with
    | [] => (Raise (Exn ConnectionError "connection refused"), w1)
    | Fails e :: rest => (Raise e, set_net rest w1)
    | Answers r :: rest => (Ok r, set_net rest w1)
    end.

(** [response.ok]: the status is not a 4xx or 5xx. *)
Definition response_ok (r : response) : bool :=
  negb (Z.leb 400 (status_code r) && Z.ltb (status_code r) 600).

(** [response.raise_for_status()] *)
Definition raise_for_status (r : response) : M world unit :=
  if response_ok r then ret tt else raise HTTPError "HTTP error".

(** [response.json()] *)
Definition response_json (r : response) : M world pyval :=
  match body r with
  | Some v => ret v
  | None => raise JSONDecodeError "Expecting value"
  end.

(** ** trik_client.py *)

Section Playground.

(** [repr(v)] of a value that is not a string: the interpreter's, kept
    abstract. *)
Variable repr : pyval -> string.

(** [str(v)], as an f-string formats [v]. *)
Definition py_str (v : pyval) : string :=
  match v with
  | VStr s => s
  | _ => repr v
  end.

(** A [TrikClient] instance. [self_id] is the identity of the object: its
    mutable attribute [_session_id] lives in the world under that key, so
    that every closure holding the instance sees the same value. *)
Record TrikClient : Type := mkTrikClient {
  self_id : nat;
  base_url : string;
  session_headers : list (string * string);
  on_passthrough : option (pyval -> pyval -> M world unit)
}.

(** [self._session_id] *)
Fixpoint lookup_id (l : list (nat * pyval)) (i : nat) : pyval :=
  match l with
  | [] => VNone
  | (j, v) :: rest => if Nat.eqb j i then v else lookup_id rest i
  end.

Definition get_session_id (self : TrikClient) (w : world) : pyval :=
  lookup_id (session_ids w) (self_id self).

(** [self._session_id = v] *)
Definition set_session_id (self : TrikClient) (v : pyval) (w : world) : world :=
  set_session_ids ((self_id self, v) :: session_ids w) w.

(** [TrikClient.__init__] *)
Definition TrikClient_init (base_url : string) (auth_token : option string)
  (on_passthrough : option (pyval -> pyval -> M world unit))
  : M world TrikClient :=
  i <- gets instances ;;
  modify (set_instances (S i)) ;;
  let headers :=
    match auth_token with
    | Some t => if str_empty t then [] else [("Authorization", ("Bearer " ++ t)%string)]
    | None => []
    end in
  let self := mkTrikClient i (rstrip_char slash base_url) headers on_passthrough in
  modify (set_session_id self VNone) ;;
  ret self.

(** [self.session.get(url)] and [self.session.post(url, json=payload)] *)
Definition session_get (self : TrikClient) (url : string) : M world response :=
  session_request (Request GET url (session_headers self) None).

Definition session_post (self : TrikClient) (url : string) (payload : pyval)
  : M world response :=
  session_request (Request POST url (session_headers self) (Some payload)).

Definition health (self : TrikClient) : M world pyval :=
  response <- session_get self (base_url self ++ "/api/v1/health") ;;
  raise_for_status response ;;
  response_json response.

Definition get_tools (self : TrikClient) : M world pyval :=
  response <- session_get self (base_url self ++ "/api/v1/tools") ;;
  raise_for_status response ;;
  response_json response.

(** The payload [execute] builds before it posts. *)
Definition execute_payload (tool : string) (input_data : dict) (sid : pyval)
  : dict :=
  let payload := [("tool", VStr tool); ("input", VDict input_data)] in
  if truthy sid then dict_set payload "sessionId" sid else payload.

Definition execute (self : TrikClient) (tool : string) (input_data : dict)
  (session_id : pyval) : M world pyval :=
  stored <- gets (get_session_id self) ;;
  let sid := py_or session_id stored in
  let payload := execute_payload tool input_data sid in
  response <- session_post self (base_url self ++ "/api/v1/execute")
                (VDict payload) ;;
  result <- response_json response ;;
  if negb (response_ok response) then
    (print ("[DEBUG] Request failed: " ++ py_str (VInt (status_code response))
            ++ ", input: " ++ py_str (VDict input_data)) ;;
     ret result)
  else
    (sid' <- py_get result "sessionId" VNone ;;
     (if truthy sid' then
        v <- py_getitem result "sessionId" ;;
        modify (set_session_id self v)
      else ret tt) ;;
     ret result).

Definition get_content (self : TrikClient) (ref : pyval) : M world pyval :=
  response <- session_get self
                (base_url self ++ "/api/v1/content/" ++ py_str ref) ;;
  raise_for_status response ;;
  response_json response.

(** [{k: v for k, v in kwargs.items() if v is not None}] *)
Definition filter_None (kwargs : dict) : dict :=
  filter (fun kv => is_not_None (snd kv)) kwargs.

Definition execute_tool (self : TrikClient) (tool_name : string) (kwargs : dict)
  : M world pyval :=
  let filtered_input := filter_None kwargs in
  result <- execute self tool_name filtered_input VNone ;;
  success <- py_get result "success" VNone ;;
  if negb (truthy success) then
    error <- py_get result "error" (VStr "Unknown error") ;;
    ret (VStr ("Error: " ++ py_str error))
  else
    response_mode <- py_get result "responseMode" VNone ;;
    if eq_str response_mode "template" then
      py_get result "response" (VStr "Action completed.")
    else if eq_str response_mode "passthrough" then
      content_ref <- py_get result "userContentRef" VNone ;;
      if truthy content_ref then
        content_result <- get_content self content_ref ;;
        content_success <- py_get content_result "success" VNone ;;
        if truthy content_success then
          content_data <- py_getitem content_result "content" ;;
          content_text <- py_get content_data "content" (VStr EmptyString) ;;
          metadata <- py_get content_data "metadata" (VDict []) ;;
          (match on_passthrough self with
           | Some callback => callback content_text metadata
           | None => ret tt
           end) ;;
          content_type <- py_get result "contentType" (VStr "content") ;;
          ret (VStr ("[" ++ py_str content_type ++ " delivered to user]"))
        else ret (VStr "Content delivered to user.")
      else ret (VStr "Content delivered to user.")
    else py_get result "response" (VStr "Action completed.").

(** *** Tool argument schemas *)

(** The Python types [_build_args_schema] maps JSON schema types to. *)
Inductive py_type : Type := Tstr | Tint | Tfloat | Tbool | Tlist | Tdict.

Definition type_map : list (string * py_type) :=
  [("string", Tstr); ("integer", Tint); ("number", Tfloat);
   ("boolean", Tbool); ("array", Tlist); ("object", Tdict)].

(** One field of a Pydantic model: [(python_type, Field(description=...))]
    when required, [(Optional[python_type], Field(default=None, ...))]
    when not. *)
Record FieldInfo : Type := mkField {
  annotation : py_type;
  required : bool;
  field_description : pyval
}.

(** A Pydantic model class: its fields by name, in order. *)
Definition args_model := list (string * FieldInfo).

(** [create_model("ToolArgs", **fields)] of pydantic, for the field
    definitions [_build_args_schema] collects: the model class, or the
    exception raised. Pydantic does not take every key as a field: a name
    with a leading underscore is refused ([NameError]), so is a name that
    clashes with an attribute of [BaseModel], and a key such as [__doc__],
    [__base__] or [__config__] binds a keyword of [create_model] itself
    instead of defining a field. Which keys these are, and what comes of
    them, is pydantic's and differs between its versions; it is kept
    abstract. *)
Variable create_model : args_model -> result args_model.

(** [for x in xs: acc = f(acc, x)] *)
Fixpoint for_fold {S A B} (f : B -> A -> M S B) (xs : list A) (acc : B)
  : M S B :=
  match xs with
  | [] => ret acc
  | x :: rest => acc' <- f acc x ;; for_fold f rest acc'
  end.

(** [type_map.get(json_type, str)]: looking up an unhashable key raises. *)
Definition type_map_get (json_type : pyval) : M world py_type :=
  match json_type with
  | VStr s => ret (dict_get_default type_map s Tstr)
  | VList _ | VDict _ =>
      raise TypeError ("unhashable type: '" ++ type_name json_type ++ squote)
  | _ => ret Tstr
  end.

Definition _build_args_schema (input_schema : pyval)
  : M world (option args_model) :=
  if negb (truthy input_schema) then ret None else
  schema_type <- py_get input_schema "type" VNone ;;
  if negb (eq_str schema_type "object") then ret None else
  properties <- py_get input_schema "properties" (VDict []) ;;
  required_list <- py_get input_schema "required" (VList []) ;;
  required <- py_set required_list ;;
  if negb (truthy properties) then ret None else
  items <- py_items properties ;;
  fields <- for_fold
              (fun (fields : args_model) (item : string * pyval) =>
                 let prop_name := fst item in
                 let prop_schema := snd item in
                 json_type <- py_get prop_schema "type" (VStr "string") ;;
                 python_type <- type_map_get json_type ;;
                 description <- py_get prop_schema "description"
                                  (VStr EmptyString) ;;
                 ret (dict_set fields prop_name
                        (mkField python_type (str_in prop_name required)
                                 description)))
              items [] ;;
  model <- lift_result (create_model fields) ;;
  ret (Some model).

(** *** LangChain tools *)

(** The functions tools are made from: the three decorated functions of
    [tools.py], and the closure [make_tool_func(name)] of
    [create_langchain_tools], which holds the client and the gateway name. *)
Inductive tool_func : Type :=
| fn_request_refund
| fn_find_order
| fn_get_project_details
| fn_tool_func (self : TrikClient) (name : string).

(** A [StructuredTool]; its [args_schema] is the model its arguments are
    validated against, the one it was given or the one inferred from the
    signature of its function. *)
Record StructuredTool : Type := mkTool {
  t_name : string;
  t_description : pyval;
  t_args_schema : args_model;
  t_func : tool_func
}.

(** [func.__name__] *)
Definition func_name (func : tool_func) : string :=
  match func with
  | fn_request_refund => "request_refund"
  | fn_find_order => "find_order"
  | fn_get_project_details => "get_project_details"
  | fn_tool_func _ _ => "tool_func"
  end.

(** The schema langchain_core infers for a tool that is given none, from
    the signature of [tool_func], whose only parameter is [**kwargs]: one
    optional field [kwargs] that holds a dict. The keys of a call are no
    fields of it, so that they do not reach the function. *)
Definition inferred_args_schema : args_model :=
  [("kwargs", mkField Tdict false VNone)].

(** The description [StructuredTool.from_function] gives a tool made from
    a function without docstring, for the name of the tool, the
    [description] argument and the argument schema; or the exception it
    raises. A description has to be given: [None] is refused
    ([ValueError]), the function having no docstring to take its place; it
    has to be a string; and langchain_core keeps a stripped or a prefixed
    form of it, and takes an empty one for a missing one, according to its
    version. This part of the library is kept abstract. *)
Variable tool_description : string -> pyval -> args_model -> result pyval.

(** [StructuredTool.from_function(func=..., name=..., description=...,
    args_schema=...)] for a function without docstring: the name of the
    tool is [name or func.__name__], and without an [args_schema] the tool
    gets the inferred one. *)
Definition from_function (func : tool_func) (name : string)
  (description : pyval) (args_schema : option args_model)
  : M world StructuredTool :=
  let name := if str_empty name then func_name func else name in
  let args_schema :=
    match args_schema with
    | Some model => model
    | None => inferred_args_schema
    end in
  description <- lift_result (tool_description name description args_schema) ;;
  ret (mkTool name description args_schema func).

(** The body of the loop of [create_langchain_tools]: the tool made of one
    descriptor. *)
Definition langchain_tool (self : TrikClient) (tool_def : pyval)
  : M world StructuredTool :=
  tool_name <- py_getitem tool_def "name" ;;
  description <- py_get tool_def "description" (VStr EmptyString) ;;
  input_schema <- py_get tool_def "inputSchema" (VDict []) ;;
  args_schema <- _build_args_schema input_schema ;;
  match tool_name with
  | VStr name =>
      from_function (fn_tool_func self name)
        (replace_char colon underscore name) description args_schema
  | _ => raise AttributeError
           (squote ++ type_name tool_name
            ++ "' object has no attribute 'replace'")
  end.

Definition create_langchain_tools (self : TrikClient)
  : M world (list StructuredTool) :=
  tools_response <- get_tools self ;;
  tool_defs <- py_get tools_response "tools" (VList []) ;;
  defs <- py_iter tool_defs ;;
  for_each (langchain_tool self) defs.

(** The module-level [load_trik_tools] of [trik_client.py]. *)
Definition load_trik_tools (server_url : string)
  (on_passthrough : option (pyval -> pyval -> M world unit))
  : M world (list StructuredTool * TrikClient) :=
  client <- TrikClient_init server_url None on_passthrough ;;
  health_info <- health client ;;
  version <- py_get health_info "version" (VStr "unknown") ;;
  print ("Connected to trik-server (v" ++ py_str version ++ ")") ;;
  triks <- py_get health_info "triks" (VDict []) ;;
  loaded <- py_get triks "loaded" (VInt 0) ;;
  print ("Loaded triks: " ++ py_str loaded) ;;
  tools <- create_langchain_tools client ;;
  ret (tools, client).

(** ** tools.py *)

(** A required [str] parameter of a decorated function. *)
Definition str_parameter : FieldInfo := mkField Tstr true VNone.

(** The [@tool] decorator gives a tool the name of the function, its
    docstring as description and its signature as argument schema. *)
Definition request_refund : StructuredTool :=
  mkTool "request_refund"
    (VStr "Process a refund request. Use when a user wants their money back.

Args:
    order_id: The order ID to refund. It must start with 'ORD'
    reason: A specific reason for the refund. Something that answers the question: 'Why?'")
    [("order_id", str_parameter); ("reason", str_parameter)]
    fn_request_refund.

Definition find_order : StructuredTool :=
  mkTool "find_order"
    (VStr "Finds an order based on its description.

Args:
    description: The description of the order")
    [("description", str_parameter)]
    fn_find_order.

Definition get_project_details : StructuredTool :=
  mkTool "get_project_details"
    (VStr "Get project information. Use when user asks about the project.

Args:
    question: The question about the project")
    [("question", str_parameter)]
    fn_get_project_details.

Definition BUILT_IN_TOOLS : list StructuredTool :=
  [request_refund; find_order; get_project_details].

(** Binding keyword arguments to the parameters [params] of a function
    that has no defaults and takes no other keywords. *)
Definition bind_params (fname : string) (params : list string) (kwargs : dict)
  : M world (list pyval) :=
  if negb (forallb (fun kv => existsb (String.eqb (fst kv)) params) kwargs)
  then raise TypeError (fname ++ "() got an unexpected keyword argument")
  else
    for_each
      (fun p =>
         match dict_get kwargs p with
         | Some v => ret v
         | None => raise TypeError
                     (fname ++ "() missing 1 required positional argument: '"
                      ++ p ++ squote)
         end)
      params.

(** Calling the function a tool is made from, with keyword arguments. *)
Definition call_func (f : tool_func) (kwargs : dict) : M world pyval :=
  match f with
  | fn_request_refund =>
      args <- bind_params "request_refund" ["order_id"; "reason"] kwargs ;;
      match args with
      | [order_id; reason] =>
          print ("Processing refund for order: " ++ py_str order_id) ;;
          print ("   Reason: " ++ py_str reason) ;;
          ret (VStr ("Refund request submitted for order " ++ py_str order_id
                     ++ ". Our team will process this within 3-5 business days."))
      | _ => raise TypeError "request_refund()"
      end
  | fn_find_order =>
      args <- bind_params "find_order" ["description"] kwargs ;;
      match args with
      | [description] =>
          print ("Finding order: " ++ py_str description) ;;
          ret (VStr ("Found order with description: " ++ py_str description
                     ++ ". Order ID is ORD123456."))
      | _ => raise TypeError "find_order()"
      end
  | fn_get_project_details =>
      args <- bind_params "get_project_details" ["question"] kwargs ;;
      match args with
      | [question] =>
          print ("Looking up: " ++ py_str question) ;;
          ret (VStr "Project: TrikHub Server Playground
Tech Stack: Python, LangGraph, LangChain, OpenAI, trik-server
Status: Active development
Features: Tool calling via HTTP API, Type-directed privilege separation, Passthrough content delivery")
      | _ => raise TypeError "get_project_details()"
      end
  | fn_tool_func self name => execute_tool self name kwargs
  end.

(** A [ToolLoader] instance. Its methods run on a state that pairs the
    instance with the world, so that an attribute assigned before an
    exception stays assigned. *)
Record ToolLoader : Type := mkToolLoader {
  server_url : string;
  loader_on_passthrough : option (pyval -> pyval -> M world unit);
  trik_client : option TrikClient;
  trik_tools : list StructuredTool;
  loaded_triks : list pyval
}.

(** [ToolLoader.__init__] *)
Definition ToolLoader_init (server_url : string)
  (on_passthrough : option (pyval -> pyval -> M world unit)) : ToolLoader :=
  mkToolLoader server_url on_passthrough None [] [].

Definition set_trik_client (c : option TrikClient) (l : ToolLoader) : ToolLoader :=
  mkToolLoader (server_url l) (loader_on_passthrough l) c (trik_tools l)
               (loaded_triks l).
Definition set_trik_tools (t : list StructuredTool) (l : ToolLoader) : ToolLoader :=
  mkToolLoader (server_url l) (loader_on_passthrough l) (trik_client l) t
               (loaded_triks l).
Definition set_loaded_triks (t : list pyval) (l : ToolLoader) : ToolLoader :=
  mkToolLoader (server_url l) (loader_on_passthrough l) (trik_client l)
               (trik_tools l) t.

Definition LM (A : Type) : Type := M (ToolLoader * world) A.

(** [self.attr] and [self.attr = v] *)
Definition self_get {A} (attr : ToolLoader -> A) : LM A :=
  gets (fun s => attr (fst s)).
Definition self_set (f : ToolLoader -> ToolLoader) : LM unit :=
  modify (fun s => (f (fst s), snd s)).

Definition in_world {A} (m : M world A) : LM A := lift_snd m.

(** [sep.join(xs)]: every item has to be a [str]. *)
Fixpoint str_items (xs : list pyval) : option (list string) :=
  match xs with
  | [] => Some []
  | VStr s :: rest =>
      match str_items rest with
      | Some l => Some (s :: l)
      | None => None
      end
  | _ :: _ => None
  end.

Definition py_join (sep : string) (xs : list pyval) : LM string :=
  match str_items xs with
  | Some l => ret (String.concat sep l)
  | None => raise TypeError "sequence item: expected str instance"
  end.

(** The body of the [try] of [ToolLoader.load_trik_tools]. *)
Definition ToolLoader_load_trik_tools_try : LM (list StructuredTool) :=
  url <- self_get server_url ;;
  callback <- self_get loader_on_passthrough ;;
  loaded <- in_world (load_trik_tools url callback) ;;
  let tools := fst loaded in
  let client := snd loaded in
  self_set (set_trik_client (Some client)) ;;
  self_set (set_trik_tools tools) ;;
  tools_response <- in_world (get_tools client) ;;
  triks <- py_get tools_response "triks" (VList []) ;;
  items <- py_iter triks ;;
  ids <- for_each (fun t => py_getitem t "id") items ;;
  self_set (set_loaded_triks ids) ;;
  (match ids with
   | _ :: _ =>
       joined <- py_join ", " ids ;;
       in_world (print ("[Triks] Loaded " ++ py_str (VInt (Z.of_nat (length ids)))
                        ++ " triks: " ++ joined))
   | [] => in_world (print "[Triks] No triks configured on server.")
   end) ;;
  ret tools.

(** The [except Exception as e] of [ToolLoader.load_trik_tools]. *)
Definition ToolLoader_load_trik_tools_except (e : exn)
  : LM (list StructuredTool) :=
  in_world (print ("[Triks] Error loading triks from server: " ++ exn_msg e)) ;;
  url <- self_get server_url ;;
  in_world (print ("[Triks] Make sure trik-server is running at " ++ url)) ;;
  ret [].

Definition ToolLoader_load_trik_tools : LM (list StructuredTool) :=
  try_except ToolLoader_load_trik_tools_try ToolLoader_load_trik_tools_except.

Definition get_all_tools : LM (list StructuredTool) :=
  trik_tools <- ToolLoader_load_trik_tools ;;
  ret (BUILT_IN_TOOLS ++ trik_tools)%list.

Definition get_client : LM (option TrikClient) := self_get trik_client.

Definition load_all_tools (server_url : string)
  (on_passthrough : option (pyval -> pyval -> M world unit))
  : M world (list StructuredTool * ToolLoader) :=
  fun w =>
    let loader := ToolLoader_init server_url on_passthrough in
    match get_all_tools (loader, w) with
    | (Ok all_tools, (loader', w')) => (Ok (all_tools, loader'), w')
    | (Raise e, (_, w')) => (Raise e, w')
    end.

(** ** agent.py: the passthrough slot *)

Definition get_last_passthrough_content : M world (option (pyval * pyval)) :=
  content <- gets _last_passthrough_content ;;
  modify (set_last_passthrough_content None) ;;
  ret content.

Definition handle_passthrough (content metadata : pyval) : M world unit :=
  modify (set_last_passthrough_content (Some (content, metadata))).

(** ** The libraries the workflow is built on

    [ToolNode] (langgraph.prebuilt), the invocation of a [StructuredTool]
    (langchain_core) and the validation of its arguments (pydantic) are not
    part of the repository. They are modelled as far as the workflow relies
    on them. *)

Record ToolCall : Type := mkToolCall {
  tc_name : string;
  tc_args : dict;
  tc_id : string
}.

Inductive message : Type :=
| HumanMessage (content : string)
| AIMessage (content : string) (tool_calls : list ToolCall)
| ToolMessage (content : string) (tool_call_id : string).

(** Pydantic's validation of one value against a field type ([None]: the
    value is refused). *)
Variable coerce : py_type -> pyval -> option pyval.

(** Whether the tool layer hands the default of an unset field to the
    function (as the comment in [execute_tool] expects) or leaves the
    keyword out; this differs between versions of langchain_core. *)
Variable pass_unset : bool.

(** Validation of the arguments of a tool call against its model: a
    supplied field is validated, [None] is accepted by an [Optional] field,
    an unset required field is an error, an unset optional field takes its
    default [None]; keys that are no fields are ignored. *)
Definition model_validate (model : args_model) (args : dict) : M world dict :=
  for_fold
    (fun (kwargs : dict) (f : string * FieldInfo) =>
       let name := fst f in
       let info := snd f in
       match dict_get args name with
       | Some VNone =>
           if required info
           then raise ValidationError (name ++ ": Input should not be None")
           else ret (dict_set kwargs name VNone)
       | Some v =>
           match coerce (annotation info) v with
           | Some v' => ret (dict_set kwargs name v')
           | None => raise ValidationError (name ++ ": Input is not valid")
           end
       | None =>
           if required info
           then raise ValidationError (name ++ ": Field required")
           else ret (if pass_unset then dict_set kwargs name VNone else kwargs)
       end)
    model [].

(** [tool.invoke(call)]: the arguments of the call are validated against
    the schema of the tool, and what comes out of the validation is passed
    to the function. *)
Definition tool_invoke (t : StructuredTool) (args : dict) : M world pyval :=
  kwargs <- model_validate (t_args_schema t) args ;;
  call_func (t_func t) kwargs.

(** [ToolNode.__init__]: [self.tools_by_name[tool.name] = tool] for every
    tool, in the order of the list. *)
Definition tools_by_name (tools : list StructuredTool)
  : list (string * StructuredTool) :=
  fold_left (fun d t => dict_set d (t_name t) t) tools [].

(** The state of a run of the graph: the world, and before it a ghost
    component that no tool can reach, the ids of the calls the tool node
    has dispatched so far. *)
Definition GM (A : Type) : Type := M (list string * world) A.

Definition dispatched (s : list string * world) : list string := fst s.

(** One tool call in the tool node: the tool is looked up by name and
    invoked; an unknown name and an exception of the tool become the
    content of the result message. There is one [ToolMessage] for the call
    in every case, with the id of the call. *)
Definition run_one (tools : list StructuredTool) (call : ToolCall)
  : GM message :=
  modify (fun s => ((dispatched s ++ [tc_id call])%list, snd s)) ;;
  match dict_get (tools_by_name tools) (tc_name call) with
  | None =>
      ret (ToolMessage
             ("Error: " ++ tc_name call ++ " is not a valid tool, try one of ["
              ++ String.concat ", " (map fst (tools_by_name tools)) ++ "].")
             (tc_id call))
  | Some t =>
      lift_snd
        (try_except
           (output <- tool_invoke t (tc_args call) ;;
            ret (ToolMessage (py_str output) (tc_id call)))
           (fun e =>
              ret (ToolMessage
                     ("Error: " ++ exn_msg e ++ newline
                      ++ " Please fix your mistakes.")
                     (tc_id call))))
  end.

(** [messages[-1]] *)
Definition last_of {S} (messages : list message) : M S message :=
  match rev messages with
  | m :: _ => ret m
  | [] => raise IndexError "list index out of range"
  end.

(** The tool node: the calls of the last message, one after the other. *)
Definition ToolNode (tools : list StructuredTool) (messages : list message)
  : GM (list message) :=
  last_message <- last_of messages ;;
  match last_message with
  | AIMessage _ tool_calls => for_each (run_one tools) tool_calls
  | _ => raise ValueError "Last message is not an AIMessage"
  end.

(** ** agent.py: the workflow *)

Record ReasonValidation : Type := mkReasonValidation {
  is_valid : bool;
  feedback : string
}.

Definition quoted (s : string) : string := dquote ++ s ++ dquote.

(** The system message of the validator. *)
Definition validator_system_prompt : string :=
  "You evaluate refund reasons for a customer service system.
A valid reason should explain WHY the customer wants a refund.

Valid examples: " ++ quoted "product arrived damaged" ++ ", "
  ++ quoted "wrong size delivered" ++ ", "
  ++ quoted "item doesn't match description" ++ ", "
  ++ quoted "received wrong color" ++ "
Invalid examples: " ++ quoted "I want a refund" ++ ", "
  ++ quoted "refund please" ++ ", " ++ quoted "money back" ++ ", "
  ++ quoted "return" ++ ", " ++ quoted "don't want it" ++ "

Be reasonable - if there's a clear problem stated, it's valid.".

(** The nodes of the graph; [N_END] is langgraph's [END]. *)
Inductive node : Type := N_agent | N_validate_refund | N_tools | N_END.

Section create_agent_graph.

(** The tools the graph is created with. *)
Variable tools : list StructuredTool.

(** [model.invoke(messages)]: the chat model with the tools bound, a
    collaborator that answers a conversation with a message or fails. *)
Variable model : list message -> result message.

(** [validator.invoke([system, user])]: the chat model with structured
    output, given the contents of the system and of the user message. *)
Variable validator : string -> string -> result ReasonValidation.

Definition call_model (messages : list message) : M world (list message) :=
  response <- lift_result (model messages) ;;
  ret [response].

Definition is_refund_call (tc : ToolCall) : bool :=
  String.eqb (tc_name tc) "request_refund".

Definition validate_refund (messages : list message) : M world (list message) :=
  last_message <- last_of messages ;;
  match last_message with
  | AIMessage _ tool_calls =>
      match find is_refund_call tool_calls with
      | None => ret []
      | Some refund_call =>
          let reason :=
            dict_get_default (tc_args refund_call) "reason" (VStr EmptyString) in
          evaluation <- lift_result
                          (validator validator_system_prompt
                             ("Evaluate this refund reason: "
                              ++ quoted (py_str reason))) ;;
          print ("Reason validation: "
                 ++ (if is_valid evaluation then "Valid" else "Invalid")) ;;
          if negb (is_valid evaluation) then
            ret [ToolMessage
                   ("VALIDATION FAILED: " ++ feedback evaluation ++ " "
                    ++ "Please ask the customer for a more specific reason before trying again!")
                   (tc_id refund_call)]
          else ret []
      end
  | _ => ret []
  end.

Definition route_after_agent (messages : list message) : M world node :=
  last_message <- last_of messages ;;
  match last_message with
  | AIMessage _ tool_calls =>
      match tool_calls with
      | [] => ret N_END
      | _ :: _ =>
          if existsb is_refund_call tool_calls then ret N_validate_refund
          else ret N_tools
      end
  | _ => ret N_END
  end.

Definition route_after_validation (messages : list message) : M world node :=
  last_message <- last_of messages ;;
  match last_message with
  | ToolMessage _ _ => ret N_agent
  | _ => ret N_tools
  end.

(** One step of the compiled graph: the node runs on the messages, what it
    returns is appended to them, and the edge out of the node gives the
    next node. *)
Definition step (n : node) (messages : list message)
  : GM (node * list message) :=
  match n with
  | N_agent =>
      out <- lift_snd (call_model messages) ;;
      next <- lift_snd (route_after_agent (messages ++ out)) ;;
      ret (next, (messages ++ out)%list)
  | N_validate_refund =>
      out <- lift_snd (validate_refund messages) ;;
      next <- lift_snd (route_after_validation (messages ++ out)) ;;
      ret (next, (messages ++ out)%list)
  | N_tools =>
      out <- ToolNode tools messages ;;
      ret (N_agent, (messages ++ out)%list)
  | N_END => ret (N_END, messages)
  end.

(** The run of the graph from a node, for at most [fuel] steps; langgraph
    raises when its recursion limit is reached before [END]. *)
Fixpoint run (fuel : nat) (n : node) (messages : list message)
  : GM (list message) :=
  match n with
  | N_END => ret messages
  | _ =>
      match fuel with
      | O => raise GraphRecursionError "Recursion limit reached"
      | S fuel' =>
          next <- step n messages ;;
          run fuel' (fst next) (snd next)
      end
  end.

(** langgraph's default recursion limit. *)
Definition recursion_limit : nat := 25.

(** [graph.invoke({"messages": messages})]: the edge from [START] leads to
    the agent node. *)
Definition graph_invoke (messages : list message) : M world (list message) :=
  fun w =>
    match run recursion_limit N_agent messages ([], w) with
    | (r, (_, w')) => (r, w')
    end.

End create_agent_graph.

(** [initialize_agent_with_triks]: the tools and the loader; the graph is
    [graph_invoke] on these tools. *)
Definition initialize_agent_with_triks (server_url : string)
  : M world (list StructuredTool * ToolLoader) :=
  load_all_tools server_url (Some handle_passthrough).

(** ** cli.py: the loop of [main] *)


Section cli.

(** The tools and the collaborators of the graph [main] got from
    [initialize_agent_with_triks]. *)
Variable tools : list StructuredTool.
Variable model : list message -> result message.
Variable validator : string -> string -> result ReasonValidation.

(** [str.strip] and [str.lower]: the interpreter's, kept abstract. *)
Variable py_strip : string -> string.
Variable py_lower : string -> string.

(** [getattr(message, "content", ...)] *)
Definition message_content (m : message) : string :=
  match m with
  | HumanMessage content => content
  | AIMessage content _ => content
  | ToolMessage content _ => content
  end.

(** One turn of the loop of [main], from [messages.append] on: the list
    [messages] of the loop before and after. Inside the [try] the list is
    replaced by the conversation the graph returns; the handler leaves it
    with the user message the turn appended. *)
Definition turn (user_input : string) (messages : list message)
  : M world (list message) :=
  let messages := (messages ++ [HumanMessage user_input])%list in
  try_except
    (result <- graph_invoke tools model validator messages ;;
     passthrough <- get_last_passthrough_content ;;
     (match passthrough with
      | Some (content, metadata) =>
          content_type <- py_get metadata "contentType" (VStr "content") ;;
          print (newline ++ "--- Direct Content (" ++ py_str content_type
                 ++ ") ---") ;;
          print (py_str content) ;;
          print ("--- End ---" ++ newline)
      | None => ret tt
      end) ;;
     assistant_message <- last_of result ;;
     print (newline ++ "Assistant: " ++ message_content assistant_message
            ++ newline) ;;
     ret result)
    (fun e =>
       print (newline ++ "Error: " ++ exn_msg e) ;;
       print ("Please try again." ++ newline) ;;
       ret messages).



End cli.

(** ** Properties of a conversation *)

(** The ids of the tool calls of a message. *)
Definition call_ids (m : message) : list string :=
  match m with
  | AIMessage _ tool_calls => map tc_id tool_calls
  | _ => []
  end.

(** How many result messages of a conversation answer the call [id]. *)
Definition results_for (id : string) (messages : list message) : nat :=
  length (filter (fun m => match m with
                           | ToolMessage _ i => String.eqb i id
                           | _ => false
                           end) messages).

(** Every call of every assistant message has exactly one result. *)
Definition no_dangling_calls (messages : list message) : bool :=
  forallb (fun m => forallb (fun id => Nat.eqb (results_for id messages) 1)
                            (call_ids m))
          messages.

(** ** Vocabulary of the properties *)

Ltac unfold_m :=
  unfold bind, ret, raise, gets, modify, try_except, lift_result, print in *.

(** The request [execute] makes. *)
Definition execute_request (self : TrikClient) (tool : string)
  (input_data : dict) (sid : pyval) : request :=
  Request POST (base_url self ++ "/api/v1/execute") (session_headers self)
          (Some (VDict (execute_payload tool input_data sid))).

(** The acknowledgment of a passthrough delivery. *)
Definition delivered_text (env : dict) : string :=
  "[" ++ py_str (dict_get_default env "contentType" (VStr "content"))
  ++ " delivered to user]".

(** The lines the handler of [ToolLoader.load_trik_tools] prints. *)
Definition load_warning (e : exn) (url : string) : list string :=
  [("[Triks] Error loading triks from server: " ++ exn_msg e)%string;
   ("[Triks] Make sure trik-server is running at " ++ url)%string].

(** The name of a tool descriptor of the gateway. *)
Definition descriptor_name (tool_def : pyval) : option string :=
  match tool_def with
  | VDict d =>
      match dict_get d "name" with
      | Some (VStr name) => Some name
      | _ => None
      end
  | _ => None
  end.

(** The descriptors in the answer of the gateway to [get_tools]. *)
Definition descriptors (tools_response : pyval) : M world (list pyval) :=
  tool_defs <- py_get tools_response "tools" (VList []) ;;
  py_iter tool_defs.

(** [t] is a tool [create_langchain_tools] makes for the client [self]
    from a descriptor named [name]: it is exposed under the name with its
    colons replaced, or as [tool_func] when the name is empty, and its
    function calls [execute_tool] with the name as it is. *)
Definition gateway_tool (self : TrikClient) (name : string)
  (t : StructuredTool) : Prop :=
  t_name t = (if str_empty name then "tool_func"
              else replace_char colon underscore name)
  /\ t_func t = fn_tool_func self name.

(** A computation that only adds requests to the log. *)
Definition extends_log {A} (m : M world A) : Prop :=
  forall w, exists more, sent (snd (m w)) = (sent w ++ more)%list.

(** The passthrough callback of a client leaves the requests made so far
    in the log. *)
Definition callback_keeps_log (self : TrikClient) : Prop :=
  match on_passthrough self with
  | Some callback => forall c m, extends_log (callback c m)
  | None => True
  end.

(** The JSON schema of an object with the properties [q] and [n], of which
    [q] is required. *)
Definition two_property_schema (q n : string) (sq sn : dict) : pyval :=
  VDict [("type", VStr "object");
         ("properties", VDict [(q, VDict sq); (n, VDict sn)]);
         ("required", VList [VStr q])].

(** The model [_build_args_schema] makes of it when [q] is a string and
    [n] an integer. *)
Definition two_property_model (q n : string) (sq sn : dict) : args_model :=
  [(q, mkField Tstr true (dict_get_default sq "description" (VStr EmptyString)));
   (n, mkField Tint false (dict_get_default sn "description" (VStr EmptyString)))].

(** The tools of a list that are exposed under the name [n]. *)
Definition named (n : string) (t : StructuredTool) : bool :=
  String.eqb (t_name t) n.

(** The user message [validate_refund] sends to the validator for a call. *)
Definition validation_prompt (refund_call : ToolCall) : string :=
  "Evaluate this refund reason: "
  ++ quoted (py_str (dict_get_default (tc_args refund_call) "reason"
                                      (VStr EmptyString))).

(** The result message [validate_refund] makes of a rejection. *)
Definition rejection (evaluation : ReasonValidation) (refund_call : ToolCall)
  : message :=
  ToolMessage
    ("VALIDATION FAILED: " ++ feedback evaluation ++ " "
     ++ "Please ask the customer for a more specific reason before trying again!")
    (tc_id refund_call).

(** The edge out of the agent node, by the message the model answered. *)
Definition next_after_agent (m : message) : node :=
  match m with
  | AIMessage _ ((_ :: _) as tool_calls) =>
      if existsb is_refund_call tool_calls then N_validate_refund else N_tools
  | _ => N_END
  end.

(** The edge out of the validation node, by the message it added, if any,
    or else the message it looked at. *)
Definition next_after_validation (m : message) (out : list message) : node :=
  match last out m with
  | ToolMessage _ _ => N_agent
  | _ => N_tools
  end.

(** The conversation extends [base], and the message a node other than the
    agent looks at has no call with the id [id]. *)
Definition settled (id : string) (base : list message) (n : node)
  (messages : list message) : Prop :=
  (exists later, messages = (base ++ later)%list)
  /\ match n with
     | N_validate_refund | N_tools =>
         exists front m, messages = (front ++ [m])%list /\ ~ In id (call_ids m)
     | _ => True
     end.

(** The state [s'] has dispatched what [s] has, and then no call with the
    id. *)
Definition no_new_dispatch (id : string) (s s' : list string * world) : Prop :=
  exists extra, dispatched s' = (dispatched s ++ extra)%list /\ ~ In id extra.

(** [k] copies of the character [c]. *)
Fixpoint copies (c : ascii) (k : nat) : string :=
  match k with
  | O => EmptyString
  | S k' => String c (copies c k')
  end.

(** [s.endswith(c)] for a character [c]. *)
Fixpoint ends_with_char (c : ascii) (s : string) : bool :=
  match s with
  | EmptyString => false
  | String a EmptyString => Ascii.eqb a c
  | String _ rest => ends_with_char c rest
  end.

(** The request of [self.session.get] for a path under the base URL. *)
Definition get_request (self : TrikClient) (path : string) : request :=
  Request GET (base_url self ++ path) (session_headers self) None.

(** What a [get] followed by [raise_for_status] and [json] gives for a
    list of replies to come. *)
Definition get_outcome (replies : list reply) : result pyval :=
  match replies with
  | [] => Raise (Exn ConnectionError "connection refused")
  | Fails e :: _ => Raise e
  | Answers r :: _ =>
      if response_ok r then
        match body r with
        | Some v => Ok v
        | None => Raise (Exn JSONDecodeError "Expecting value")
        end
      else Raise (Exn HTTPError "HTTP error")
  end.

(** The world after one request [rq] on the transport. *)
Definition after_request (rq : request) (w : world) : world :=
  set_net (tl (net w)) (set_sent (sent w ++ [rq]) w).

(** What [execute] returns or raises for a list of replies to come: an
    error status gives the decoded body back whatever it is, while an
    HTTP-ok body has to be an object, for [result.get] to work. *)
Definition execute_outcome (replies : list reply) : result pyval :=
  match replies with
  | [] => Raise (Exn ConnectionError "connection refused")
  | Fails e :: _ => Raise e
  | Answers r :: _ =>
      match body r with
      | None => Raise (Exn JSONDecodeError "Expecting value")
      | Some v =>
          if response_ok r then
            match v with
            | VDict _ => Ok v
            | _ => Raise (Exn AttributeError
                            (squote ++ type_name v
                             ++ "' object has no attribute 'get'"))
            end
          else Ok v
      end
  end.

(** The line [execute] prints for an error status with a decodable body. *)
Definition execute_debug (input_data : dict) (replies : list reply)
  : list string :=
  match replies with
  | Answers r :: _ =>
      match body r with
      | Some _ =>
          if response_ok r then []
          else [("[DEBUG] Request failed: " ++ py_str (VInt (status_code r))
                 ++ ", input: " ++ py_str (VDict input_data))%string]
      | None => []
      end
  | _ => []
  end.

(** The JSON type a property schema declares, ["string"] by default. *)
Definition json_type_of (prop_schema : dict) : pyval :=
  dict_get_default prop_schema "type" (VStr "string").

(** The Python type [type_map.get(json_type, str)] gives ([None]: the
    lookup raises, the key being unhashable). *)
Definition python_type (json_type : pyval) : option py_type :=
  match json_type with
  | VStr s => Some (dict_get_default type_map s Tstr)
  | VList _ | VDict _ => None
  | _ => Some Tstr
  end.

(** The field [_build_args_schema] makes of the property [prop_name]. *)
Definition field_of (required : list pyval) (prop_name : string)
  (prop_schema : dict) (ty : py_type) : FieldInfo :=
  mkField ty (str_in prop_name required)
          (dict_get_default prop_schema "description" (VStr EmptyString)).

(** A computation that leaves the passthrough slot as it is, whether it
    returns or raises. *)
Definition keeps_slot {A} (m : M world A) : Prop :=
  forall w, _last_passthrough_content (snd (m w)) = _last_passthrough_content w.

(** The lines the handler of a turn prints. *)
Definition turn_error (e : exn) : list string :=
  [(newline ++ "Error: " ++ exn_msg e)%string;
   ("Please try again." ++ newline)%string].

(** What a turn does after the graph has returned and the slot has been
    read. *)
Definition show (passthrough : option (pyval * pyval)) (result : list message)
  : M world (list message) :=
  (match passthrough with
   | Some (content, metadata) =>
       content_type <- py_get metadata "contentType" (VStr "content") ;;
       print (newline ++ "--- Direct Content (" ++ py_str content_type
              ++ ") ---") ;;
       print (py_str content) ;;
       print ("--- End ---" ++ newline)
   | None => ret tt
   end) ;;
  assistant_message <- last_of result ;;
  print (newline ++ "Assistant: " ++ message_content assistant_message
         ++ newline) ;;
  ret result.

(** The client [load_trik_tools] creates in the world [w]. *)
Definition loaded_client (url : string)
  (callback : option (pyval -> pyval -> M world unit)) (w : world)
  : TrikClient :=
  mkTrikClient (instances w) (rstrip_char slash url) [] callback.

(** The world after [load_trik_tools] has created its client in [w] and
    has asked the gateway for its health. *)
Definition after_health (url : string)
  (callback : option (pyval -> pyval -> M world unit)) (w : world) : world :=
  let client := loaded_client url callback w in
  after_request (get_request client "/api/v1/health")
    (set_session_id client VNone (set_instances (S (instances w)) w)).

(** A reply that answers the health request of a load: a JSON object under
    a status that is no error, whose [triks], if it has any, is an object. *)
Definition health_answer (r : reply) : Prop :=
  exists h t,
    get_outcome [r] = Ok (VDict h)
    /\ dict_get_default h "triks" (VDict []) = VDict t.

(** A reply that lists the descriptors [defs] as its [tools]. *)
Definition listing (r : reply) (defs : list pyval) : Prop :=
  exists td,
    get_outcome [r] = Ok (VDict td)
    /\ dict_get_default td "tools" (VList []) = VList defs.

(** A reply that lists triks with the ids [ids]. *)
Definition trik_listing (r : reply) (ids : list string) : Prop :=
  exists td triks,
    get_outcome [r] = Ok (VDict td)
    /\ dict_get_default td "triks" (VList []) = VList triks
    /\ Forall2 (fun t id => exists d, t = VDict d
                                      /\ dict_get d "id" = Some (VStr id))
               triks ids.


(** ** Sample inputs *)

(** A rendering of values that are no strings, for the examples. *)
Definition sample_repr (v : pyval) : string :=
  match v with
  | VNone => "None"
  | VBool true => "True"
  | VBool false => "False"
  | _ => "<value>"
  end.

(** A validation that accepts a value of the type of its field. *)
Definition sample_coerce (t : py_type) (v : pyval) : option pyval :=
  match t, v with
  | Tstr, VStr _ | Tint, VInt _ | Tfloat, VInt _ | Tbool, VBool _
  | Tlist, VList _ | Tdict, VDict _ => Some v
  | _, _ => None
  end.

(** A pydantic that takes the key [__doc__] for the docstring of the
    class and not for a field, refuses any other name that begins with an
    underscore, and makes a field of every other name. *)
Definition leading_underscore (name : string) : bool :=
  match name with
  | String c _ => Ascii.eqb c underscore
  | EmptyString => false
  end.

Definition sample_create_model (fields : args_model) : result args_model :=
  let fields := filter (fun f => negb (String.eqb (fst f) "__doc__")) fields in
  if existsb (fun f => leading_underscore (fst f)) fields
  then Raise (Exn NameError
                "Fields must not use names with leading underscores")
  else Ok fields.

(** A langchain_core that keeps a description that is a string as it is. *)
Definition sample_tool_description (name : string) (description : pyval)
  (args_schema : args_model) : result pyval :=
  match description with
  | VStr _ => Ok description
  | VNone => Raise (Exn ValueError
                      "Function must have a docstring if description not provided.")
  | _ => Raise (Exn AttributeError
                  (squote ++ type_name description
                   ++ "' object has no attribute 'strip'"))
  end.

(** A fresh world in which the transport will give [replies]. *)
Definition world_with (replies : list reply) : world :=
  World replies [] [] [] 0 None.

Definition ok_200 (v : pyval) : reply := Answers (Response 200 (Some v)).

Definition sample_client
  (callback : option (pyval -> pyval -> M world unit)) : TrikClient :=
  mkTrikClient 0 "http://localhost:3002" [] callback.

(** A failure the gateway reports with status 404. *)
Definition failure_world : world :=
  world_with
    [Answers (Response 404
                (Some (VDict [("success", VBool false);
                              ("error", VStr "Tool not found")])))].

(** A passthrough delivery of an article whose text is the word
    [delivered]. *)
Definition passthrough_envelope : dict :=
  [("success", VBool true);
   ("responseMode", VStr "passthrough");
   ("userContentRef", VStr "ref-1");
   ("contentType", VStr "article")].

Definition passthrough_content : dict :=
  [("content", VStr "delivered");
   ("metadata", VDict [("contentType", VStr "article")])].

Definition passthrough_world : world :=
  world_with
    [ok_200 (VDict passthrough_envelope);
     ok_200 (VDict [("success", VBool true);
                    ("content", VDict passthrough_content)])].

(** A gateway whose only tool has the name of a built-in tool. *)
Definition colliding_tools_response : pyval :=
  VDict [("tools", VList [VDict [("name", VStr "request_refund");
                                 ("description", VStr "Refunds of the shop trik")]]);
         ("triks", VList [VDict [("id", VStr "shop")]])].

Definition colliding_world : world :=
  world_with
    [ok_200 (VDict [("version", VStr "1.0");
                    ("triks", VDict [("loaded", VInt 1)])]);
     ok_200 colliding_tools_response;
     ok_200 colliding_tools_response].

Definition colliding_tool : StructuredTool :=
  mkTool "request_refund" (VStr "Refunds of the shop trik")
         inferred_args_schema
         (fn_tool_func (sample_client None) "request_refund").

(** A gateway with the tool [trikId:actionName]. *)
Definition named_tools_response : pyval :=
  VDict [("tools", VList [VDict [("name", VStr "trikId:actionName");
                                 ("description", VStr "An action")]])].

Definition named_tool : StructuredTool :=
  mkTool "trikId_actionName" (VStr "An action") inferred_args_schema
         (fn_tool_func (sample_client None) "trikId:actionName").


(** A decision step with two calls, one of them a refund request with an
    unspecific reason, and a validator that refuses it; asked again, the
    model answers in plain text. *)
Definition find_call : ToolCall :=
  mkToolCall "find_order" [("description", VStr "the lamp")] "call_a".

Definition refund_call : ToolCall :=
  mkToolCall "request_refund"
    [("order_id", VStr "ORD123456"); ("reason", VStr "I want a refund")]
    "call_b".

Definition sample_question : list message :=
  [HumanMessage "Find my lamp order and refund it"].

Definition sample_model (messages : list message) : result message :=
  match messages with
  | [_] => Ok (AIMessage EmptyString [find_call; refund_call])
  | _ => Ok (AIMessage "Why would you like a refund?" [])
  end.

Definition sample_verdict : ReasonValidation :=
  mkReasonValidation false "The reason does not say what is wrong.".

Definition sample_validator (system user : string) : result ReasonValidation :=
  Ok sample_verdict.

(** An answer in template mode. *)
Definition template_world : world :=
  world_with
    [ok_200 (VDict [("success", VBool true);
                    ("responseMode", VStr "template");
                    ("response", VStr "Found 3 articles")])].

(** A passthrough answer without a content reference. *)
Definition no_reference_world : world :=
  world_with
    [ok_200 (VDict [("success", VBool true);
                    ("responseMode", VStr "passthrough")])].

(** A passthrough delivery whose content is gone: the fetch gets a 404. *)
Definition lost_content_world : world :=
  world_with
    [ok_200 (VDict passthrough_envelope);
     Answers (Response 404 (Some (VDict [("success", VBool false)])))].

(** A passthrough delivery whose content fetch is answered without
    success. *)
Definition refused_content_world : world :=
  world_with
    [ok_200 (VDict passthrough_envelope);
     ok_200 (VDict [("success", VBool false)])].

(** A passthrough delivery whose metadata is a string. *)
Definition bad_metadata_world : world :=
  world_with
    [ok_200 (VDict passthrough_envelope);
     ok_200 (VDict [("success", VBool true);
                    ("content", VDict [("content", VStr "The text");
                                       ("metadata", VStr "article")])])].

(** A gateway tool that reads an article, a call of it, and a model that
    calls it once. *)
Definition article_tool : StructuredTool :=
  mkTool "articles_read" (VStr "Reads an article")
         inferred_args_schema
         (fn_tool_func (sample_client (Some handle_passthrough)) "articles:read").

Definition article_call : ToolCall :=
  mkToolCall "articles_read" [] "call_r".

Definition article_model (messages : list message) : result message :=
  match messages with
  | [_] => Ok (AIMessage EmptyString [article_call])
  | _ => Ok (AIMessage "Here is the article." [])
  end.

(** A listing with a descriptor that has no name. *)
Definition nameless_tools_response : pyval :=
  VDict [("tools", VList [VDict [("name", VStr "trikId:actionName");
                                 ("description", VStr "An action")];
                          VDict [("description", VStr "No name")]])].

(** A gateway that answers the loading and then goes away. *)
Definition vanishing_world : world :=
  world_with
    [ok_200 (VDict [("version", VStr "1.0")]);
     ok_200 named_tools_response].

(** Two refund calls in one message, the second with an unspecific reason,
    and a validator that accepts what it is asked about. *)
Definition damaged_refund_call : ToolCall :=
  mkToolCall "request_refund"
    [("order_id", VStr "ORD1"); ("reason", VStr "The lamp arrived damaged")]
    "call_c".

Definition accepted : ReasonValidation :=
  mkReasonValidation true EmptyString.

Definition accepting_validator (system user : string)
  : result ReasonValidation :=
  Ok accepted.

Create HintDb log_db.

(** * Properties *)

(** ** The monad *)

Lemma bind_Ok {S A B} (m : M S A) (k : A -> M S B) s a s1 :
  m s = (Ok a, s1) -> bind m k s = k a s1.
Proof. intros H. unfold bind. rewrite H. reflexivity. Qed.

Lemma bind_inv_Ok {S A B} (m : M S A) (k : A -> M S B) s b s' :
  bind m k s = (Ok b, s') ->
  exists a s1, m s = (Ok a, s1) /\ k a s1 = (Ok b, s').
Proof.
  unfold bind. destruct (m s) as [[a | e] s1]; intros H.
  - exists a, s1. split; [reflexivity | exact H].
  - discriminate H.
Qed.

Lemma for_each_inv_Ok {S A B} (f : A -> M S B) xs :
  forall s ys s',
    for_each f xs s = (Ok ys, s') ->
    Forall2 (fun x y => exists s1 s2, f x s1 = (Ok y, s2)) xs ys.
Proof.
  induction xs as [| x rest IH]; intros s ys s' H.
  - inversion H. constructor.
  - simpl in H.
    apply bind_inv_Ok in H. destruct H as (y & s1 & Hy & H).
    apply bind_inv_Ok in H. destruct H as (ys' & s2 & Hys & H).
    inversion H. subst. constructor.
    + exists s, s1. exact Hy.
    + eapply IH. exact Hys.
Qed.

(** ** Dicts *)

Lemma dict_get_default_Some {V} (d : list (string * V)) k v default :
  dict_get d k = Some v -> dict_get_default d k default = v.
Proof. intros H. unfold dict_get_default. rewrite H. reflexivity. Qed.

Lemma dict_get_default_truthy (d : dict) k :
  truthy (dict_get_default d k VNone) = true ->
  dict_get d k = Some (dict_get_default d k VNone).
Proof.
  unfold dict_get_default. destruct (dict_get d k); [reflexivity | discriminate].
Qed.


(** ** The gateway client *)

(** [execute] makes exactly one request, whatever the transport does with
    it, and its payload carries the caller's session id or else the stored
    one. *)
Lemma execute_sent self tool input_data session_id w :
  sent (snd (execute self tool input_data session_id w)) =
  (sent w ++ [execute_request self tool input_data
                (py_or session_id (get_session_id self w))])%list.
Proof.
  unfold execute, session_post, session_request, execute_request.
  unfold_m. simpl.
  destruct (net w) as [| [r | e] rest]; simpl; try reflexivity.
  unfold response_json. destruct (body r) as [v |]; simpl; try reflexivity.
  destruct (response_ok r); simpl; try reflexivity.
  unfold py_get, py_getitem. unfold_m.
  destruct v; simpl; try reflexivity.
  destruct (truthy (dict_get_default d "sessionId" VNone)); simpl;
    try reflexivity.
  destruct (dict_get d "sessionId"); reflexivity.
Qed.

(** What [execute] returns when the gateway answers with a JSON object. *)
Lemma execute_returns_envelope self tool input_data session_id w r rest env :
  net w = Answers r :: rest ->
  body r = Some (VDict env) ->
  fst (execute self tool input_data session_id w) = Ok (VDict env).
Proof.
  intros Hnet Hbody.
  unfold execute, session_post, session_request. unfold_m. simpl.
  rewrite Hnet. simpl. unfold response_json. rewrite Hbody. simpl.
  destruct (response_ok r); simpl; try reflexivity.
  unfold py_get, py_getitem. unfold_m.
  destruct (truthy (dict_get_default env "sessionId" VNone)) eqn:E; simpl;
    try reflexivity.
  rewrite (dict_get_default_truthy _ _ E). reflexivity.
Qed.

(** C6. When the gateway reports a failure, that is, when the decoded
    envelope of its answer has no true [success], whatever the HTTP status,
    [execute_tool] does not raise: it returns the text ["Error: "] followed
    by the [error] field of the envelope (["Unknown error"] without one). *)
Theorem execute_tool_remote_failure :
  forall self tool_name kwargs w r rest env,
    net w = Answers r :: rest ->
    body r = Some (VDict env) ->
    truthy (dict_get_default env "success" VNone) = false ->
    fst (execute_tool self tool_name kwargs w) =
    Ok (VStr ("Error: "
              ++ py_str (dict_get_default env "error" (VStr "Unknown error")))).
Proof.
  intros self tool_name kwargs w r rest env Hnet Hbody Hfail.
  unfold execute_tool.
  pose proof (execute_returns_envelope self tool_name (filter_None kwargs)
                VNone w Hnet Hbody) as Hex.
  destruct (execute self tool_name (filter_None kwargs) VNone w)
    as [res w1] eqn:E.
  simpl in Hex. subst res.
  rewrite (bind_Ok _ _ _ E).
  unfold py_get. unfold_m. rewrite Hfail. reflexivity.
Qed.



(** The transport after [execute]: the first reply is consumed. *)
Lemma execute_net self tool input_data session_id w :
  net (snd (execute self tool input_data session_id w)) = tl (net w).
Proof.
  unfold execute, session_post, session_request. unfold_m. simpl.
  destruct (net w) as [| [r | e] rest] eqn:Hnet; simpl; rewrite ?Hnet;
    try reflexivity.
  unfold response_json. destruct (body r) as [v |]; simpl; try reflexivity.
  destruct (response_ok r); simpl; try reflexivity.
  unfold py_get, py_getitem. unfold_m.
  destruct v; simpl; try reflexivity.
  destruct (truthy (dict_get_default d "sessionId" VNone)); simpl;
    try reflexivity.
  destruct (dict_get d "sessionId"); reflexivity.
Qed.

(** A content fetch that the gateway answers with an HTTP-ok JSON body. *)
Lemma get_content_Ok self ref w r rest v :
  net w = Answers r :: rest ->
  response_ok r = true ->
  body r = Some v ->
  fst (get_content self ref w) = Ok v.
Proof.
  intros Hnet Hok Hbody.
  unfold get_content, session_get, session_request, raise_for_status,
    response_json.
  unfold_m. simpl. rewrite Hnet. simpl. rewrite Hok. simpl.
  rewrite Hbody. reflexivity.
Qed.

Lemma py_get_dict (d : dict) k default (w : world) :
  py_get (VDict d) k default w = (Ok (dict_get_default d k default), w).
Proof. reflexivity. Qed.

(** C3 (amended). When the envelope is a success in passthrough mode with a
    content reference and the content fetch succeeds, [execute_tool] is: one
    [execute], one [get_content] of the reference, one call of the
    passthrough callback, where the client has one, with the fetched content
    and metadata, and the return of ["[<contentType> delivered to user]"],
    a text made from the [contentType] of the envelope alone (["content"]
    without one). *)
Theorem execute_tool_passthrough :
  forall self tool_name kwargs w r1 r2 rest env ref cres cdata,
    net w = Answers r1 :: Answers r2 :: rest ->
    body r1 = Some (VDict env) ->
    truthy (dict_get_default env "success" VNone) = true ->
    dict_get env "responseMode" = Some (VStr "passthrough") ->
    dict_get env "userContentRef" = Some ref ->
    truthy ref = true ->
    response_ok r2 = true ->
    body r2 = Some (VDict cres) ->
    truthy (dict_get_default cres "success" VNone) = true ->
    dict_get cres "content" = Some (VDict cdata) ->
    let content_text := dict_get_default cdata "content" (VStr EmptyString) in
    let metadata := dict_get_default cdata "metadata" (VDict []) in
    let w1 := snd (execute self tool_name (filter_None kwargs) VNone w) in
    let w2 := snd (get_content self ref w1) in
    (forall callback,
        on_passthrough self = Some callback ->
        execute_tool self tool_name kwargs w =
        match callback content_text metadata w2 with
        | (Ok _, w3) => (Ok (VStr (delivered_text env)), w3)
        | (Raise e, w3) => (Raise e, w3)
        end)
    /\ (on_passthrough self = None ->
        execute_tool self tool_name kwargs w =
        (Ok (VStr (delivered_text env)), w2)).
Proof.
  intros self tool_name kwargs w r1 r2 rest env ref cres cdata
    Hnet Hb1 Hsucc Hmode Href Htruthy Hok2 Hb2 Hcsucc Hcontent
    content_text metadata w1 w2.
  assert (Hnet1 : net w1 = Answers r2 :: rest).
  { subst w1. rewrite execute_net, Hnet. reflexivity. }
  pose proof (execute_returns_envelope self tool_name (filter_None kwargs)
                VNone w Hnet Hb1) as Hex.
  pose proof (get_content_Ok self ref w1 Hnet1 Hok2 Hb2) as Hgc.
  assert (Hprefix : forall k : pyval -> M world pyval,
             execute_tool self tool_name kwargs w =
             (content_data <- py_getitem (VDict cres) "content" ;;
              content_text <- py_get content_data "content" (VStr EmptyString) ;;
              metadata <- py_get content_data "metadata" (VDict []) ;;
              (match on_passthrough self with
               | Some callback => callback content_text metadata
               | None => ret tt
               end) ;;
              content_type <- py_get (VDict env) "contentType" (VStr "content") ;;
              ret (VStr ("[" ++ py_str content_type ++ " delivered to user]")))
               w2).
  { intros _. unfold execute_tool.
    destruct (execute self tool_name (filter_None kwargs) VNone w)
      as [res w1'] eqn:E.
    simpl in Hex. subst res. simpl in w1. subst w1.
    rewrite (bind_Ok _ _ _ E).
    rewrite (bind_Ok _ _ _ (py_get_dict env "success" VNone w1')).
    rewrite Hsucc. cbn [negb].
    rewrite (bind_Ok _ _ _ (py_get_dict env "responseMode" VNone w1')).
    rewrite (@dict_get_default_Some _ _ _ _ VNone Hmode).
    change (eq_str (VStr "passthrough") "template") with false.
    change (eq_str (VStr "passthrough") "passthrough") with true.
    cbv iota.
    rewrite (bind_Ok _ _ _ (py_get_dict env "userContentRef" VNone w1')).
    rewrite (@dict_get_default_Some _ _ _ _ VNone Href), Htruthy.
    destruct (get_content self ref w1') as [cr w2'] eqn:E2.
    simpl in Hgc. subst cr. simpl in w2. subst w2.
    rewrite (bind_Ok _ _ _ E2).
    rewrite (bind_Ok _ _ _ (py_get_dict cres "success" VNone w2')).
    rewrite Hcsucc. reflexivity. }
  specialize (Hprefix (fun _ => ret VNone)).
  split.
  - intros callback Hcb. rewrite Hprefix, Hcb.
    unfold py_getitem, py_get. unfold_m. rewrite Hcontent.
    fold content_text. fold metadata.
    destruct (callback content_text metadata w2) as [[u | e] w3]; reflexivity.
  - intros Hcb. rewrite Hprefix, Hcb.
    unfold py_getitem, py_get. unfold_m. rewrite Hcontent. reflexivity.
Qed.

(** ** The passthrough slot *)

(** C9. Two writes without a read in between leave the second pair to the
    next read, and the read that follows any read finds the slot empty. *)
Theorem passthrough_slot_overwrite_take :
  (forall w c1 m1 c2 m2,
      fst (get_last_passthrough_content
             (snd (handle_passthrough c2 m2
                     (snd (handle_passthrough c1 m1 w))))) =
      Ok (Some (c2, m2)))
  /\ (forall w,
        fst (get_last_passthrough_content
               (snd (get_last_passthrough_content w))) = Ok None).
Proof.
  split; intros; reflexivity.
Qed.

(** ** The tool loader *)

(** The handler of [ToolLoader.load_trik_tools] returns the empty list
    after its two lines of warning. *)
Lemma load_trik_tools_except_Ok e (s : ToolLoader * world) :
  ToolLoader_load_trik_tools_except e s =
  (Ok [],
   (fst s,
    set_stdout
      (stdout (snd s) ++ load_warning e (server_url (fst s)))%list
      (snd s))).
Proof.
  destruct s as [l w].
  unfold ToolLoader_load_trik_tools_except, in_world, lift_snd, self_get.
  unfold_m. simpl. unfold set_stdout. simpl.
  rewrite <- app_assoc. reflexivity.
Qed.

(** ** Gateway tools *)

Lemma py_get_inv_Ok (v : pyval) k default (s : world) x s' :
  py_get v k default s = (Ok x, s') ->
  exists d, v = VDict d /\ x = dict_get_default d k default /\ s' = s.
Proof.
  destruct v; simpl; unfold ret, raise; intros H; try discriminate H.
  inversion H. eauto.
Qed.

Lemma py_getitem_inv_Ok (v : pyval) k (s : world) x s' :
  py_getitem v k s = (Ok x, s') ->
  exists d, v = VDict d /\ dict_get d k = Some x /\ s' = s.
Proof.
  destruct v; simpl; unfold ret, raise; intros H; try discriminate H.
  destruct (dict_get d k) eqn:E; inversion H. subst. eauto.
Qed.

Lemma replace_char_empty old new s :
  str_empty (replace_char old new s) = str_empty s.
Proof. destruct s; reflexivity. Qed.

(** What [from_function] makes of a function, when it makes a tool. *)
Lemma from_function_inv func name description args_schema (w : world) t w' :
  from_function func name description args_schema w = (Ok t, w') ->
  w' = w
  /\ t_name t = (if str_empty name then func_name func else name)
  /\ t_func t = func
  /\ t_args_schema t =
     match args_schema with
     | Some model => model
     | None => inferred_args_schema
     end
  /\ tool_description (t_name t) description
       (match args_schema with
        | Some model => model
        | None => inferred_args_schema
        end) = Ok (t_description t).
Proof.
  unfold from_function, lift_result, bind, ret. intros H.
  destruct (tool_description _ description _) as [descr | e] eqn:E;
    inversion H. subst. simpl. repeat split; try reflexivity. exact E.
Qed.

(** The tool made of one descriptor: the descriptor has a name that is a
    string, and the world is left as it is. *)
Lemma langchain_tool_inv self tool_def (w : world) t w' :
  langchain_tool self tool_def w = (Ok t, w') ->
  exists name,
    descriptor_name tool_def = Some name /\ gateway_tool self name t.
Proof.
  unfold langchain_tool. intros Hbody.
  apply bind_inv_Ok in Hbody. destruct Hbody as (tn & s3 & Hname & Hbody).
  apply py_getitem_inv_Ok in Hname. destruct Hname as (dd & -> & Hname & ->).
  apply bind_inv_Ok in Hbody. destruct Hbody as (descr & s4 & _ & Hbody).
  apply bind_inv_Ok in Hbody. destruct Hbody as (schema & s5 & _ & Hbody).
  apply bind_inv_Ok in Hbody. destruct Hbody as (args & s6 & _ & Hbody).
  destruct tn; unfold raise in Hbody; try discriminate Hbody.
  apply from_function_inv in Hbody.
  destruct Hbody as (_ & Hn & Hf & _).
  exists s. simpl. rewrite Hname. split; [reflexivity |].
  split; [| exact Hf].
  rewrite Hn, replace_char_empty. reflexivity.
Qed.

Lemma create_langchain_tools_spec self w tools w' :
  create_langchain_tools self w = (Ok tools, w') ->
  exists tools_response w1 defs,
    get_tools self w = (Ok tools_response, w1)
    /\ descriptors tools_response w1 = (Ok defs, w1)
    /\ Forall2 (fun tool_def t =>
                  exists name, descriptor_name tool_def = Some name
                               /\ gateway_tool self name t)
               defs tools.
Proof.
  unfold create_langchain_tools. intros H.
  apply bind_inv_Ok in H. destruct H as (tools_response & w1 & Hget & H).
  apply bind_inv_Ok in H. destruct H as (tool_defs & w2 & Hdefs & H).
  apply bind_inv_Ok in H. destruct H as (defs & w3 & Hiter & H).
  apply py_get_inv_Ok in Hdefs. destruct Hdefs as (d & -> & -> & ->).
  assert (w3 = w1) as ->.
  { destruct (dict_get_default d "tools" (VList [])); simpl in Hiter;
      unfold ret, raise in Hiter; inversion Hiter; reflexivity. }
  exists (VDict d), w1, defs. split; [exact Hget |]. split.
  - unfold descriptors. rewrite (bind_Ok _ _ _ (py_get_dict d "tools" _ w1)).
    exact Hiter.
  - apply for_each_inv_Ok in H.
    eapply Forall2_impl; [| exact H].
    intros tool_def t (s1 & s2 & Hbody).
    apply langchain_tool_inv in Hbody. apply Hbody.
Qed.

(** *** The log of requests only grows *)

Lemma extends_ret {A} (a : A) : extends_log (ret a).
Proof. intros w. exists []. simpl. rewrite app_nil_r. reflexivity. Qed.

Lemma extends_raise {A} c msg : extends_log (@raise world A c msg).
Proof. intros w. exists []. simpl. rewrite app_nil_r. reflexivity. Qed.

Lemma extends_bind {A B} (m : M world A) (k : A -> M world B) :
  extends_log m -> (forall a, extends_log (k a)) -> extends_log (bind m k).
Proof.
  intros Hm Hk w. unfold bind.
  destruct (Hm w) as (more1 & H1).
  destruct (m w) as [[a | e] w1]; simpl in H1.
  - destruct (Hk a w1) as (more2 & H2).
    exists (more1 ++ more2)%list. rewrite H2, H1, app_assoc. reflexivity.
  - exists more1. exact H1.
Qed.

Lemma extends_py_get v k default : extends_log (py_get v k default).
Proof. destruct v; simpl; auto using extends_ret, extends_raise. Qed.

Lemma extends_py_getitem v k : extends_log (py_getitem v k).
Proof.
  destruct v; simpl; auto using extends_ret, extends_raise.
  destruct (dict_get d k); auto using extends_ret, extends_raise.
Qed.

Lemma extends_session_request rq : extends_log (session_request rq).
Proof.
  intros w. exists [rq]. unfold session_request.
  destruct (net w) as [| [r | e] rest]; reflexivity.
Qed.

Lemma extends_raise_for_status r : extends_log (raise_for_status r).
Proof.
  unfold raise_for_status.
  destruct (response_ok r); auto using extends_ret, extends_raise.
Qed.

Lemma extends_response_json r : extends_log (response_json r).
Proof.
  unfold response_json.
  destruct (body r); auto using extends_ret, extends_raise.
Qed.

#[local] Hint Resolve extends_ret extends_raise extends_py_get
  extends_py_getitem extends_session_request extends_raise_for_status
  extends_response_json : log_db.

Lemma extends_get_content self ref : extends_log (get_content self ref).
Proof.
  unfold get_content, session_get.
  repeat (apply extends_bind; [| intros ?]); auto with log_db.
Qed.

(** What [execute_tool] does with the envelope only adds to the log. *)
Lemma extends_after_execute self result :
  callback_keeps_log self ->
  extends_log
    (success <- py_get result "success" VNone ;;
     if negb (truthy success) then
       error <- py_get result "error" (VStr "Unknown error") ;;
       ret (VStr ("Error: " ++ py_str error))
     else
       response_mode <- py_get result "responseMode" VNone ;;
       if eq_str response_mode "template" then
         py_get result "response" (VStr "Action completed.")
       else if eq_str response_mode "passthrough" then
         content_ref <- py_get result "userContentRef" VNone ;;
         if truthy content_ref then
           content_result <- get_content self content_ref ;;
           content_success <- py_get content_result "success" VNone ;;
           if truthy content_success then
             content_data <- py_getitem content_result "content" ;;
             content_text <- py_get content_data "content" (VStr EmptyString) ;;
             metadata <- py_get content_data "metadata" (VDict []) ;;
             (match on_passthrough self with
              | Some callback => callback content_text metadata
              | None => ret tt
              end) ;;
             content_type <- py_get result "contentType" (VStr "content") ;;
             ret (VStr ("[" ++ py_str content_type ++ " delivered to user]"))
           else ret (VStr "Content delivered to user.")
         else ret (VStr "Content delivered to user.")
       else py_get result "response" (VStr "Action completed.")).
Proof.
  intros Hcb. unfold callback_keeps_log in Hcb.
  repeat first
    [ apply extends_get_content
    | solve [auto with log_db]
    | apply Hcb
    | match goal with
      | |- extends_log (if ?b then _ else _) => destruct b
      | |- extends_log (match on_passthrough self with _ => _ end) =>
          destruct (on_passthrough self)
      end
    | apply extends_bind; [| intros ?] ].
Qed.

(** The first request [execute_tool] makes is the one of [execute], with
    the arguments that are not [None] as input. *)
Lemma execute_tool_sent self tool_name kwargs w :
  callback_keeps_log self ->
  exists more,
    sent (snd (execute_tool self tool_name kwargs w)) =
    (sent w
     ++ execute_request self tool_name (filter_None kwargs)
          (get_session_id self w) :: more)%list.
Proof.
  intros Hcb. unfold execute_tool.
  pose proof (execute_sent self tool_name (filter_None kwargs) VNone w) as Hs.
  unfold bind at 1.
  destruct (execute self tool_name (filter_None kwargs) VNone w)
    as [[res | e] w1]; simpl in Hs.
  - destruct (@extends_after_execute self res Hcb w1) as (more & Hmore).
    exists more. rewrite Hmore, Hs, <- app_assoc. reflexivity.
  - exists []. exact Hs.
Qed.

Lemma execute_payload_tool tool input_data sid :
  dict_get (execute_payload tool input_data sid) "tool" = Some (VStr tool)
  /\ dict_get (execute_payload tool input_data sid) "input" =
     Some (VDict input_data).
Proof.
  unfold execute_payload. destruct (truthy sid); split; reflexivity.
Qed.


(** ** Argument marshaling *)



(** ** The merged tool list *)

Lemma dict_get_set {V} (d : list (string * V)) k v k' :
  dict_get (dict_set d k v) k' =
  if String.eqb k k' then Some v else dict_get d k'.
Proof.
  induction d as [| [k0 v0] rest IH]; simpl.
  - reflexivity.
  - destruct (String.eqb k0 k) eqn:E0; simpl.
    + apply String.eqb_eq in E0. subst k0.
      destruct (String.eqb k k'); reflexivity.
    + rewrite IH. destruct (String.eqb k0 k') eqn:E1; [| reflexivity].
      apply String.eqb_eq in E1. subst k0. rewrite String.eqb_sym, E0.
      reflexivity.
Qed.

Lemma find_app {A} (p : A -> bool) l1 l2 :
  find p (l1 ++ l2) =
  match find p l1 with Some x => Some x | None => find p l2 end.
Proof.
  induction l1 as [| a l1 IH]; simpl; [reflexivity |].
  destruct (p a); [reflexivity | exact IH].
Qed.

(** The name table of the tool node binds a name to the last tool of the
    list that is exposed under it. *)
Lemma tools_by_name_last tools n :
  dict_get (tools_by_name tools) n = find (named n) (rev tools).
Proof.
  unfold tools_by_name.
  assert (H : forall acc,
             dict_get (fold_left (fun d t => dict_set d (t_name t) t) tools acc) n =
             match find (named n) (rev tools) with
             | Some t => Some t
             | None => dict_get acc n
             end).
  { induction tools as [| t rest IH]; intros acc; simpl; [reflexivity |].
    rewrite IH, find_app. simpl.
    destruct (find (named n) (rev rest)); [reflexivity |].
    rewrite dict_get_set. unfold named.
    destruct (String.eqb (t_name t) n); reflexivity. }
  rewrite H. destruct (find (named n) (rev tools)); reflexivity.
Qed.

Lemma in_world_inv_Ok {A} (m : M world A) (s : ToolLoader * world) a s' :
  in_world m s = (Ok a, s') ->
  m (snd s) = (Ok a, snd s') /\ fst s' = fst s.
Proof.
  unfold in_world, lift_snd. destruct (m (snd s)) as [r w1].
  intros H. inversion H. split; reflexivity.
Qed.

(** ** The workflow *)

Section workflow.

Variable tools : list StructuredTool.
Variable model : list message -> result message.
Variable validator : string -> string -> result ReasonValidation.

Lemma last_of_snoc {S} (messages : list message) m (s : S) :
  last_of (messages ++ [m]) s = (Ok m, s).
Proof. unfold last_of. rewrite rev_app_distr. reflexivity. Qed.

(** The tool node dispatches a call and always answers it. *)
Lemma run_one_dispatched call s :
  exists msg w',
    run_one tools call s = (Ok msg, ((dispatched s ++ [tc_id call])%list, w')).
Proof.
  unfold run_one. unfold bind at 1. unfold modify at 1.
  destruct (dict_get (tools_by_name tools) (tc_name call)) as [t |].
  - unfold lift_snd, try_except. simpl.
    destruct (bind (tool_invoke t (tc_args call)) _ (snd s)) as [[msg | e] w'];
      do 2 eexists; reflexivity.
  - do 2 eexists; reflexivity.
Qed.

Lemma for_each_run_one_dispatched calls :
  forall s,
    dispatched (snd (for_each (run_one tools) calls s)) =
    (dispatched s ++ map tc_id calls)%list.
Proof.
  induction calls as [| call rest IH]; intros s; simpl.
  - rewrite app_nil_r. reflexivity.
  - destruct (run_one_dispatched call s) as (msg & w' & H).
    rewrite (bind_Ok _ _ _ H).
    specialize (IH ((dispatched s ++ [tc_id call])%list, w')).
    unfold bind at 1.
    destruct (for_each (run_one tools) rest
                ((dispatched s ++ [tc_id call])%list, w')) as [[ys | e] s2];
      simpl in *; rewrite IH, <- app_assoc; reflexivity.
Qed.

(** What the tool node dispatches are the calls of the last message. *)
Lemma ToolNode_dispatched messages m s :
  dispatched (snd (ToolNode tools (messages ++ [m]) s)) =
  (dispatched s ++ call_ids m)%list.
Proof.
  unfold ToolNode. rewrite (bind_Ok _ _ _ (last_of_snoc messages m s)).
  destruct m; simpl; try (rewrite app_nil_r; reflexivity).
  apply for_each_run_one_dispatched.
Qed.

(** [validate_refund] and the routing functions leave the world as it is,
    but for the line the validation prints. *)
Lemma validate_refund_out messages m w :
  exists out w',
    (validate_refund validator (messages ++ [m]) w = (Ok out, w')
     /\ (out = [] \/ exists c i, out = [ToolMessage c i]))
    \/ exists e, validate_refund validator (messages ++ [m]) w = (Raise e, w').
Proof.
  assert (Hnone : exists out w',
             (@ret world _ (@nil message) w = (Ok out, w')
              /\ (out = [] \/ exists c i, out = [ToolMessage c i]))
             \/ exists e, @ret world _ (@nil message) w = (Raise e, w')).
  { exists (@nil message), w. left. split; [reflexivity | left; reflexivity]. }
  unfold validate_refund.
  rewrite (bind_Ok _ _ _ (last_of_snoc messages m w)).
  destruct m as [c | c calls | c i]; try exact Hnone.
  destruct (find is_refund_call calls) as [rc |]; [| exact Hnone].
  unfold lift_result. unfold_m.
  destruct (validator _ _) as [ev | e]; simpl.
  - destruct (is_valid ev); simpl; eexists _, _; left;
      (split; [reflexivity | eauto]).
  - exists (@nil message), w. right. eauto.
Qed.

Lemma route_after_agent_snoc messages m (w : world) :
  route_after_agent (messages ++ [m]) w = (Ok (next_after_agent m), w).
Proof.
  unfold route_after_agent.
  rewrite (bind_Ok _ _ _ (last_of_snoc messages m w)).
  destruct m as [| c [| tc tcs] |]; try reflexivity.
  unfold next_after_agent. cbn [existsb].
  destruct (is_refund_call tc || existsb is_refund_call tcs); reflexivity.
Qed.

Lemma last_of_app_last {S} (messages out : list message) m (s : S) :
  last_of ((messages ++ [m]) ++ out) s = (Ok (last out m), s).
Proof.
  destruct out as [| o out] using rev_ind.
  - rewrite app_nil_r. apply last_of_snoc.
  - rewrite app_assoc, last_of_snoc, last_last. reflexivity.
Qed.

Lemma route_after_validation_app messages m out (w : world) :
  route_after_validation ((messages ++ [m]) ++ out) w =
  (Ok (next_after_validation m out), w).
Proof.
  unfold route_after_validation, next_after_validation.
  rewrite (bind_Ok _ _ _ (last_of_app_last messages out m w)).
  destruct (last out m); reflexivity.
Qed.

Lemma step_agent_Ok messages (s : list string * world) m :
  model messages = Ok m ->
  step tools model validator N_agent messages s =
  (Ok (next_after_agent m, (messages ++ [m])%list), s).
Proof.
  intros Em. unfold step, call_model, lift_result, lift_snd, bind, ret.
  rewrite Em, route_after_agent_snoc. destruct s; reflexivity.
Qed.

Lemma step_agent_Raise messages (s : list string * world) e :
  model messages = Raise e ->
  step tools model validator N_agent messages s = (Raise e, s).
Proof.
  intros Em. unfold step, call_model, lift_result, lift_snd, bind, ret.
  rewrite Em. destruct s; reflexivity.
Qed.

Lemma step_validate_Ok front m (s : list string * world) out w' :
  validate_refund validator (front ++ [m]) (snd s) = (Ok out, w') ->
  step tools model validator N_validate_refund (front ++ [m]) s =
  (Ok (next_after_validation m out, ((front ++ [m]) ++ out)%list),
   (dispatched s, w')).
Proof.
  intros Hv. unfold step, lift_snd, bind, ret.
  rewrite Hv. simpl. rewrite route_after_validation_app. reflexivity.
Qed.

Lemma step_validate_Raise front m (s : list string * world) e w' :
  validate_refund validator (front ++ [m]) (snd s) = (Raise e, w') ->
  step tools model validator N_validate_refund (front ++ [m]) s =
  (Raise e, (dispatched s, w')).
Proof.
  intros Hv. unfold step, lift_snd, bind, ret.
  rewrite Hv. reflexivity.
Qed.

(** *** A call id the model does not issue again is not dispatched *)

Section not_dispatched.

(** A call id, and a conversation the run extends. *)
Variable id : string.
Variable base : list message.

(** From [base] on, the model issues no call with this id. *)
Hypothesis model_fresh :
  forall later m, model (base ++ later) = Ok m -> ~ In id (call_ids m).

Lemma no_new_dispatch_refl s s' :
  dispatched s' = dispatched s -> no_new_dispatch id s s'.
Proof.
  intros H. exists []. rewrite app_nil_r. split; [exact H | intros []].
Qed.

Lemma no_new_dispatch_trans s1 s2 s3 :
  no_new_dispatch id s1 s2 -> no_new_dispatch id s2 s3 -> no_new_dispatch id s1 s3.
Proof.
  intros (e1 & H1 & N1) (e2 & H2 & N2). exists (e1 ++ e2)%list. split.
  - rewrite H2, H1, app_assoc. reflexivity.
  - intros Hin. apply in_app_or in Hin.
    destruct Hin as [Hin | Hin]; [exact (N1 Hin) | exact (N2 Hin)].
Qed.

Lemma step_settled n messages s :
  settled id base n messages ->
  no_new_dispatch id s (snd (step tools model validator n messages s))
  /\ forall n' messages',
       fst (step tools model validator n messages s) = Ok (n', messages') ->
       settled id base n' messages'.
Proof.
  intros [(later & Hbase) Hlast].
  destruct n.
  - (* agent *)
    destruct (model messages) as [m | e] eqn:Em.
    + erewrite step_agent_Ok by exact Em. simpl.
      split; [apply no_new_dispatch_refl; reflexivity |].
      intros n' messages' H. inversion H. subst. split.
      * exists (later ++ [m])%list. rewrite app_assoc. reflexivity.
      * assert (Hm : ~ In id (call_ids m))
          by (apply (model_fresh later); exact Em).
        destruct (next_after_agent m); try exact I;
          exists (base ++ later)%list, m; split; auto.
    + erewrite step_agent_Raise by exact Em. simpl.
      split; [apply no_new_dispatch_refl; reflexivity |].
      intros n' messages' H. discriminate H.
  - (* validate_refund *)
    destruct Hlast as (front & m & Hfront & Hm).
    rewrite Hfront.
    destruct (validate_refund_out front m (snd s))
      as (out & w' & [(Hv & Hout) | (e & Hv)]).
    + erewrite step_validate_Ok by exact Hv. simpl.
      split; [apply no_new_dispatch_refl; reflexivity |].
      intros n' messages' H. inversion H. subst n' messages'. split.
      * exists (later ++ out)%list.
        rewrite <- Hfront, Hbase, app_assoc. reflexivity.
      * destruct Hout as [-> | (c & i & ->)]; simpl.
        -- rewrite app_nil_r.
           destruct (next_after_validation m []); try exact I;
             exists front, m; split; auto.
        -- exact I.
    + erewrite step_validate_Raise by exact Hv. simpl.
      split; [apply no_new_dispatch_refl; reflexivity |].
      intros n' messages' H. discriminate H.
  - (* tools *)
    destruct Hlast as (front & m & Hfront & Hm).
    rewrite Hfront.
    pose proof (ToolNode_dispatched front m s) as Hd.
    unfold step, bind.
    destruct (ToolNode tools (front ++ [m]) s) as [[out | e] s1]; simpl in *.
    + split; [exists (call_ids m); auto |].
      intros n' messages' H. inversion H. subst n' messages'.
      split; [| exact I].
      exists (later ++ out)%list.
      rewrite <- Hfront, Hbase, app_assoc. reflexivity.
    + split; [exists (call_ids m); auto |].
      intros n' messages' H. discriminate H.
  - (* END *)
    simpl. split; [apply no_new_dispatch_refl; reflexivity |].
    intros n' messages' H. inversion H. subst.
    split; [exists later; reflexivity | exact I].
Qed.

Lemma run_settled fuel :
  forall n messages s,
    settled id base n messages ->
    no_new_dispatch id s (snd (run tools model validator fuel n messages s)).
Proof.
  induction fuel as [| fuel IH]; intros n messages s Hs.
  - destruct n; apply no_new_dispatch_refl; reflexivity.
  - destruct (step_settled s Hs) as (Hd & Hnext).
    assert (Hrun : run tools model validator (S fuel) n messages s =
                   match n with
                   | N_END => ret messages s
                   | _ => bind (step tools model validator n messages)
                               (fun next =>
                                  run tools model validator fuel
                                      (fst next) (snd next)) s
                   end)
      by (destruct n; reflexivity).
    destruct n; rewrite Hrun;
      try (apply no_new_dispatch_refl; reflexivity);
      unfold bind;
      match goal with
      | |- context [step tools model validator ?n messages s] =>
          destruct (step tools model validator n messages s)
            as [[[n' messages'] | e] s1]
      end;
      simpl in Hd, Hnext |- *;
      try exact Hd;
      (eapply no_new_dispatch_trans;
       [exact Hd | apply IH; apply Hnext; reflexivity]).
Qed.

End not_dispatched.

(** What [validate_refund] does with a refund call the validator judges
    invalid. *)
Lemma validate_refund_rejects history c calls rc ev w :
  find is_refund_call calls = Some rc ->
  validator validator_system_prompt (validation_prompt rc) = Ok ev ->
  is_valid ev = false ->
  validate_refund validator (history ++ [AIMessage c calls]) w =
  (Ok [rejection ev rc],
   set_stdout (stdout w ++ ["Reason validation: Invalid"])%list w).
Proof.
  intros Hfind Hval Hinvalid.
  unfold validate_refund.
  rewrite (bind_Ok _ _ _ (last_of_snoc history (AIMessage c calls) w)).
  rewrite Hfind. fold (validation_prompt rc).
  unfold lift_result, bind at 1. rewrite Hval.
  unfold bind, print, modify, ret. rewrite Hinvalid. reflexivity.
Qed.

(** C2. When the validator judges the refund call of the last assistant
    message invalid, the validation step runs no tool: it appends one result
    message that carries the feedback and the id of that call, prints its
    verdict, and hands control to the agent node. From there to the end of
    the run the tool node dispatches no call with that id, as long as the
    model does not issue the id again. *)
Theorem rejected_refund_answered_not_executed :
  forall history c calls rc ev s,
    find is_refund_call calls = Some rc ->
    validator validator_system_prompt (validation_prompt rc) = Ok ev ->
    is_valid ev = false ->
    let messages := (history ++ [AIMessage c calls])%list in
    let rejected := (messages ++ [rejection ev rc])%list in
    let s1 := (dispatched s,
               set_stdout (stdout (snd s) ++ ["Reason validation: Invalid"])%list
                          (snd s)) in
    step tools model validator N_validate_refund messages s =
    (Ok (N_agent, rejected), s1)
    /\ forall fuel,
         (forall later m,
             model (rejected ++ later)%list = Ok m ->
             ~ In (tc_id rc) (call_ids m)) ->
         exists extra,
           dispatched (snd (run tools model validator fuel N_agent rejected s1)) =
           (dispatched s ++ extra)%list
           /\ ~ In (tc_id rc) extra.
Proof.
  intros history c calls rc ev s Hfind Hval Hinvalid messages rejected s1.
  split.
  - subst messages rejected s1.
    erewrite step_validate_Ok
      by (apply validate_refund_rejects; eassumption).
    reflexivity.
  - intros fuel Hfresh.
    apply (run_settled (id := tc_id rc) (base := rejected) Hfresh fuel
             (n := N_agent) (messages := rejected) s1).
    split; [exists []; rewrite app_nil_r; reflexivity | exact I].
Qed.

End workflow.

(** * Further properties of the code *)

(** ** The client: construction and the GET endpoints *)

Lemma rstrip_char_split c s :
  exists k, s = (rstrip_char c s ++ copies c k)%string.
Proof.
  induction s as [| a rest (k & IH)]; [exists 0; reflexivity |].
  simpl. destruct (rstrip_char c rest) as [| b r] eqn:E.
  - destruct (Ascii.eqb a c) eqn:Ea.
    + apply Ascii.eqb_eq in Ea. subst a. exists (S k). simpl.
      rewrite IH at 1. reflexivity.
    + exists k. simpl. rewrite IH at 1. reflexivity.
  - exists k. simpl. rewrite IH at 1. reflexivity.
Qed.

Lemma rstrip_char_end c s : ends_with_char c (rstrip_char c s) = false.
Proof.
  induction s as [| a rest IH]; [reflexivity |].
  simpl. destruct (rstrip_char c rest) as [| b r] eqn:E.
  - destruct (Ascii.eqb a c) eqn:Ea; [reflexivity | simpl; exact Ea].
  - exact IH.
Qed.

(** X1. [TrikClient.__init__] never raises. The base URL of the new client
    does not end with a slash and is the given URL without the slashes at
    its end; the client has no session id yet; it sends a bearer header
    exactly when a non-empty token is given; and the construction makes no
    request and leaves the session id of every other instance as it was. *)
Theorem TrikClient_init_fresh :
  forall url auth_token callback w,
  exists self w',
    TrikClient_init url auth_token callback w = (Ok self, w')
    /\ ends_with_char slash (base_url self) = false
    /\ (exists k, url = (base_url self ++ copies slash k)%string)
    /\ get_session_id self w' = VNone
    /\ session_headers self =
       match auth_token with
       | Some t => if str_empty t then []
                   else [("Authorization", ("Bearer " ++ t)%string)]
       | None => []
       end
    /\ on_passthrough self = callback
    /\ self_id self = instances w
    /\ instances w' = S (instances w)
    /\ net w' = net w /\ sent w' = sent w /\ stdout w' = stdout w
    /\ (forall other,
          self_id other <> self_id self ->
          get_session_id other w' = get_session_id other w).
Proof.
  intros url auth_token callback w.
  unfold TrikClient_init. unfold_m. simpl.
  eexists _, _. split; [reflexivity |]. simpl.
  split; [apply rstrip_char_end |].
  split; [apply rstrip_char_split |].
  split; [unfold get_session_id; simpl; rewrite Nat.eqb_refl; reflexivity |].
  repeat (split; [reflexivity |]).
  intros other Hother. unfold get_session_id. simpl.
  destruct (Nat.eqb (instances w) (self_id other)) eqn:E; [| reflexivity].
  apply Nat.eqb_eq in E. congruence.
Qed.

(** A [get], [raise_for_status], [json] sequence: one request, and the
    outcome by the reply. *)
Lemma get_json_outcome self path w :
  (response <- session_get self (base_url self ++ path) ;;
   raise_for_status response ;;
   response_json response) w =
  (get_outcome (net w), after_request (get_request self path) w).
Proof.
  unfold session_get, session_request, raise_for_status, response_json,
    get_outcome, after_request, get_request.
  unfold_m. unfold set_net, set_sent.
  destruct (net w) as [| [r | e] rest] eqn:Hnet; simpl; rewrite ?Hnet;
    try reflexivity.
  destruct (response_ok r); simpl; [| reflexivity].
  destruct (body r); reflexivity.
Qed.

(** X2. [health], [get_tools] and [get_content] each make exactly one GET
    request, to their path under the base URL and with the headers of the
    session. Their outcome is [get_outcome]: they raise when the transport
    fails, raise an [HTTPError] on a 4xx or 5xx status whatever the body
    holds, raise when the body is no JSON, and return the decoded body
    otherwise; the reply is consumed and no stored session id changes. *)
Theorem get_endpoints_outcome :
  forall self ref w,
    health self w =
    (get_outcome (net w), after_request (get_request self "/api/v1/health") w)
    /\ get_tools self w =
       (get_outcome (net w), after_request (get_request self "/api/v1/tools") w)
    /\ get_content self ref w =
       (get_outcome (net w),
        after_request
          (get_request self ("/api/v1/content/" ++ py_str ref)%string) w)
    /\ (forall rq other,
          get_session_id other (after_request rq w) = get_session_id other w).
Proof.
  intros self ref w.
  split; [apply (get_json_outcome self "/api/v1/health") |].
  split; [apply (get_json_outcome self "/api/v1/tools") |].
  split; [apply (get_json_outcome self ("/api/v1/content/" ++ py_str ref)%string) |].
  reflexivity.
Qed.

(** ** The client: [execute] and [execute_tool] *)

(** X3. [execute] by the reply of the gateway: it raises when the
    transport fails or the body is no JSON; for a 4xx or 5xx status it
    returns the decoded body, whatever it is, and prints one debug line;
    for any other status the body has to be a JSON object, or the lookup of
    the session id raises an [AttributeError]. In every case the reply is
    consumed and nothing else is printed. *)
Theorem execute_outcome_and_output :
  forall self tool input_data session_id w,
    let after := execute self tool input_data session_id w in
    fst after = execute_outcome (net w)
    /\ net (snd after) = tl (net w)
    /\ stdout (snd after) = (stdout w ++ execute_debug input_data (net w))%list
    /\ _last_passthrough_content (snd after) = _last_passthrough_content w.
Proof.
  intros self tool input_data session_id w.
  unfold execute, session_post, session_request, execute_outcome,
    execute_debug.
  unfold_m. simpl.
  destruct (net w) as [| [r | e] rest] eqn:Hnet; simpl; rewrite ?Hnet;
    try (rewrite app_nil_r; repeat split; reflexivity).
  unfold response_json. destruct (body r) as [v |]; simpl;
    try (rewrite app_nil_r; repeat split; reflexivity).
  destruct (response_ok r); simpl; [| repeat split; reflexivity].
  unfold py_get, py_getitem. unfold_m.
  destruct v; simpl; try (rewrite app_nil_r; repeat split; reflexivity).
  destruct (truthy (dict_get_default d "sessionId" VNone)) eqn:E; simpl;
    try (rewrite app_nil_r; repeat split; reflexivity).
  rewrite (dict_get_default_truthy _ _ E). simpl.
  rewrite app_nil_r. repeat split; reflexivity.
Qed.

(** X4. On a success envelope whose response mode is not [passthrough],
    be it [template], another value or none, [execute_tool] returns the
    [response] field of the envelope, or ["Action completed."] without one;
    it makes no request beyond the one of [execute] and does not call the
    passthrough callback. *)
Theorem execute_tool_response_text :
  forall self tool_name kwargs w r rest env,
    net w = Answers r :: rest ->
    body r = Some (VDict env) ->
    truthy (dict_get_default env "success" VNone) = true ->
    eq_str (dict_get_default env "responseMode" VNone) "passthrough" = false ->
    execute_tool self tool_name kwargs w =
    (Ok (dict_get_default env "response" (VStr "Action completed.")),
     snd (execute self tool_name (filter_None kwargs) VNone w)).
Proof.
  intros self tool_name kwargs w r rest env Hnet Hbody Hsucc Hmode.
  unfold execute_tool.
  pose proof (execute_returns_envelope self tool_name (filter_None kwargs)
                VNone w Hnet Hbody) as Hex.
  destruct (execute self tool_name (filter_None kwargs) VNone w)
    as [res w1] eqn:E.
  simpl in Hex. subst res. simpl snd.
  rewrite (bind_Ok _ _ _ E).
  rewrite (bind_Ok _ _ _ (py_get_dict env "success" VNone w1)).
  rewrite Hsucc. cbn [negb].
  rewrite (bind_Ok _ _ _ (py_get_dict env "responseMode" VNone w1)).
  rewrite Hmode.
  destruct (eq_str (dict_get_default env "responseMode" VNone) "template");
    reflexivity.
Qed.

(** X5. A passthrough envelope without a usable content reference: no
    content is fetched and the callback is not called, and still
    [execute_tool] returns ["Content delivered to user."]. *)
Theorem execute_tool_passthrough_without_reference :
  forall self tool_name kwargs w r rest env,
    net w = Answers r :: rest ->
    body r = Some (VDict env) ->
    truthy (dict_get_default env "success" VNone) = true ->
    dict_get env "responseMode" = Some (VStr "passthrough") ->
    truthy (dict_get_default env "userContentRef" VNone) = false ->
    execute_tool self tool_name kwargs w =
    (Ok (VStr "Content delivered to user."),
     snd (execute self tool_name (filter_None kwargs) VNone w)).
Proof.
  intros self tool_name kwargs w r rest env Hnet Hbody Hsucc Hmode Href.
  unfold execute_tool.
  pose proof (execute_returns_envelope self tool_name (filter_None kwargs)
                VNone w Hnet Hbody) as Hex.
  destruct (execute self tool_name (filter_None kwargs) VNone w)
    as [res w1] eqn:E.
  simpl in Hex. subst res. simpl snd.
  rewrite (bind_Ok _ _ _ E).
  rewrite (bind_Ok _ _ _ (py_get_dict env "success" VNone w1)).
  rewrite Hsucc. cbn [negb].
  rewrite (bind_Ok _ _ _ (py_get_dict env "responseMode" VNone w1)).
  rewrite (@dict_get_default_Some _ _ _ _ VNone Hmode).
  change (eq_str (VStr "passthrough") "template") with false.
  change (eq_str (VStr "passthrough") "passthrough") with true.
  cbv iota.
  rewrite (bind_Ok _ _ _ (py_get_dict env "userContentRef" VNone w1)).
  rewrite Href. reflexivity.
Qed.

(** The start of [execute_tool] on a passthrough envelope with a content
    reference: [execute] and [get_content] have run. *)
Lemma execute_tool_fetches self tool_name kwargs w r rest env ref :
  net w = Answers r :: rest ->
  body r = Some (VDict env) ->
  truthy (dict_get_default env "success" VNone) = true ->
  dict_get env "responseMode" = Some (VStr "passthrough") ->
  dict_get env "userContentRef" = Some ref ->
  truthy ref = true ->
  let w1 := snd (execute self tool_name (filter_None kwargs) VNone w) in
  execute_tool self tool_name kwargs w =
  (content_result <- get_content self ref ;;
   content_success <- py_get content_result "success" VNone ;;
   if truthy content_success then
     content_data <- py_getitem content_result "content" ;;
     content_text <- py_get content_data "content" (VStr EmptyString) ;;
     metadata <- py_get content_data "metadata" (VDict []) ;;
     (match on_passthrough self with
      | Some callback => callback content_text metadata
      | None => ret tt
      end) ;;
     content_type <- py_get (VDict env) "contentType" (VStr "content") ;;
     ret (VStr ("[" ++ py_str content_type ++ " delivered to user]"))
   else ret (VStr "Content delivered to user.")) w1.
Proof.
  intros Hnet Hbody Hsucc Hmode Href Htruthy w1. subst w1.
  unfold execute_tool.
  pose proof (execute_returns_envelope self tool_name (filter_None kwargs)
                VNone w Hnet Hbody) as Hex.
  destruct (execute self tool_name (filter_None kwargs) VNone w)
    as [res w1] eqn:E.
  simpl in Hex. subst res. simpl snd.
  rewrite (bind_Ok _ _ _ E).
  rewrite (bind_Ok _ _ _ (py_get_dict env "success" VNone w1)).
  rewrite Hsucc. cbn [negb].
  rewrite (bind_Ok _ _ _ (py_get_dict env "responseMode" VNone w1)).
  rewrite (@dict_get_default_Some _ _ _ _ VNone Hmode).
  change (eq_str (VStr "passthrough") "template") with false.
  change (eq_str (VStr "passthrough") "passthrough") with true.
  cbv iota.
  rewrite (bind_Ok _ _ _ (py_get_dict env "userContentRef" VNone w1)).
  rewrite (@dict_get_default_Some _ _ _ _ VNone Href), Htruthy.
  reflexivity.
Qed.

(** X6. When the content fetch of a passthrough delivery raises, because
    the transport fails, the status is a 4xx or 5xx or the body is no JSON,
    [execute_tool] raises the same exception: unlike a failure the gateway
    reports for the tool, it is not turned into a result text, and the
    callback is not called. *)
Theorem execute_tool_content_fetch_raises :
  forall self tool_name kwargs w r rest env ref e,
    net w = Answers r :: rest ->
    body r = Some (VDict env) ->
    truthy (dict_get_default env "success" VNone) = true ->
    dict_get env "responseMode" = Some (VStr "passthrough") ->
    dict_get env "userContentRef" = Some ref ->
    truthy ref = true ->
    get_outcome rest = Raise e ->
    let w1 := snd (execute self tool_name (filter_None kwargs) VNone w) in
    execute_tool self tool_name kwargs w =
    (Raise e,
     after_request (get_request self ("/api/v1/content/" ++ py_str ref)%string)
                   w1).
Proof.
  intros self tool_name kwargs w r rest env ref e
    Hnet Hbody Hsucc Hmode Href Htruthy Hfetch w1.
  rewrite (execute_tool_fetches self tool_name kwargs w
             Hnet Hbody Hsucc Hmode Href Htruthy).
  fold w1.
  assert (Hnet1 : net w1 = rest)
    by (subst w1; rewrite execute_net, Hnet; reflexivity).
  unfold get_content at 1.
  unfold bind at 1.
  rewrite (get_json_outcome self ("/api/v1/content/" ++ py_str ref)%string w1).
  rewrite Hnet1, Hfetch. reflexivity.
Qed.

(** X7. When the content fetch is answered but its envelope has no true
    [success], the callback is not called and nothing reaches the user, and
    still [execute_tool] returns ["Content delivered to user."]. *)
Theorem execute_tool_content_not_success :
  forall self tool_name kwargs w r rest env ref cres,
    net w = Answers r :: rest ->
    body r = Some (VDict env) ->
    truthy (dict_get_default env "success" VNone) = true ->
    dict_get env "responseMode" = Some (VStr "passthrough") ->
    dict_get env "userContentRef" = Some ref ->
    truthy ref = true ->
    get_outcome rest = Ok (VDict cres) ->
    truthy (dict_get_default cres "success" VNone) = false ->
    let w1 := snd (execute self tool_name (filter_None kwargs) VNone w) in
    execute_tool self tool_name kwargs w =
    (Ok (VStr "Content delivered to user."),
     after_request (get_request self ("/api/v1/content/" ++ py_str ref)%string)
                   w1).
Proof.
  intros self tool_name kwargs w r rest env ref cres
    Hnet Hbody Hsucc Hmode Href Htruthy Hfetch Hcs w1.
  rewrite (execute_tool_fetches self tool_name kwargs w
             Hnet Hbody Hsucc Hmode Href Htruthy).
  fold w1.
  assert (Hnet1 : net w1 = rest)
    by (subst w1; rewrite execute_net, Hnet; reflexivity).
  unfold get_content at 1.
  unfold bind at 1.
  rewrite (get_json_outcome self ("/api/v1/content/" ++ py_str ref)%string w1).
  rewrite Hnet1, Hfetch.
  rewrite (bind_Ok _ _ _ (py_get_dict cres "success" VNone _)).
  rewrite Hcs. reflexivity.
Qed.

Lemma filter_None_no_None (kwargs : dict) k :
  dict_get (filter_None kwargs) k <> Some VNone.
Proof.
  induction kwargs as [| [k' v] rest IH]; simpl; [discriminate |].
  unfold filter_None in *. simpl.
  destruct (is_not_None v) eqn:Ev; simpl; [| exact IH].
  destruct (String.eqb k' k); [| exact IH].
  intros H. injection H as ->. discriminate Ev.
Qed.

Lemma filter_None_keeps (kwargs : dict) k v :
  dict_get kwargs k = Some v -> v <> VNone ->
  dict_get (filter_None kwargs) k = Some v.
Proof.
  induction kwargs as [| [k' v'] rest IH]; simpl; [discriminate |].
  intros Hget Hv. unfold filter_None in *. simpl.
  destruct (String.eqb k' k) eqn:Ek.
  - injection Hget as ->. destruct v; try congruence; simpl; rewrite Ek;
      reflexivity.
  - destruct (is_not_None v'); simpl; rewrite ?Ek; apply IH; assumption.
Qed.

(** X8. The arguments [execute_tool] transmits: the input of the posted
    payload has no key whose value is [None], and every argument with
    another value is in it under its key. *)
Theorem execute_tool_input_without_None :
  forall self tool_name kwargs w,
    callback_keeps_log self ->
    exists rq more payload input,
      sent (snd (execute_tool self tool_name kwargs w)) =
      (sent w ++ rq :: more)%list
      /\ rq_method rq = POST
      /\ rq_json rq = Some (VDict payload)
      /\ dict_get payload "input" = Some (VDict input)
      /\ (forall k, dict_get input k <> Some VNone)
      /\ (forall k v, dict_get kwargs k = Some v -> v <> VNone ->
                      dict_get input k = Some v).
Proof.
  intros self tool_name kwargs w Hcb.
  destruct (execute_tool_sent self tool_name kwargs w Hcb) as (more & Hsent).
  eexists _, more, _, (filter_None kwargs).
  split; [exact Hsent |]. split; [reflexivity |]. split; [reflexivity |].
  split; [apply execute_payload_tool |].
  split; [apply filter_None_no_None | apply filter_None_keeps].
Qed.

(** ** Argument schemas and the tool list of the gateway *)

(** X9. [_build_args_schema] gives no model, and raises nothing, for a
    schema that is empty or [None], for a schema object whose [type] is not
    ["object"], and for an object schema whose [properties] are missing or
    empty, provided its [required] entry can be made a set. *)
Theorem build_args_schema_no_model :
  forall input_schema w,
    (truthy input_schema = false
     \/ (exists d, input_schema = VDict d
                   /\ eq_str (dict_get_default d "type" VNone) "object" = false)
     \/ (exists d required,
            input_schema = VDict d
            /\ py_set (dict_get_default d "required" (VList [])) w =
               (Ok required, w)
            /\ truthy (dict_get_default d "properties" (VDict [])) = false)) ->
    _build_args_schema input_schema w = (Ok None, w).
Proof.
  intros input_schema w [H | [(d & -> & H) | (d & required & -> & Hreq & H)]];
    unfold _build_args_schema.
  - rewrite H. reflexivity.
  - destruct (truthy (VDict d)); [| reflexivity]. cbn [negb].
    rewrite (bind_Ok _ _ _ (py_get_dict d "type" VNone w)).
    rewrite H. reflexivity.
  - destruct (truthy (VDict d)); [| reflexivity]. cbn [negb].
    rewrite (bind_Ok _ _ _ (py_get_dict d "type" VNone w)).
    destruct (eq_str (dict_get_default d "type" VNone) "object");
      [| reflexivity].
    cbn [negb].
    rewrite (bind_Ok _ _ _ (py_get_dict d "properties" (VDict []) w)).
    rewrite (bind_Ok _ _ _ (py_get_dict d "required" (VList []) w)).
    rewrite (bind_Ok _ _ _ Hreq).
    rewrite H. reflexivity.
Qed.

Lemma type_map_get_inv json_type (w : world) ty w' :
  type_map_get json_type w = (Ok ty, w') ->
  python_type json_type = Some ty /\ w' = w.
Proof.
  destruct json_type; simpl; unfold ret, raise; intros H; inversion H;
    split; reflexivity.
Qed.

(** The loop of [_build_args_schema] over the properties. *)
Lemma build_fields_inv required items :
  forall acc (w : world) fields w',
    for_fold
      (fun (fields : args_model) (item : string * pyval) =>
         let prop_name := fst item in
         let prop_schema := snd item in
         json_type <- py_get prop_schema "type" (VStr "string") ;;
         python_type <- type_map_get json_type ;;
         description <- py_get prop_schema "description" (VStr EmptyString) ;;
         ret (dict_set fields prop_name
                (mkField python_type (str_in prop_name required) description)))
      items acc w = (Ok fields, w') ->
    w' = w
    /\ (forall p, dict_get fields p = None <->
                  dict_get acc p = None /\ dict_get items p = None)
    /\ (forall p f,
          dict_get fields p = Some f ->
          dict_get acc p = Some f
          \/ exists sp ty,
               In (p, VDict sp) items
               /\ python_type (json_type_of sp) = Some ty
               /\ f = field_of required p sp ty).
Proof.
  induction items as [| [name schema] rest IH]; intros acc w fields w' H.
  - simpl in H. inversion H. subst. split; [reflexivity |]. split.
    + intros p. simpl.
      split; [intros Hx; split; [exact Hx | reflexivity]
             | intros [Hx _]; exact Hx].
    + intros p f Hf. left. exact Hf.
  - simpl in H.
    apply bind_inv_Ok in H. destruct H as (acc1 & w1 & Hstep & H).
    apply bind_inv_Ok in Hstep. destruct Hstep as (jt & w2 & Hjt & Hstep).
    apply py_get_inv_Ok in Hjt. destruct Hjt as (sp & Hsp & -> & ->).
    simpl in Hsp. subst schema.
    apply bind_inv_Ok in Hstep. destruct Hstep as (ty & w3 & Hty & Hstep).
    apply type_map_get_inv in Hty. destruct Hty as (Hty & ->).
    apply bind_inv_Ok in Hstep. destruct Hstep as (descr & w4 & Hd & Hstep).
    apply py_get_inv_Ok in Hd. destruct Hd as (sp' & Hsp' & -> & ->).
    injection Hsp' as <-.
    unfold ret in Hstep. inversion Hstep. subst acc1 w1. clear Hstep.
    destruct (IH _ _ _ _ H) as (-> & Hnone & Hsome).
    split; [reflexivity |]. split.
    + intros p. rewrite Hnone, dict_get_set. simpl.
      destruct (String.eqb name p); split; intros [A B]; try discriminate;
        split; assumption.
    + intros p f Hf. destruct (Hsome p f Hf) as [Hacc | (sq & tq & Hin & Hq)].
      * rewrite dict_get_set in Hacc.
        destruct (String.eqb name p) eqn:E.
        -- apply String.eqb_eq in E. subst p. injection Hacc as <-.
           right. exists sp, ty. split; [left; reflexivity |].
           split; [exact Hty | reflexivity].
        -- left. exact Hacc.
      * right. exists sq, tq. split; [right; exact Hin | exact Hq].
Qed.

(** X10. When [_build_args_schema] gives a model, the schema is an object
    of type ["object"] with properties, the world is as before, and the
    model is the one [create_model] makes of the field definitions it is
    handed. These definitions are exactly the properties, and each comes
    from the property of its name: its type is the one [type_map] has for
    the declared JSON type, [str] for an unknown or missing one, it is
    required exactly when its name is in [required], and its description is
    the property's. *)
Theorem build_args_schema_model :
  forall input_schema w model w',
    _build_args_schema input_schema w = (Ok (Some model), w') ->
    w' = w
    /\ exists d props required fields,
         input_schema = VDict d
         /\ dict_get d "type" = Some (VStr "object")
         /\ dict_get d "properties" = Some (VDict props)
         /\ props <> []
         /\ py_set (dict_get_default d "required" (VList [])) w =
            (Ok required, w)
         /\ create_model fields = Ok model
         /\ (forall p, dict_get fields p = None <-> dict_get props p = None)
         /\ (forall p f,
               dict_get fields p = Some f ->
               exists sp ty,
                 In (p, VDict sp) props
                 /\ python_type (json_type_of sp) = Some ty
                 /\ f = field_of required p sp ty).
Proof.
  intros input_schema w model w' H.
  unfold _build_args_schema in H.
  destruct (truthy input_schema) eqn:Ht; [| inversion H]. cbn [negb] in H.
  apply bind_inv_Ok in H. destruct H as (ty & w1 & Hty & H).
  apply py_get_inv_Ok in Hty. destruct Hty as (d & -> & -> & ->).
  destruct (eq_str (dict_get_default d "type" VNone) "object") eqn:Eo;
    [| inversion H].
  cbn [negb] in H.
  apply bind_inv_Ok in H. destruct H as (properties & w1 & Hp & H).
  apply py_get_inv_Ok in Hp. destruct Hp as (d' & Hd' & -> & ->).
  injection Hd' as <-.
  apply bind_inv_Ok in H. destruct H as (rl & w1 & Hr & H).
  apply py_get_inv_Ok in Hr. destruct Hr as (d' & Hd' & -> & ->).
  injection Hd' as <-.
  apply bind_inv_Ok in H. destruct H as (required & w1 & Hset & H).
  assert (w1 = w) as ->.
  { unfold py_set in Hset. apply bind_inv_Ok in Hset.
    destruct Hset as (xs & w2 & Hiter & Hset).
    assert (w2 = w) as ->
      by (destruct (dict_get_default d "required" (VList [])); simpl in Hiter;
          unfold ret, raise in Hiter; inversion Hiter; reflexivity).
    destruct (forallb hashable xs); unfold ret, raise in Hset;
      inversion Hset; reflexivity. }
  destruct (truthy (dict_get_default d "properties" (VDict []))) eqn:Etp;
    [| inversion H].
  cbn [negb] in H.
  apply bind_inv_Ok in H. destruct H as (items & w1 & Hitems & H).
  assert (Hprops : dict_get_default d "properties" (VDict []) = VDict items
                   /\ w1 = w).
  { destruct (dict_get_default d "properties" (VDict [])); simpl in Hitems;
      unfold ret, raise in Hitems; inversion Hitems; split; reflexivity. }
  destruct Hprops as (Hprops & ->).
  apply bind_inv_Ok in H. destruct H as (fields & w1 & Hfold & H).
  destruct (build_fields_inv _ _ _ _ Hfold) as (-> & Hnone & Hsome).
  assert (Hcreate : create_model fields = Ok model /\ w' = w).
  { unfold lift_result, bind, ret in H.
    destruct (create_model fields); inversion H. split; reflexivity. }
  destruct Hcreate as (Hcreate & ->). clear H.
  split; [reflexivity |].
  exists d, items, required, fields.
  split; [reflexivity |].
  split.
  { unfold dict_get_default, eq_str in Eo.
    destruct (dict_get d "type") as [[| | | s | |] |]; try discriminate Eo.
    apply String.eqb_eq in Eo. subst s. reflexivity. }
  split.
  { unfold dict_get_default in Hprops, Etp.
    destruct (dict_get d "properties"); [congruence |].
    discriminate Etp. }
  split.
  { rewrite Hprops in Etp. destruct items; [discriminate Etp | discriminate]. }
  split; [exact Hset |].
  split; [exact Hcreate |].
  split.
  - intros p. rewrite Hnone. simpl.
    split; [intros [_ Hx]; exact Hx
           | intros Hx; split; [reflexivity | exact Hx]].
  - intros p f Hf. destruct (Hsome p f Hf) as [Hacc | Hq];
      [discriminate Hacc | exact Hq].
Qed.

Lemma for_each_raises {S A B} (f : A -> M S B) bad xs :
  (forall s, exists e s', f bad s = (Raise e, s')) ->
  In bad xs ->
  forall s, exists e s', for_each f xs s = (Raise e, s').
Proof.
  intros Hbad. induction xs as [| x rest IH]; intros Hin s; [destruct Hin |].
  simpl. unfold bind at 1.
  destruct (f x s) as [[y | e] s1] eqn:E; [| eauto].
  destruct Hin as [-> | Hin].
  - destruct (Hbad s) as (e & s' & Hr). congruence.
  - destruct (IH Hin s1) as (e & s' & Hr).
    unfold bind. rewrite Hr. eauto.
Qed.

(** X11. The listing is all or nothing: when one descriptor of the gateway
    has no [name] that is a string, [create_langchain_tools] raises and
    returns no tool at all, however many other descriptors are well
    formed. *)
Theorem create_langchain_tools_all_or_nothing :
  forall self w tools_response w1 defs bad,
    get_tools self w = (Ok tools_response, w1) ->
    descriptors tools_response w1 = (Ok defs, w1) ->
    In bad defs ->
    descriptor_name bad = None ->
    exists e w', create_langchain_tools self w = (Raise e, w').
Proof.
  intros self w tools_response w1 defs bad Hget Hdefs Hin Hbad.
  unfold create_langchain_tools.
  rewrite (bind_Ok _ _ _ Hget).
  unfold descriptors in Hdefs.
  apply bind_inv_Ok in Hdefs. destruct Hdefs as (tool_defs & w2 & Hg & Hiter).
  assert (w2 = w1) as ->
    by (apply py_get_inv_Ok in Hg; destruct Hg as (? & _ & _ & ->); reflexivity).
  rewrite (bind_Ok _ _ _ Hg). rewrite (bind_Ok _ _ _ Hiter).
  apply (for_each_raises _ bad); [| exact Hin].
  intros s. unfold descriptor_name in Hbad. unfold langchain_tool.
  destruct bad as [| b | z | t | l | d];
    try solve [simpl; unfold bind, raise; eauto].
  destruct (dict_get d "name") as [tn |] eqn:En.
  - rewrite (bind_Ok _ _ _ (s1 := s) (a := tn))
      by (simpl; rewrite En; reflexivity).
    rewrite (bind_Ok _ _ _ (py_get_dict d "description" _ s)).
    rewrite (bind_Ok _ _ _ (py_get_dict d "inputSchema" _ s)).
    unfold bind.
    destruct (_build_args_schema _ s) as [[schema | e] s']; [| eauto].
    destruct tn; try discriminate Hbad; unfold raise; eauto.
  - simpl. rewrite En. unfold bind, raise. eauto.
Qed.

Lemma replace_char_no_old old new s :
  old <> new ->
  contains (String old EmptyString) (replace_char old new s) = false.
Proof.
  intros Hne. induction s as [| c rest IH]; [reflexivity |].
  simpl replace_char. cbn [contains String.prefix].
  rewrite IH.
  destruct (Ascii.eqb c old) eqn:E.
  - destruct (ascii_dec old new) as [-> | Hn]; [congruence |].
    destruct (ascii_dec old new); [congruence |]. reflexivity.
  - destruct (ascii_dec old c) as [<- | Hn].
    + rewrite Ascii.eqb_refl in E. discriminate E.
    + reflexivity.
Qed.

Lemma replace_char_length old new s :
  String.length (replace_char old new s) = String.length s.
Proof.
  induction s as [| c rest IH]; simpl; [reflexivity | rewrite IH; reflexivity].
Qed.

Lemma replace_char_twice old new s :
  old <> new ->
  replace_char old new (replace_char old new s) = replace_char old new s.
Proof.
  intros Hne. induction s as [| c rest IH]; [reflexivity |].
  simpl. rewrite IH. destruct (Ascii.eqb c old) eqn:E.
  - destruct (Ascii.eqb new old) eqn:E'; [| reflexivity].
    apply Ascii.eqb_eq in E'. congruence.
  - rewrite E. reflexivity.
Qed.

(** X23. No tool of [create_langchain_tools] has a colon in its name, and
    none has an empty name; replacing the colons of an exposed name again
    changes nothing. For a descriptor whose name is not empty, the exposed
    name is as long as the name, and it is the name when that has no
    colon. *)
Theorem exposed_names_without_colon :
  forall self w tools w',
    create_langchain_tools self w = (Ok tools, w') ->
    Forall (fun t =>
              contains ":" (t_name t) = false
              /\ t_name t <> EmptyString
              /\ t_name t = replace_char colon underscore (t_name t)
              /\ exists name,
                   t_func t = fn_tool_func self name
                   /\ (name <> EmptyString ->
                       String.length (t_name t) = String.length name
                       /\ (contains ":" name = false -> t_name t = name)))
           tools.
Proof.
  intros self w tools w' H.
  destruct (create_langchain_tools_spec self w H)
    as (tr & w1 & defs & _ & _ & Hall).
  clear - Hall. induction Hall as [| d t ds tl (name & _ & Hname & Hfunc) _ IH];
    constructor; [| exact IH].
  assert (Hne : colon <> underscore) by discriminate.
  destruct name as [| c rest].
  - simpl in Hname. rewrite Hname.
    split; [reflexivity |]. split; [discriminate |].
    split; [reflexivity |].
    exists EmptyString. split; [exact Hfunc |].
    intros Hn. contradiction Hn. reflexivity.
  - cbn [str_empty] in Hname. rewrite Hname.
    split; [apply (replace_char_no_old _ Hne) |].
    split; [discriminate |].
    split; [symmetry; apply (replace_char_twice _ Hne) |].
    exists (String c rest). split; [exact Hfunc |].
    intros _. split; [apply replace_char_length |].
    generalize (String c rest). clear. intros name Hc.
    induction name as [| c rest IHn]; [reflexivity |].
    cbn [contains String.prefix] in Hc.
    apply Bool.orb_false_iff in Hc. destruct Hc as (Hp & Hrest).
    simpl. rewrite (IHn Hrest).
    destruct (Ascii.eqb c colon) eqn:E; [| reflexivity].
    apply Ascii.eqb_eq in E. subst c.
    destruct (ascii_dec colon colon); [| congruence].
    destruct rest; discriminate Hp.
Qed.

(** ** The tool loader and the initialization *)

Lemma py_get_pure {S} (v : pyval) k default (s : S) x s' :
  py_get v k default s = (Ok x, s') -> s' = s.
Proof.
  destruct v; simpl; unfold ret, raise; intros H; inversion H; reflexivity.
Qed.

Lemma py_iter_pure {S} (v : pyval) (s : S) xs s' :
  py_iter v s = (Ok xs, s') -> s' = s.
Proof.
  destruct v; simpl; unfold ret, raise; intros H; inversion H; reflexivity.
Qed.

Lemma py_getitem_pure {S} (v : pyval) k (s : S) x s' :
  py_getitem v k s = (Ok x, s') -> s' = s.
Proof.
  destruct v; simpl; unfold ret, raise; intros H; try (inversion H; fail).
  destruct (dict_get d k); inversion H; reflexivity.
Qed.

Lemma for_each_pure {S A B} (f : A -> M S B) xs :
  (forall x s y s', f x s = (Ok y, s') -> s' = s) ->
  forall s ys s', for_each f xs s = (Ok ys, s') -> s' = s.
Proof.
  intros Hf. induction xs as [| x rest IH]; intros s ys s' H.
  - inversion H. reflexivity.
  - simpl in H. apply bind_inv_Ok in H. destruct H as (y & s1 & Hy & H). apply Hf in Hy. subst s1.
    apply bind_inv_Ok in H. destruct H as (zs & s2 & Hzs & H). apply IH in Hzs. subst s2.
    inversion H. reflexivity.
Qed.

(** What the module-level [load_trik_tools] returns: a new client for the
    URL and the callback, and tools made for that client. *)
Lemma load_trik_tools_client url callback w tools client w' :
  load_trik_tools url callback w = (Ok (tools, client), w') ->
  client = mkTrikClient (instances w) (rstrip_char slash url) [] callback
  /\ Forall (fun t => exists name, gateway_tool client name t) tools.
Proof.
  unfold load_trik_tools. intros H.
  apply bind_inv_Ok in H. destruct H as (c & w1 & Hinit & H).
  assert (Hc : c = mkTrikClient (instances w) (rstrip_char slash url) []
                                callback)
    by (unfold TrikClient_init in Hinit; unfold_m; simpl in Hinit;
        inversion Hinit; reflexivity).
  repeat (apply bind_inv_Ok in H;
          match type of H with
          | exists _ _, create_langchain_tools _ _ = _ /\ _ => idtac
          | _ => destruct H as (? & ? & _ & H)
          end).
  destruct H as (ts & w2 & Hcreate & H).
  inversion H. subst ts client. split; [exact Hc |].
  destruct (create_langchain_tools_spec c _ Hcreate)
    as (tr & w3 & defs & _ & _ & Hall).
  clear - Hall. induction Hall as [| d t ds tl (name & _ & Hg) _ IH].
  - constructor.
  - constructor; [exists name; exact Hg | exact IH].
Qed.

(** What a successful [try] of [ToolLoader.load_trik_tools] leaves in the
    loader. *)
Lemma load_trik_tools_try_inv :
  forall loader w tools loader' w',
    ToolLoader_load_trik_tools_try (loader, w) = (Ok tools, (loader', w')) ->
    trik_tools loader' = tools
    /\ server_url loader' = server_url loader
    /\ loader_on_passthrough loader' = loader_on_passthrough loader
    /\ (exists client,
          trik_client loader' = Some client
          /\ client = mkTrikClient (instances w)
                        (rstrip_char slash (server_url loader)) []
                        (loader_on_passthrough loader)
          /\ Forall (fun t => exists name, gateway_tool client name t) tools)
    /\ (exists ids, str_items (loaded_triks loader') = Some ids).
Proof.
  intros loader w tools loader' w' H.
  unfold ToolLoader_load_trik_tools_try in H.
  apply bind_inv_Ok in H. destruct H as (url & s0 & Hu & H). unfold self_get, gets in Hu. inversion Hu.
  subst url s0. clear Hu.
  apply bind_inv_Ok in H. destruct H as (cb & s0 & Hc & H). unfold self_get, gets in Hc. inversion Hc.
  subst cb s0. clear Hc.
  apply bind_inv_Ok in H. destruct H as (loaded & s1 & Hload & H).
  apply in_world_inv_Ok in Hload. destruct Hload as (Hload & Hfst).
  destruct loaded as [ts client]. destruct s1 as [l1 w1].
  simpl in Hload, Hfst, H. subst l1.
  apply load_trik_tools_client in Hload. destruct Hload as (Hclient & Hgw).
  apply bind_inv_Ok in H. destruct H as (u1 & s2 & Hs1 & H). unfold self_set, modify in Hs1. inversion Hs1.
  subst u1 s2. clear Hs1.
  apply bind_inv_Ok in H. destruct H as (u2 & s3 & Hs2 & H). unfold self_set, modify in Hs2. inversion Hs2.
  subst u2 s3. clear Hs2.
  simpl in H.
  apply bind_inv_Ok in H. destruct H as (tools_response & s4 & Hget & H).
  apply in_world_inv_Ok in Hget. destruct Hget as (_ & Hfst).
  destruct s4 as [l2 w2]. simpl in Hfst. subst l2.
  apply bind_inv_Ok in H. destruct H as (triks & s5 & Htriks & H). apply py_get_pure in Htriks. subst s5.
  apply bind_inv_Ok in H. destruct H as (items & s6 & Hitems & H). apply py_iter_pure in Hitems. subst s6.
  apply bind_inv_Ok in H. destruct H as (ids & s7 & Hids & H).
  apply for_each_pure in Hids;
    [| intros x sa y sb Hx; apply py_getitem_pure in Hx; exact Hx].
  subst s7.
  apply bind_inv_Ok in H. destruct H as (u3 & s8 & Hs3 & H). unfold self_set, modify in Hs3. inversion Hs3.
  subst u3 s8. clear Hs3.
  simpl in H.
  apply bind_inv_Ok in H. destruct H as (u4 & s9 & Hprint & H).
  assert (Hok : (exists l, str_items ids = Some l)
                /\ fst s9 =
                   set_loaded_triks ids
                     (set_trik_tools ts
                        (set_trik_client (Some client) loader))).
  { destruct ids as [| i rest].
    - apply in_world_inv_Ok in Hprint. destruct Hprint as (_ & Hf).
      split; [exists []; reflexivity | exact Hf].
    - apply bind_inv_Ok in Hprint. destruct Hprint as (joined & sj & Hjoin & Hprint). unfold py_join in Hjoin.
      destruct (str_items (i :: rest)) as [l |] eqn:E;
        unfold ret, raise in Hjoin; inversion Hjoin. subst joined sj.
      apply in_world_inv_Ok in Hprint. destruct Hprint as (_ & Hf).
      split; [exists l; reflexivity | exact Hf]. }
  destruct Hok as (Hstr & Hf).
  unfold ret in H. inversion H. subst tools s9. simpl in Hf. subst loader'.
  simpl.
  split; [reflexivity |]. split; [reflexivity |]. split; [reflexivity |].
  split; [| exact Hstr].
  eexists. split; [reflexivity |]. split; [exact Hclient | exact Hgw].
Qed.

(** *** A load by the replies of the gateway *)

Lemma get_outcome_head r rest : get_outcome (r :: rest) = get_outcome [r].
Proof. destruct r; reflexivity. Qed.

Lemma TrikClient_init_None url callback w :
  TrikClient_init url None callback w =
  (Ok (loaded_client url callback w),
   set_session_id (loaded_client url callback w) VNone
     (set_instances (S (instances w)) w)).
Proof. reflexivity. Qed.

Lemma health_outcome self w :
  health self w =
  (get_outcome (net w), after_request (get_request self "/api/v1/health") w).
Proof. apply (get_json_outcome self "/api/v1/health"). Qed.

Lemma get_tools_outcome self w :
  get_tools self w =
  (get_outcome (net w), after_request (get_request self "/api/v1/tools") w).
Proof. apply (get_json_outcome self "/api/v1/tools"). Qed.

Lemma print_Ok line w :
  print line w = (Ok tt, set_stdout (stdout w ++ [line]) w).
Proof. reflexivity. Qed.

Lemma for_each_Forall2 {S A B} (f : A -> M S B) xs ys :
  Forall2 (fun x y => forall s, f x s = (Ok y, s)) xs ys ->
  forall s, for_each f xs s = (Ok ys, s).
Proof.
  induction 1 as [| x y xs ys Hxy _ IH]; intros s; [reflexivity |].
  simpl. rewrite (bind_Ok _ _ _ (Hxy s)). rewrite (bind_Ok _ _ _ (IH s)).
  reflexivity.
Qed.

(** When the first request of a load fails, [load_trik_tools] raises what
    the request raised, after this one request. *)
Lemma load_trik_tools_health_raises url callback w e :
  get_outcome (net w) = Raise e ->
  load_trik_tools url callback w = (Raise e, after_health url callback w).
Proof.
  intros H. unfold load_trik_tools.
  rewrite (bind_Ok _ _ _ (TrikClient_init_None url callback w)).
  unfold bind at 1. rewrite health_outcome.
  change (net (set_session_id (loaded_client url callback w) VNone
                 (set_instances (S (instances w)) w))) with (net w).
  rewrite H. reflexivity.
Qed.

Lemma get_all_tools_health_raises loader w e :
  get_outcome (net w) = Raise e ->
  get_all_tools (loader, w) =
  (Ok BUILT_IN_TOOLS,
   (loader,
    set_stdout (stdout w ++ load_warning e (server_url loader))%list
      (after_health (server_url loader) (loader_on_passthrough loader) w))).
Proof.
  intros H.
  assert (Htry : ToolLoader_load_trik_tools_try (loader, w) =
                 (Raise e,
                  (loader,
                   after_health (server_url loader)
                     (loader_on_passthrough loader) w))).
  { unfold ToolLoader_load_trik_tools_try, self_get, in_world, lift_snd.
    unfold_m. simpl.
    rewrite (load_trik_tools_health_raises _ _ _ H). reflexivity. }
  unfold get_all_tools, ToolLoader_load_trik_tools, try_except, bind.
  rewrite Htry, load_trik_tools_except_Ok. reflexivity.
Qed.

(** When the gateway answers the health request and lists descriptors of
    which tools can be made, [load_trik_tools] returns these tools, one for
    each descriptor, and the client it has created. *)
Lemma load_trik_tools_loads url callback w r1 r2 rest defs remote :
  net w = r1 :: r2 :: rest ->
  health_answer r1 ->
  listing r2 defs ->
  Forall2 (fun d t =>
             forall w0,
               langchain_tool (loaded_client url callback w) d w0 = (Ok t, w0))
          defs remote ->
  exists w2,
    load_trik_tools url callback w =
    (Ok (remote, loaded_client url callback w), w2)
    /\ net w2 = rest.
Proof.
  intros Hnet (h & t & Hh & Ht) (td & Htd & Hdefs) Hmade.
  unfold load_trik_tools.
  rewrite (bind_Ok _ _ _ (TrikClient_init_None url callback w)).
  set (client := loaded_client url callback w) in *.
  set (w0 := set_session_id client VNone (set_instances (S (instances w)) w)).
  assert (Hnet0 : net w0 = r1 :: r2 :: rest) by exact Hnet.
  assert (Hhealth :
            health client w0 =
            (Ok (VDict h),
             after_request (get_request client "/api/v1/health") w0)).
  { rewrite health_outcome, Hnet0, get_outcome_head, Hh. reflexivity. }
  rewrite (bind_Ok _ _ _ Hhealth).
  set (w1 := after_request _ w0).
  assert (Hnet1 : net w1 = r2 :: rest)
    by (unfold w1, after_request; simpl; rewrite Hnet; reflexivity).
  rewrite (bind_Ok _ _ _ (py_get_dict h "version" _ w1)).
  rewrite (bind_Ok _ _ _ (print_Ok _ w1)).
  set (w2 := set_stdout _ w1).
  rewrite (bind_Ok _ _ _ (py_get_dict h "triks" _ w2)).
  rewrite Ht.
  rewrite (bind_Ok _ _ _ (py_get_dict t "loaded" _ w2)).
  rewrite (bind_Ok _ _ _ (print_Ok _ w2)).
  set (w3 := set_stdout _ w2).
  assert (Hnet3 : net w3 = r2 :: rest) by exact Hnet1.
  assert (Hcreate :
            create_langchain_tools client w3 =
            (Ok remote,
             after_request (get_request client "/api/v1/tools") w3)).
  { unfold create_langchain_tools.
    assert (Hget : get_tools client w3 =
                   (Ok (VDict td),
                    after_request (get_request client "/api/v1/tools") w3))
      by (rewrite get_tools_outcome, Hnet3, get_outcome_head, Htd;
          reflexivity).
    rewrite (bind_Ok _ _ _ Hget).
    rewrite (bind_Ok _ _ _ (py_get_dict td "tools" _ _)).
    rewrite Hdefs.
    unfold bind at 1. cbn [py_iter ret].
    apply for_each_Forall2. exact Hmade. }
  rewrite (bind_Ok _ _ _ Hcreate).
  eexists. split; [reflexivity |].
  unfold after_request. simpl. rewrite Hnet. reflexivity.
Qed.

Lemma str_items_map_VStr ids : str_items (map VStr ids) = Some ids.
Proof.
  induction ids as [| i rest IH]; simpl; [| rewrite IH]; reflexivity.
Qed.

Lemma for_each_ids {S} triks ids (s : S) :
  Forall2 (fun t id => exists d, t = VDict d
                                 /\ dict_get d "id" = Some (VStr id))
          triks ids ->
  for_each (fun t => py_getitem t "id") triks s = (Ok (map VStr ids), s).
Proof.
  induction 1 as [| t id ts rest (d & -> & Hd) _ IH]; [reflexivity |].
  simpl. rewrite Hd. unfold bind at 1. unfold ret at 1.
  rewrite (bind_Ok _ _ _ IH). reflexivity.
Qed.

(** When the gateway answers the three requests of a load, the [try] of
    [ToolLoader.load_trik_tools] returns one tool for each descriptor
    listed and leaves them, their client and the ids of the triks in the
    loader. *)
Lemma load_trik_tools_try_loads loader w r1 r2 r3 rest defs remote ids :
  net w = r1 :: r2 :: r3 :: rest ->
  health_answer r1 ->
  listing r2 defs ->
  trik_listing r3 ids ->
  Forall2 (fun d t =>
             forall w0,
               langchain_tool
                 (loaded_client (server_url loader)
                    (loader_on_passthrough loader) w) d w0 = (Ok t, w0))
          defs remote ->
  exists w',
    ToolLoader_load_trik_tools_try (loader, w) =
    (Ok remote,
     (set_loaded_triks (map VStr ids)
        (set_trik_tools remote
           (set_trik_client
              (Some (loaded_client (server_url loader)
                       (loader_on_passthrough loader) w))
              loader)),
      w'))
    /\ net w' = rest.
Proof.
  intros Hnet Hh Hl (td & triks & Htd & Htriks & Hids) Hmade.
  destruct (@load_trik_tools_loads (server_url loader)
              (loader_on_passthrough loader) w r1 r2 (r3 :: rest) defs remote
              Hnet Hh Hl Hmade) as (w2 & Hload & Hnet2).
  set (client := loaded_client (server_url loader)
                   (loader_on_passthrough loader) w) in *.
  assert (Hget : get_tools client w2 =
                 (Ok (VDict td),
                  after_request (get_request client "/api/v1/tools") w2))
    by (rewrite get_tools_outcome, Hnet2, get_outcome_head, Htd; reflexivity).
  unfold ToolLoader_load_trik_tools_try, self_get, self_set, in_world,
    lift_snd.
  unfold_m. simpl. rewrite Hload. simpl. rewrite Hget. simpl.
  rewrite Htriks. simpl.
  rewrite (for_each_ids _ Hids). simpl.
  destruct ids as [| i more].
  - simpl. eexists. split; [reflexivity |].
    simpl. rewrite Hnet2. reflexivity.
  - cbn [map]. unfold py_join.
    change (VStr i :: map VStr more) with (map VStr (i :: more)).
    rewrite str_items_map_VStr. simpl.
    eexists. split; [reflexivity |].
    simpl. rewrite Hnet2. reflexivity.
Qed.

Lemma get_all_tools_loads loader w r1 r2 r3 rest defs remote ids :
  net w = r1 :: r2 :: r3 :: rest ->
  health_answer r1 ->
  listing r2 defs ->
  trik_listing r3 ids ->
  Forall2 (fun d t =>
             forall w0,
               langchain_tool
                 (loaded_client (server_url loader)
                    (loader_on_passthrough loader) w) d w0 = (Ok t, w0))
          defs remote ->
  exists w',
    get_all_tools (loader, w) =
    (Ok (BUILT_IN_TOOLS ++ remote)%list,
     (set_loaded_triks (map VStr ids)
        (set_trik_tools remote
           (set_trik_client
              (Some (loaded_client (server_url loader)
                       (loader_on_passthrough loader) w))
              loader)),
      w'))
    /\ net w' = rest.
Proof.
  intros Hnet Hh Hl Hi Hmade.
  destruct (@load_trik_tools_try_loads loader w r1 r2 r3 rest defs remote ids
              Hnet Hh Hl Hi Hmade) as (w' & Htry & Hnet').
  exists w'. split; [| exact Hnet'].
  unfold get_all_tools, ToolLoader_load_trik_tools, try_except, bind.
  rewrite Htry. reflexivity.
Qed.

Lemma descriptors_any tools_response (w1 : world) defs (w : world) :
  descriptors tools_response w1 = (Ok defs, w1) ->
  descriptors tools_response w = (Ok defs, w).
Proof.
  unfold descriptors. intros H.
  apply bind_inv_Ok in H. destruct H as (tool_defs & w2 & Hg & Hiter).
  apply py_get_inv_Ok in Hg. destruct Hg as (d & -> & -> & ->).
  rewrite (bind_Ok _ _ _ (py_get_dict d "tools" _ w)).
  destruct (dict_get_default d "tools" (VList [])); simpl in *;
    unfold ret, raise in *; inversion Hiter; reflexivity.
Qed.

(** What the module-level [load_trik_tools] returns, by the replies of the
    gateway: the client it has created, and one tool for each descriptor
    of the listing that answers its second request. *)
Lemma load_trik_tools_inv url callback w tools client w' :
  load_trik_tools url callback w = (Ok (tools, client), w') ->
  client = loaded_client url callback w
  /\ exists tools_response defs,
       get_outcome (tl (net w)) = Ok tools_response
       /\ descriptors tools_response w = (Ok defs, w)
       /\ Forall2 (fun d t =>
                     exists name, descriptor_name d = Some name
                                  /\ gateway_tool client name t)
                  defs tools.
Proof.
  unfold load_trik_tools. intros H.
  rewrite (bind_Ok _ _ _ (TrikClient_init_None url callback w)) in H.
  set (c := loaded_client url callback w) in *.
  apply bind_inv_Ok in H. destruct H as (h & w1 & Hhealth & H).
  rewrite health_outcome in Hhealth.
  assert (Hnet1 : net w1 = tl (net w))
    by (inversion Hhealth; reflexivity).
  clear Hhealth.
  apply bind_inv_Ok in H. destruct H as (version & w2 & Hv & H).
  apply py_get_pure in Hv. subst w2.
  apply bind_inv_Ok in H. destruct H as (u1 & w2 & Hp1 & H).
  rewrite print_Ok in Hp1.
  assert (Hnet2 : net w2 = tl (net w))
    by (inversion Hp1; exact Hnet1).
  clear Hp1.
  apply bind_inv_Ok in H. destruct H as (triks & w3 & Ht & H).
  apply py_get_pure in Ht. subst w3.
  apply bind_inv_Ok in H. destruct H as (loaded & w3 & Hl & H).
  apply py_get_pure in Hl. subst w3.
  apply bind_inv_Ok in H. destruct H as (u2 & w3 & Hp2 & H).
  rewrite print_Ok in Hp2.
  assert (Hnet3 : net w3 = tl (net w))
    by (inversion Hp2; exact Hnet2).
  clear Hp2.
  apply bind_inv_Ok in H. destruct H as (ts & w4 & Hcreate & H).
  inversion H. subst ts client w4. clear H.
  split; [reflexivity |].
  destruct (create_langchain_tools_spec c _ Hcreate)
    as (tr & w5 & defs & Hget & Hdefs & Hall).
  rewrite get_tools_outcome, Hnet3 in Hget.
  exists tr, defs.
  split; [inversion Hget; reflexivity |].
  split; [exact (@descriptors_any tr w5 defs w Hdefs) | exact Hall].
Qed.

(** The tools a successful [try] of [ToolLoader.load_trik_tools] returns
    are those of the module-level [load_trik_tools]. *)
Lemma load_trik_tools_try_listing loader w tools s' :
  ToolLoader_load_trik_tools_try (loader, w) = (Ok tools, s') ->
  exists tools_response defs,
    get_outcome (tl (net w)) = Ok tools_response
    /\ descriptors tools_response w = (Ok defs, w)
    /\ Forall2 (fun d t =>
                  exists name,
                    descriptor_name d = Some name
                    /\ gateway_tool
                         (loaded_client (server_url loader)
                            (loader_on_passthrough loader) w) name t)
               defs tools.
Proof.
  unfold ToolLoader_load_trik_tools_try. intros H.
  apply bind_inv_Ok in H. destruct H as (url & s0 & Hu & H).
  unfold self_get, gets in Hu. inversion Hu. subst url s0. clear Hu.
  apply bind_inv_Ok in H. destruct H as (cb & s0 & Hc & H).
  unfold self_get, gets in Hc. inversion Hc. subst cb s0. clear Hc.
  apply bind_inv_Ok in H. destruct H as (loaded & s1 & Hload & H).
  apply in_world_inv_Ok in Hload. destruct Hload as (Hload & _).
  assert (Hts : tools = fst loaded).
  { repeat (apply bind_inv_Ok in H; destruct H as (? & ? & _ & H)).
    inversion H. reflexivity. }
  subst tools. clear H. destruct loaded as [ts client].
  simpl in Hload |- *.
  apply load_trik_tools_inv in Hload.
  destruct Hload as (-> & Hlisting). exact Hlisting.
Qed.

(** C8. Loading the tools never raises. When anything in the [try] of
    [ToolLoader.load_trik_tools] raises, [get_all_tools] prints the two
    lines of warning and returns exactly the built-in tools. It does so
    when the gateway cannot be reached: when the first request of the load
    fails, because nothing answers, because the transport fails, or because
    of an error status or of a body that is no JSON, the result is the
    built-in tools, the loader is as it was, and the world is the one after
    that request with the two lines of warning printed, which name the
    exception of the request and the URL of the loader. *)
Theorem get_all_tools_degrades :
  forall (loader : ToolLoader) (w : world),
    (exists all_tools s', get_all_tools (loader, w) = (Ok all_tools, s'))
    /\ (forall e s1,
          ToolLoader_load_trik_tools_try (loader, w) = (Raise e, s1) ->
          get_all_tools (loader, w) =
          (Ok BUILT_IN_TOOLS,
           (fst s1,
            set_stdout
              (stdout (snd s1) ++ load_warning e (server_url (fst s1)))%list
              (snd s1))))
    /\ (forall e,
          (net w = [] /\ e = Exn ConnectionError "connection refused"
           \/ exists rest, net w = Fails e :: rest) ->
          get_all_tools (loader, w) =
          (Ok BUILT_IN_TOOLS,
           (loader,
            set_stdout (stdout w ++ load_warning e (server_url loader))%list
              (after_health (server_url loader)
                 (loader_on_passthrough loader) w))))
    /\ (forall e,
          get_outcome (net w) = Raise e ->
          get_all_tools (loader, w) =
          (Ok BUILT_IN_TOOLS,
           (loader,
            set_stdout (stdout w ++ load_warning e (server_url loader))%list
              (after_health (server_url loader)
                 (loader_on_passthrough loader) w)))).
Proof.
  intros loader w.
  assert (Hraise : forall e s1,
             ToolLoader_load_trik_tools_try (loader, w) = (Raise e, s1) ->
             get_all_tools (loader, w) =
             (Ok BUILT_IN_TOOLS,
              (fst s1,
               set_stdout
                 (stdout (snd s1) ++ load_warning e (server_url (fst s1)))%list
                 (snd s1)))).
  { intros e s1 H.
    unfold get_all_tools, ToolLoader_load_trik_tools, try_except, bind.
    rewrite H, load_trik_tools_except_Ok. reflexivity. }
  split; [| split; [| split]].
  - destruct (ToolLoader_load_trik_tools_try (loader, w)) as [[ts | e] s1] eqn:E.
    + exists (BUILT_IN_TOOLS ++ ts)%list, s1.
      unfold get_all_tools, ToolLoader_load_trik_tools, try_except, bind.
      rewrite E. reflexivity.
    + eexists _, _. apply Hraise. reflexivity.
  - exact Hraise.
  - intros e Hnet. apply get_all_tools_health_raises.
    destruct Hnet as [(Hnet & ->) | (rest & Hnet)]; rewrite Hnet; reflexivity.
  - intros e. apply get_all_tools_health_raises.
Qed.

(** C4 (amended). The merged list is the built-in tools, first and as they
    are, followed by the gateway tools the load has returned: when the
    gateway answers the three requests of the load, these are the tools
    made of the descriptors it lists, one for each descriptor and in the
    order of the listing; and in every load that returns gateway tools,
    there is one for each descriptor listed, with the name and the function
    that belong to the descriptor; when the [try] of the load raises,
    there is none. No tool is removed or renamed on account of a built-in
    tool, so on a collision both tools are in the list under one name. The first tool of a built-in name is the built-in one; the
    name table of the tool node binds a name to the last gateway tool
    exposed under it, and to the built-in tool only when there is none. *)
Theorem merged_tools_keep_both :
  forall loader w all_tools s',
    get_all_tools (loader, w) = (Ok all_tools, s') ->
    let client :=
      loaded_client (server_url loader) (loader_on_passthrough loader) w in
    exists remote,
      all_tools = (BUILT_IN_TOOLS ++ remote)%list
      /\ (forall r1 r2 r3 rest defs ids made,
             net w = r1 :: r2 :: r3 :: rest ->
             health_answer r1 ->
             listing r2 defs ->
             trik_listing r3 ids ->
             Forall2 (fun d t =>
                        forall w0, langchain_tool client d w0 = (Ok t, w0))
                     defs made ->
             remote = made)
      /\ (remote = []
          \/ exists tools_response defs,
               get_outcome (tl (net w)) = Ok tools_response
               /\ descriptors tools_response w = (Ok defs, w)
               /\ Forall2 (fun d t =>
                             exists name,
                               descriptor_name d = Some name
                               /\ gateway_tool client name t)
                          defs remote)
      /\ (forall e s1,
             ToolLoader_load_trik_tools_try (loader, w) = (Raise e, s1) ->
             remote = [])
      /\ (forall local,
             In local BUILT_IN_TOOLS ->
             find (named (t_name local)) all_tools = Some local)
      /\ (forall n,
             dict_get (tools_by_name all_tools) n =
             match find (named n) (rev remote) with
             | Some t => Some t
             | None => find (named n) BUILT_IN_TOOLS
             end).
Proof.
  intros loader w all_tools s' H client.
  assert (Hremote : exists remote,
             get_all_tools (loader, w) =
             (Ok (BUILT_IN_TOOLS ++ remote)%list, s')
             /\ (remote = []
                 \/ exists tools_response defs,
                      get_outcome (tl (net w)) = Ok tools_response
                      /\ descriptors tools_response w = (Ok defs, w)
                      /\ Forall2 (fun d t =>
                                    exists name,
                                      descriptor_name d = Some name
                                      /\ gateway_tool client name t)
                                 defs remote)
             /\ (forall e s1,
                    ToolLoader_load_trik_tools_try (loader, w) = (Raise e, s1) ->
                    remote = [])).
  { rewrite H.
    unfold get_all_tools, ToolLoader_load_trik_tools, try_except, bind in H.
    destruct (ToolLoader_load_trik_tools_try (loader, w))
      as [[ts | e] s1] eqn:E.
    - inversion H. exists ts. split; [reflexivity |].
      split; [| intros e s2 He; discriminate He].
      right. eapply load_trik_tools_try_listing. exact E.
    - rewrite load_trik_tools_except_Ok in H. inversion H.
      exists []. split; [reflexivity |].
      split; [left |]; reflexivity. }
  destruct Hremote as (remote & Hall & Hlisting & Hfails).
  assert (all_tools = (BUILT_IN_TOOLS ++ remote)%list) as ->
    by (rewrite H in Hall; inversion Hall; reflexivity).
  exists remote. split; [reflexivity |].
  split; [| split; [exact Hlisting | split; [exact Hfails |]]].
  { intros r1 r2 r3 rest defs ids made Hnet Hh Hl Hi Hmade.
    destruct (@get_all_tools_loads loader w r1 r2 r3 rest defs made ids
                Hnet Hh Hl Hi Hmade) as (w' & Hloads & _).
    rewrite Hloads in Hall. inversion Hall. reflexivity. }
  split.
  - intros local [<- | [<- | [<- | []]]]; reflexivity.
  - intros n. rewrite tools_by_name_last, rev_app_distr, find_app.
    destruct (find (named n) (rev remote)); [reflexivity |].
    unfold BUILT_IN_TOOLS. cbn [rev app find]. unfold named.
    change (t_name request_refund) with "request_refund".
    change (t_name find_order) with "find_order".
    change (t_name get_project_details) with "get_project_details".
    destruct (String.eqb "get_project_details" n) eqn:E1;
      destruct (String.eqb "find_order" n) eqn:E2;
      destruct (String.eqb "request_refund" n) eqn:E3;
      try reflexivity;
      repeat match goal with
             | E : String.eqb _ n = true |- _ =>
                 apply String.eqb_eq in E; subst n
             end;
      match goal with
      | E : String.eqb _ _ = true |- _ => cbv in E; discriminate E
      end.
Qed.


(** X13. When the gateway answers the loading but fails the second listing
    that [ToolLoader.load_trik_tools] asks for the trik ids, the method
    warns and returns no gateway tool, so that [get_all_tools] gives the
    built-in tools only, while the loader keeps the client and the tools
    it had already recorded. *)
Theorem load_trik_tools_partial_failure :
  forall loader w tools client w1 e w2,
    load_trik_tools (server_url loader) (loader_on_passthrough loader) w =
    (Ok (tools, client), w1) ->
    get_tools client w1 = (Raise e, w2) ->
    get_all_tools (loader, w) =
    (Ok BUILT_IN_TOOLS,
     (set_trik_tools tools (set_trik_client (Some client) loader),
      set_stdout (stdout w2 ++ load_warning e (server_url loader))%list w2)).
Proof.
  intros loader w tools client w1 e w2 Hload Hget.
  assert (Htry : ToolLoader_load_trik_tools_try (loader, w) =
                 (Raise e,
                  (set_trik_tools tools (set_trik_client (Some client) loader),
                   w2))).
  { unfold ToolLoader_load_trik_tools_try, self_get, self_set, in_world,
      lift_snd.
    unfold_m. simpl. rewrite Hload. simpl. rewrite Hget. reflexivity. }
  unfold get_all_tools, ToolLoader_load_trik_tools, try_except, bind.
  rewrite Htry, load_trik_tools_except_Ok. reflexivity.
Qed.

(** X14. [initialize_agent_with_triks] never raises on account of the
    gateway, and the tools it returns are the built-in tools followed by
    gateway tools of one client: the client its loader creates for the
    given URL, without the slashes at its end, with [handle_passthrough]
    as passthrough callback. When the gateway answers the three requests
    of the load, the tools returned after the built-in ones are the tools
    made of the descriptors the gateway lists, one for each, the function
    of each of them calls [execute_tool] of that client with the name of
    its descriptor, and the loader returned holds the client and the
    tools. *)
Theorem initialize_wires_passthrough :
  forall url w,
    let client := loaded_client url (Some handle_passthrough) w in
    (exists remote loader w',
        initialize_agent_with_triks url w =
        (Ok ((BUILT_IN_TOOLS ++ remote)%list, loader), w')
        /\ Forall (fun t => exists name, gateway_tool client name t) remote)
    /\ on_passthrough client = Some handle_passthrough
    /\ base_url client = rstrip_char slash url
    /\ (forall r1 r2 r3 rest defs ids made,
          net w = r1 :: r2 :: r3 :: rest ->
          health_answer r1 ->
          listing r2 defs ->
          trik_listing r3 ids ->
          Forall2 (fun d t =>
                     forall w0, langchain_tool client d w0 = (Ok t, w0))
                  defs made ->
          exists loader w',
            initialize_agent_with_triks url w =
            (Ok ((BUILT_IN_TOOLS ++ made)%list, loader), w')
            /\ trik_client loader = Some client
            /\ trik_tools loader = made
            /\ Forall2 (fun d t =>
                          exists name,
                            descriptor_name d = Some name
                            /\ t_func t = fn_tool_func client name)
                       defs made).
Proof.
  intros url w client.
  split; [| split; [reflexivity | split; [reflexivity |]]].
  - unfold initialize_agent_with_triks, load_all_tools, get_all_tools,
      ToolLoader_load_trik_tools, try_except, bind.
    destruct (ToolLoader_load_trik_tools_try
                (ToolLoader_init url (Some handle_passthrough), w))
      as [[ts | e] [l1 w1]] eqn:E.
    + exists ts, l1, w1. split; [reflexivity |].
      apply load_trik_tools_try_inv in E.
      destruct E as (_ & _ & _ & (c & _ & Hclient & Hgw) & _).
      simpl in Hclient. subst c. exact Hgw.
    + rewrite load_trik_tools_except_Ok. simpl.
      eexists [], _, _. split; [reflexivity | constructor].
  - intros r1 r2 r3 rest defs ids made Hnet Hh Hl Hi Hmade.
    destruct (@get_all_tools_loads
                (ToolLoader_init url (Some handle_passthrough)) w r1 r2 r3
                rest defs made ids Hnet Hh Hl Hi Hmade)
      as (w' & Hloads & _).
    unfold initialize_agent_with_triks, load_all_tools.
    rewrite Hloads. eexists _, w'. split; [reflexivity |].
    split; [reflexivity |]. split; [reflexivity |].
    eapply Forall2_impl; [| exact Hmade].
    intros d t Ht. destruct (langchain_tool_inv _ _ _ (Ht w))
      as (name & Hname & _ & Hfunc).
    exists name. split; [exact Hname | exact Hfunc].
Qed.


Lemma for_each_frame {S A B} (f : A -> M S B) xs :
  (forall x s, snd (f x s) = s) ->
  forall s, snd (for_each f xs s) = s.
Proof.
  intros Hf. induction xs as [| x rest IH]; intros s; [reflexivity |].
  simpl. unfold bind at 1. specialize (Hf x s).
  destruct (f x s) as [[y | e] s1]; simpl in Hf; subst s1; [| reflexivity].
  unfold bind. specialize (IH s).
  destruct (for_each f rest s) as [[ys | e] s2]; simpl in IH; subst s2;
    reflexivity.
Qed.

(** Binding the keywords of a call neither prints nor sends. *)
Lemma bind_params_frame fname params kwargs w :
  snd (bind_params fname params kwargs w) = w.
Proof.
  unfold bind_params.
  destruct (negb (forallb _ kwargs)); [reflexivity |].
  apply for_each_frame. intros p s.
  destruct (dict_get kwargs p); reflexivity.
Qed.

(** X15. The built-in tools work in-process: whatever the keyword
    arguments, a call makes no request, consumes no reply and touches
    neither a session id nor the passthrough slot. [request_refund] does
    not look at the order id: with an id and a reason it prints both and
    returns its confirmation, whether or not the id starts with [ORD]. *)
Theorem builtin_tools_in_process :
  forall kwargs w,
    (forall t, In t BUILT_IN_TOOLS ->
        let w' := snd (call_func (t_func t) kwargs w) in
        net w' = net w /\ sent w' = sent w
        /\ session_ids w' = session_ids w
        /\ _last_passthrough_content w' = _last_passthrough_content w)
    /\ (forall order_id reason,
          call_func fn_request_refund
            [("order_id", order_id); ("reason", reason)] w =
          (Ok (VStr ("Refund request submitted for order " ++ py_str order_id
                     ++ ". Our team will process this within 3-5 business days.")),
           set_stdout
             (stdout w
              ++ [("Processing refund for order: " ++ py_str order_id)%string;
                  ("   Reason: " ++ py_str reason)%string])%list
             w)).
Proof.
  intros kwargs w. split.
  - assert (Hframe :
               forall fname ps (k : list pyval -> M world pyval),
                 (forall args s,
                     let s' := snd (k args s) in
                     net s' = net s /\ sent s' = sent s
                     /\ session_ids s' = session_ids s
                     /\ _last_passthrough_content s' =
                        _last_passthrough_content s) ->
                 let w' := snd (bind (bind_params fname ps kwargs) k w) in
                 net w' = net w /\ sent w' = sent w
                 /\ session_ids w' = session_ids w
                 /\ _last_passthrough_content w' = _last_passthrough_content w).
    { intros fname ps k Hk. unfold bind.
      pose proof (bind_params_frame fname ps kwargs w) as Hb.
      destruct (bind_params fname ps kwargs w) as [[args | e] w1];
        simpl in Hb; subst w1.
      - apply Hk.
      - repeat split; reflexivity. }
    intros t [<- | [<- | [<- | []]]];
      apply Hframe;
      intros args s;
      repeat (destruct args as [| ? args]; try (repeat split; reflexivity)).
  - intros order_id reason.
    assert (Hb : bind_params "request_refund" ["order_id"; "reason"]
                   [("order_id", order_id); ("reason", reason)] w =
                 (Ok [order_id; reason], w)) by reflexivity.
    unfold call_func. rewrite (bind_Ok _ _ _ Hb).
    unfold print, modify, bind, ret, set_stdout.
    cbn [stdout net sent session_ids instances _last_passthrough_content].
    rewrite <- app_assoc. reflexivity.
Qed.

(** ** The workflow: routing and the shape of a run *)

Section workflow_runs.

Variable tools : list StructuredTool.
Variable model : list message -> result message.
Variable validator : string -> string -> result ReasonValidation.

(** What [validate_refund] does with a refund call the validator judges
    valid. *)
Lemma validate_refund_accepts history c calls rc ev w :
  find is_refund_call calls = Some rc ->
  validator validator_system_prompt (validation_prompt rc) = Ok ev ->
  is_valid ev = true ->
  validate_refund validator (history ++ [AIMessage c calls]) w =
  (Ok [], set_stdout (stdout w ++ ["Reason validation: Valid"])%list w).
Proof.
  intros Hfind Hval Hvalid.
  unfold validate_refund.
  rewrite (bind_Ok _ _ _ (last_of_snoc history (AIMessage c calls) w)).
  rewrite Hfind. fold (validation_prompt rc).
  unfold lift_result, bind at 1. rewrite Hval.
  unfold bind, print, modify, ret. rewrite Hvalid. reflexivity.
Qed.

(** X16. The validator is asked about the first refund call of the
    message only. When it judges that call valid, the validation step adds
    no message and hands the message as it is to the tool node, which then
    dispatches every call of the message, further refund calls included,
    whatever their reasons. *)
Theorem first_refund_call_validates_message :
  forall history c calls rc ev s,
    find is_refund_call calls = Some rc ->
    validator validator_system_prompt (validation_prompt rc) = Ok ev ->
    is_valid ev = true ->
    let messages := (history ++ [AIMessage c calls])%list in
    let s1 := (dispatched s,
               set_stdout (stdout (snd s) ++ ["Reason validation: Valid"])%list
                          (snd s)) in
    step tools model validator N_validate_refund messages s =
    (Ok (N_tools, messages), s1)
    /\ dispatched (snd (step tools model validator N_tools messages s1)) =
       (dispatched s ++ map tc_id calls)%list.
Proof.
  intros history c calls rc ev s Hfind Hval Hvalid messages s1.
  subst messages s1. split.
  - erewrite step_validate_Ok
      by (eapply validate_refund_accepts; eassumption).
    rewrite app_nil_r. reflexivity.
  - pose proof (ToolNode_dispatched tools history (AIMessage c calls)
                  (dispatched s,
                   set_stdout (stdout (snd s) ++ ["Reason validation: Valid"])%list
                              (snd s))) as Hd.
    unfold step, bind.
    destruct (ToolNode tools (history ++ [AIMessage c calls]) _)
      as [[out | e] s2]; exact Hd.
Qed.

Lemma run_S fuel n messages :
  n <> N_END ->
  run tools model validator (S fuel) n messages =
  bind (step tools model validator n messages)
       (fun next => run tools model validator fuel (fst next) (snd next)).
Proof. destruct n; intros Hn; [reflexivity .. | congruence]. Qed.

Lemma run_END fuel messages (s : list string * world) :
  run tools model validator fuel N_END messages s = (Ok messages, s).
Proof. destruct fuel; reflexivity. Qed.

(** X17. The first decision settles a run that needs no tool: when the
    model fails, [graph.invoke] raises its exception, and when the model
    answers with a message without tool calls, [graph.invoke] returns the
    conversation with that message appended; in both cases the world is as
    before. *)
Theorem graph_invoke_first_decision :
  forall messages w,
    (forall e, model messages = Raise e ->
               graph_invoke tools model validator messages w = (Raise e, w))
    /\ (forall m, model messages = Ok m -> next_after_agent m = N_END ->
                  graph_invoke tools model validator messages w =
                  (Ok (messages ++ [m])%list, w)).
Proof.
  intros messages w. split.
  - intros e He. unfold graph_invoke.
    change recursion_limit with (S 24).
    rewrite run_S by discriminate.
    unfold bind. erewrite step_agent_Raise by exact He. reflexivity.
  - intros m Hm Hend. unfold graph_invoke.
    change recursion_limit with (S 24).
    rewrite run_S by discriminate.
    unfold bind. erewrite step_agent_Ok by exact Hm.
    cbn [fst snd]. rewrite Hend, run_END. reflexivity.
Qed.

(** A step that succeeds appends to the conversation, and only the agent
    node leads to [END], on an answer of the model without tool calls. *)
Lemma step_result n messages s n' messages' s' :
  step tools model validator n messages s = (Ok (n', messages'), s') ->
  (exists added, messages' = (messages ++ added)%list)
  /\ (n <> N_END -> n' = N_END ->
      exists m, model messages = Ok m
                /\ messages' = (messages ++ [m])%list
                /\ next_after_agent m = N_END).
Proof.
  intros H. destruct n.
  - destruct (model messages) as [m | e] eqn:Em.
    + erewrite step_agent_Ok in H by exact Em. inversion H. subst.
      split; [exists [m]; reflexivity |].
      intros _ Hend. exists m. auto.
    + erewrite step_agent_Raise in H by exact Em. discriminate H.
  - destruct (rev messages) as [| m front'] eqn:Er.
    + unfold step, validate_refund, lift_snd, bind, last_of in H.
      rewrite Er in H. unfold raise in H. simpl in H. discriminate H.
    + assert (Hm : messages = (rev front' ++ [m])%list)
        by (rewrite <- (rev_involutive messages), Er; reflexivity).
      rewrite Hm in H |- *.
      destruct (validate_refund_out validator (rev front') m (snd s))
        as (out & w' & [(Hv & Hout) | (e & Hv)]).
      * erewrite step_validate_Ok in H by exact Hv. inversion H. subst.
        split; [exists out; reflexivity |].
        intros _ Hend. unfold next_after_validation in Hend.
        destruct (last out m); discriminate Hend.
      * erewrite step_validate_Raise in H by exact Hv. discriminate H.
  - unfold step, bind in H.
    destruct (ToolNode tools messages s) as [[out | e] s1];
      [| discriminate H].
    inversion H. subst. split; [exists out; reflexivity |].
    intros _ Hend. discriminate Hend.
  - inversion H. subst. split; [exists []; rewrite app_nil_r; reflexivity |].
    intros Hn. congruence.
Qed.

Lemma node_eq_END (n : node) : n = N_END \/ n <> N_END.
Proof. destruct n; (left; reflexivity) || (right; discriminate). Qed.

Lemma run_result fuel :
  forall n messages s final s',
    run tools model validator fuel n messages s = (Ok final, s') ->
    (exists added, final = (messages ++ added)%list)
    /\ (n <> N_END ->
        exists front m,
          final = (front ++ [m])%list /\ model front = Ok m
          /\ next_after_agent m = N_END).
Proof.
  induction fuel as [| fuel IH]; intros n messages s final s' H.
  - destruct n; simpl in H; try discriminate H.
    inversion H. split; [exists []; rewrite app_nil_r; reflexivity |].
    intros Hn. congruence.
  - destruct (node_eq_END n) as [-> | Hn].
    + rewrite run_END in H. inversion H.
      split; [exists []; rewrite app_nil_r; reflexivity |].
      intros Hn. congruence.
    + rewrite run_S in H by exact Hn.
      apply bind_inv_Ok in H.
      destruct H as ([n' messages'] & s1 & Hstep & H).
      cbn [fst snd] in H.
      destruct (step_result _ _ _ Hstep) as ((added & Hadd) & Hend).
      destruct (node_eq_END n') as [-> | Hn'].
      * rewrite run_END in H. injection H as <- <-.
        destruct (Hend Hn eq_refl) as (m & Hm & Hms & Hnext).
        split; [exists added; exact Hadd |].
        intros _. exists messages, m. repeat split; assumption.
      * destruct (IH _ _ _ _ _ H) as ((added' & Hadd') & Hlast).
        split.
        -- exists (added ++ added')%list.
           rewrite Hadd', Hadd, app_assoc. reflexivity.
        -- intros _. apply Hlast. exact Hn'.
Qed.

Lemma run_from_agent_result fuel messages w final w' :
  (match run tools model validator fuel N_agent messages ([], w) with
   | (r, (_, w1)) => (r, w1)
   end) = (Ok final, w') ->
  exists added front m,
    final = (messages ++ added)%list
    /\ final = (front ++ [m])%list
    /\ model front = Ok m
    /\ next_after_agent m = N_END.
Proof.
  intros H.
  destruct (run tools model validator fuel N_agent messages ([], w))
    as [r [d w1]] eqn:E.
  injection H as -> ->.
  destruct (run_result _ _ _ _ E) as ((added & Ha) & Hlast).
  destruct (Hlast ltac:(discriminate)) as (front & m & Hf & Hm & Hn).
  exists added, front, m. repeat split; assumption.
Qed.


(** X18. A run that returns has only appended to the conversation it was
    given, and what it returns ends with a message the model gave for the
    conversation before it, a message that asks for no tool. *)
Theorem graph_invoke_result :
  forall messages w final w',
    graph_invoke tools model validator messages w = (Ok final, w') ->
    exists added front m,
      final = (messages ++ added)%list
      /\ final = (front ++ [m])%list
      /\ model front = Ok m
      /\ next_after_agent m = N_END.
Proof.
  intros messages w final w'.
  exact (run_from_agent_result recursion_limit messages w (final := final)
           (w' := w')).
Qed.

End workflow_runs.

(** ** The loop of the command line *)

Section cli_turns.

Variable tools : list StructuredTool.
Variable model : list message -> result message.
Variable validator : string -> string -> result ReasonValidation.
Variable py_strip : string -> string.
Variable py_lower : string -> string.

Lemma keeps_slot_ret {A} (a : A) : keeps_slot (ret a).
Proof. intros w. reflexivity. Qed.

Lemma keeps_slot_raise {A} c msg : keeps_slot (@raise world A c msg).
Proof. intros w. reflexivity. Qed.

Lemma keeps_slot_print line : keeps_slot (print line).
Proof. intros w. reflexivity. Qed.

Lemma keeps_slot_bind {A B} (m : M world A) (k : A -> M world B) :
  keeps_slot m -> (forall a, keeps_slot (k a)) -> keeps_slot (bind m k).
Proof.
  intros Hm Hk w. unfold bind. specialize (Hm w).
  destruct (m w) as [[a | e] w1]; simpl in Hm.
  - rewrite (Hk a w1). exact Hm.
  - exact Hm.
Qed.

Lemma keeps_slot_py_get v k default : keeps_slot (py_get v k default).
Proof. destruct v; simpl; auto using keeps_slot_ret, keeps_slot_raise. Qed.

Lemma keeps_slot_last_of messages : keeps_slot (last_of messages).
Proof.
  unfold last_of.
  destruct (rev messages); auto using keeps_slot_ret, keeps_slot_raise.
Qed.

Lemma keeps_slot_show passthrough result : keeps_slot (show passthrough result).
Proof.
  unfold show.
  repeat first
    [ apply keeps_slot_ret | apply keeps_slot_print | apply keeps_slot_py_get
    | apply keeps_slot_last_of
    | match goal with
      | |- keeps_slot (match ?p with _ => _ end) =>
          destruct p as [[? ?] |]
      end
    | apply keeps_slot_bind; [| intros ?] ].
Qed.


(** A turn, by what the graph does. *)
Lemma turn_unfold user_input messages w :
  turn tools model validator user_input messages w =
  match graph_invoke tools model validator
          (messages ++ [HumanMessage user_input]) w with
  | (Ok result, w1) =>
      match show (_last_passthrough_content w1) result
              (set_last_passthrough_content None w1) with
      | (Ok x, w2) => (Ok x, w2)
      | (Raise e, w2) =>
          (Ok (messages ++ [HumanMessage user_input])%list,
           set_stdout (stdout w2 ++ turn_error e)%list w2)
      end
  | (Raise e, w1) =>
      (Ok (messages ++ [HumanMessage user_input])%list,
       set_stdout (stdout w1 ++ turn_error e)%list w1)
  end.
Proof.
  unfold turn, try_except.
  unfold bind at 1.
  destruct (graph_invoke tools model validator
              (messages ++ [HumanMessage user_input]) w) as [[result | e] w1].
  - unfold bind at 1. unfold get_last_passthrough_content at 1.
    unfold bind at 1. unfold gets at 1. unfold bind at 1. unfold modify at 1.
    unfold ret at 1.
    change (show (_last_passthrough_content w1) result
              (set_last_passthrough_content None w1))
      with ((fun s => show (_last_passthrough_content w1) result s)
              (set_last_passthrough_content None w1)).
    unfold show.
    destruct (bind _ _ (set_last_passthrough_content None w1))
      as [[x | e] w2]; [reflexivity |].
    unfold print, modify, bind, ret, turn_error, set_stdout. simpl.
    rewrite <- app_assoc. reflexivity.
  - unfold print, modify, bind, ret, turn_error, set_stdout. simpl.
    rewrite <- app_assoc. reflexivity.
Qed.



(** X20. The passthrough slot after a turn: when the graph returns, the
    turn reads the slot, so that it is empty afterwards, also when the
    display fails; when the graph raises, the slot is not read and keeps
    what the run left in it until a later turn. *)
Theorem turn_drains_slot :
  forall user_input messages w,
    let ran := graph_invoke tools model validator
                 (messages ++ [HumanMessage user_input]) w in
    _last_passthrough_content
      (snd (turn tools model validator user_input messages w)) =
    match fst ran with
    | Ok _ => None
    | Raise _ => _last_passthrough_content (snd ran)
    end.
Proof.
  intros user_input messages w ran. subst ran. rewrite turn_unfold.
  destruct (graph_invoke tools model validator
              (messages ++ [HumanMessage user_input]) w)
    as [[result | e] w1]; [| reflexivity].
  pose proof (keeps_slot_show (_last_passthrough_content w1) result
                (set_last_passthrough_content None w1)) as Hk.
  destruct (show (_last_passthrough_content w1) result
              (set_last_passthrough_content None w1)) as [[x | e] w2];
    simpl in Hk |- *; exact Hk.
Qed.

(** X21. When the graph returns and the slot holds content whose metadata
    is not an object, the display raises: the turn prints the error, the
    slot is emptied all the same, and the conversation the graph returned
    is dropped, the list being left with the user message only. *)
Theorem turn_drops_result_on_bad_metadata :
  forall user_input messages w result w1 content metadata,
    graph_invoke tools model validator
      (messages ++ [HumanMessage user_input]) w = (Ok result, w1) ->
    _last_passthrough_content w1 = Some (content, metadata) ->
    (forall d, metadata <> VDict d) ->
    let w2 := set_last_passthrough_content None w1 in
    turn tools model validator user_input messages w =
    (Ok (messages ++ [HumanMessage user_input])%list,
     set_stdout
       (stdout w2
        ++ turn_error (Exn AttributeError
                           (squote ++ type_name metadata
                            ++ "' object has no attribute 'get'")))%list
       w2).
Proof.
  intros user_input messages w result w1 content metadata G Hslot Hmd w2.
  rewrite turn_unfold, G, Hslot. fold w2.
  unfold show.
  destruct metadata; try (exfalso; eapply Hmd; reflexivity); reflexivity.
Qed.



End cli_turns.

End Playground.

(** * The properties at sample inputs *)

(** C1. A decision step emits a [find_order] call and a [request_refund]
    call, and the validator refuses the refund. The run reaches [END] with
    the conversation below, in which only the refund call has a result: the
    [find_order] call [call_a] has none, against the comment in
    [validate_refund] that every tool call gets a response. *)
Theorem rejected_refund_leaves_sibling_call_dangling :
  let final :=
    [HumanMessage "Find my lamp order and refund it";
     AIMessage EmptyString [find_call; refund_call];
     rejection sample_verdict refund_call;
     AIMessage "Why would you like a refund?" []] in
  fst (graph_invoke sample_repr sample_coerce true BUILT_IN_TOOLS
         sample_model sample_validator sample_question (world_with []))
  = Ok final
  /\ results_for "call_a" final = 0
  /\ results_for "call_b" final = 1
  /\ no_dangling_calls final = false.
Proof.
  vm_compute. repeat split; reflexivity.
Qed.

(** C2 at the sample: the refused refund call [call_b] gets its result
    message, the agent node is next, and no run from there dispatches
    [call_b]. *)
Lemma rejected_refund_answered_not_executed_witness :
  let s := (@nil string, world_with []) in
  let messages := (sample_question ++ [AIMessage EmptyString [find_call; refund_call]])%list in
  let rejected := (messages ++ [rejection sample_verdict refund_call])%list in
  let s1 := (@nil string,
             set_stdout ["Reason validation: Invalid"] (world_with [])) in
  step sample_repr sample_coerce true BUILT_IN_TOOLS sample_model
       sample_validator N_validate_refund messages s =
  (Ok (N_agent, rejected), s1)
  /\ forall fuel,
       exists extra,
         dispatched (snd (run sample_repr sample_coerce true BUILT_IN_TOOLS
                              sample_model sample_validator fuel N_agent
                              rejected s1)) =
         ([] ++ extra)%list
         /\ ~ In "call_b" extra.
Proof.
  destruct (@rejected_refund_answered_not_executed sample_repr sample_coerce
              true BUILT_IN_TOOLS sample_model sample_validator
              sample_question EmptyString [find_call; refund_call]
              refund_call sample_verdict (@nil string, world_with [])
              eq_refl eq_refl eq_refl) as [Hstep Hrun].
  split; [exact Hstep |].
  intros fuel. apply Hrun.
  intros later m Hm. simpl in Hm. inversion Hm. simpl. intros [].
Defined.

(** C3: the acknowledgment is not ["[article delivered]"], and the fetched
    text, here the word [delivered], does appear in it. *)
Lemma passthrough_acknowledgment_counterexample :
  let returned :=
    fst (execute_tool sample_repr (sample_client (Some handle_passthrough))
           "articles:read" [] passthrough_world) in
  dict_get passthrough_content "content" = Some (VStr "delivered")
  /\ returned = Ok (VStr "[article delivered to user]")
  /\ returned <> Ok (VStr "[article delivered]")
  /\ contains "delivered" "[article delivered to user]" = true.
Proof.
  vm_compute. repeat split; try reflexivity. discriminate.
Qed.

(** C3 (amended) at the sample: the acknowledgment, and the slot filled by
    the one call of [handle_passthrough]. *)
Lemma execute_tool_passthrough_witness :
  let after :=
    execute_tool sample_repr (sample_client (Some handle_passthrough))
      "articles:read" [] passthrough_world in
  fst after = Ok (VStr "[article delivered to user]")
  /\ _last_passthrough_content (snd after) =
     Some (VStr "delivered", VDict [("contentType", VStr "article")]).
Proof.
  destruct (@execute_tool_passthrough sample_repr
              (sample_client (Some handle_passthrough)) "articles:read" []
              passthrough_world _ _ _ passthrough_envelope (VStr "ref-1")
              _ passthrough_content
              eq_refl eq_refl eq_refl eq_refl eq_refl eq_refl eq_refl eq_refl
              eq_refl eq_refl) as [Hcall _].
  cbv zeta. rewrite (Hcall handle_passthrough eq_refl).
  split; reflexivity.
Defined.

(** C4: a gateway tool named [request_refund] stays in the merged list next
    to the built-in tool of that name, and it is the one the name table of
    the tool node binds the name to. *)
Lemma local_tool_shadowed_counterexample :
  let all_tools := (BUILT_IN_TOOLS ++ [colliding_tool])%list in
  fst (get_all_tools sample_repr sample_create_model sample_tool_description
         (ToolLoader_init "http://localhost:3002" None, colliding_world))
  = Ok all_tools
  /\ In request_refund BUILT_IN_TOOLS
  /\ t_name colliding_tool = t_name request_refund
  /\ colliding_tool <> request_refund
  /\ length (filter (named "request_refund") all_tools) = 2
  /\ dict_get (tools_by_name all_tools) "request_refund" = Some colliding_tool.
Proof.
  cbv zeta. split; [vm_compute; reflexivity |].
  split; [left; reflexivity |].
  split; [reflexivity |].
  split; [discriminate |].
  split; vm_compute; reflexivity.
Qed.

(** C4 (amended) at the sample: the gateway lists one descriptor, named as
    a built-in tool, and the tool made of it is in the merged list after the
    built-in tools. *)
Lemma merged_tools_keep_both_witness :
  let all_tools := (BUILT_IN_TOOLS ++ [colliding_tool])%list in
  exists remote,
    all_tools = (BUILT_IN_TOOLS ++ remote)%list
    /\ remote = [colliding_tool]
    /\ (forall local,
           In local BUILT_IN_TOOLS ->
           find (named (t_name local)) all_tools = Some local)
    /\ (forall n,
           dict_get (tools_by_name all_tools) n =
           match find (named n) (rev remote) with
           | Some t => Some t
           | None => find (named n) BUILT_IN_TOOLS
           end).
Proof.
  assert (E : exists s',
             get_all_tools sample_repr sample_create_model
               sample_tool_description
               (ToolLoader_init "http://localhost:3002" None, colliding_world) =
             (Ok (BUILT_IN_TOOLS ++ [colliding_tool])%list, s'))
    by (eexists; vm_compute; reflexivity).
  destruct E as (s' & E).
  destruct (@merged_tools_keep_both sample_repr sample_create_model
              sample_tool_description
              (ToolLoader_init "http://localhost:3002" None) colliding_world
              _ _ E)
    as (remote & Hall & Hmade & _ & _ & Hfirst & Htable).
  exists remote. split; [exact Hall |].
  split; [| split; [exact Hfirst | exact Htable]].
  eapply (Hmade _ _ _ [] _ ["shop"]).
  - reflexivity.
  - eexists _, _. split; reflexivity.
  - eexists. split; reflexivity.
  - eexists _, _. split; [reflexivity |]. split; [reflexivity |].
    constructor; [| constructor]. eexists. split; reflexivity.
  - constructor; [| constructor]. intros w0. reflexivity.
Defined.


(** C6 at a sample: a 404 with an error envelope becomes the text of the
    tool result. *)
Lemma execute_tool_remote_failure_witness :
  fst (execute_tool sample_repr (sample_client None) "articles:read" []
         failure_world)
  = Ok (VStr "Error: Tool not found").
Proof.
  apply (@execute_tool_remote_failure sample_repr (sample_client None)
           "articles:read" [] failure_world _ _
           [("success", VBool false); ("error", VStr "Tool not found")]
           eq_refl eq_refl eq_refl).
Defined.

Lemma handle_passthrough_keeps_log :
  callback_keeps_log (sample_client (Some handle_passthrough)).
Proof.
  intros c m w. exists []. simpl. rewrite app_nil_r. reflexivity.
Defined.


(** C8 at a sample: with nothing listening at the gateway, the loader
    returns the built-in tools and the two lines of warning are printed. *)
Lemma get_all_tools_degrades_witness :
  let after :=
    get_all_tools sample_repr sample_create_model sample_tool_description
      (ToolLoader_init "http://localhost:3002" None, world_with []) in
  fst after = Ok BUILT_IN_TOOLS
  /\ stdout (snd (snd after)) =
     ["[Triks] Error loading triks from server: connection refused";
      "[Triks] Make sure trik-server is running at http://localhost:3002"].
Proof.
  cbv zeta.
  destruct (get_all_tools_degrades sample_repr sample_create_model
              sample_tool_description
              (ToolLoader_init "http://localhost:3002" None) (world_with []))
    as (_ & _ & Hunreachable & _).
  rewrite (Hunreachable (Exn ConnectionError "connection refused"))
    by (left; split; reflexivity).
  split; reflexivity.
Defined.



(** * The further properties at sample inputs *)

(** X1 at a sample: a second client does not disturb the session id of
    the first. *)
Lemma TrikClient_init_fresh_witness :
  let first := sample_client None in
  let w := set_instances 1 (set_session_id first (VStr "s-1") (world_with [])) in
  exists self w',
    TrikClient_init "http://localhost:3002//" None None w = (Ok self, w')
    /\ base_url self = "http://localhost:3002"
    /\ get_session_id self w' = VNone
    /\ get_session_id first w' = VStr "s-1".
Proof.
  cbv zeta.
  destruct (TrikClient_init_fresh "http://localhost:3002//" None None
              (set_instances 1
                 (set_session_id (sample_client None) (VStr "s-1")
                    (world_with []))))
    as (self & w' & Hinit & _ & _ & Hnone & _ & _ & Hid & _ & _ & _ & _ & Hother).
  exists self, w'. split; [exact Hinit |].
  split; [inversion Hinit; reflexivity |].
  split; [exact Hnone |].
  rewrite (Hother (sample_client None)); [reflexivity |].
  rewrite Hid. discriminate.
Defined.

(** X4 at a sample. *)
Lemma execute_tool_response_text_witness :
  fst (execute_tool sample_repr (sample_client (Some handle_passthrough))
         "articles:search" [] template_world)
  = Ok (VStr "Found 3 articles").
Proof.
  rewrite (@execute_tool_response_text sample_repr
             (sample_client (Some handle_passthrough)) "articles:search" []
             template_world _ _
             [("success", VBool true); ("responseMode", VStr "template");
              ("response", VStr "Found 3 articles")]
             eq_refl eq_refl eq_refl eq_refl).
  reflexivity.
Defined.

(** X5 at a sample. *)
Lemma execute_tool_passthrough_without_reference_witness :
  fst (execute_tool sample_repr (sample_client (Some handle_passthrough))
         "articles:read" [] no_reference_world)
  = Ok (VStr "Content delivered to user.").
Proof.
  rewrite (@execute_tool_passthrough_without_reference sample_repr
             (sample_client (Some handle_passthrough)) "articles:read" []
             no_reference_world _ _
             [("success", VBool true); ("responseMode", VStr "passthrough")]
             eq_refl eq_refl eq_refl eq_refl eq_refl).
  reflexivity.
Defined.

(** X6 at a sample: the 404 of the content fetch comes out of
    [execute_tool] as an exception. *)
Lemma execute_tool_content_fetch_raises_witness :
  fst (execute_tool sample_repr (sample_client (Some handle_passthrough))
         "articles:read" [] lost_content_world)
  = Raise (Exn HTTPError "HTTP error").
Proof.
  rewrite (@execute_tool_content_fetch_raises sample_repr
             (sample_client (Some handle_passthrough)) "articles:read" []
             lost_content_world _ _ passthrough_envelope (VStr "ref-1")
             (Exn HTTPError "HTTP error")
             eq_refl eq_refl eq_refl eq_refl eq_refl eq_refl eq_refl).
  reflexivity.
Defined.

(** X7 at a sample: the slot stays empty. *)
Lemma execute_tool_content_not_success_witness :
  let after :=
    execute_tool sample_repr (sample_client (Some handle_passthrough))
      "articles:read" [] refused_content_world in
  fst after = Ok (VStr "Content delivered to user.")
  /\ _last_passthrough_content (snd after) = None.
Proof.
  cbv zeta.
  rewrite (@execute_tool_content_not_success sample_repr
             (sample_client (Some handle_passthrough)) "articles:read" []
             refused_content_world _ _ passthrough_envelope (VStr "ref-1")
             [("success", VBool false)]
             eq_refl eq_refl eq_refl eq_refl eq_refl eq_refl eq_refl eq_refl).
  split; reflexivity.
Defined.

(** X8 at a sample. *)
Lemma execute_tool_input_without_None_witness :
  let kwargs := [("query", VStr "rocq"); ("limit", VNone)] in
  let after :=
    execute_tool sample_repr (sample_client (Some handle_passthrough))
      "search:find" kwargs template_world in
  exists rq more payload input,
    sent (snd after) = (sent template_world ++ rq :: more)%list
    /\ rq_method rq = POST
    /\ rq_json rq = Some (VDict payload)
    /\ dict_get payload "input" = Some (VDict input)
    /\ (forall k, dict_get input k <> Some VNone)
    /\ (forall k v, dict_get kwargs k = Some v -> v <> VNone ->
                    dict_get input k = Some v).
Proof.
  exact (execute_tool_input_without_None sample_repr
           (sample_client (Some handle_passthrough)) "search:find"
           [("query", VStr "rocq"); ("limit", VNone)] template_world
           handle_passthrough_keeps_log).
Defined.

(** X9 at a sample: a schema of type [array]. *)
Lemma build_args_schema_no_model_witness :
  _build_args_schema sample_create_model (VDict [("type", VStr "array")])
    (world_with []) =
  (Ok None, world_with []).
Proof.
  apply build_args_schema_no_model.
  right. left. exists [("type", VStr "array")]. split; reflexivity.
Defined.

(** X10 at a sample: the model of a schema with a required [query] and an
    optional [limit]. *)
Lemma build_args_schema_model_witness :
  let schema :=
    two_property_schema "query" "limit"
      [("type", VStr "string")] [("type", VStr "integer")] in
  let model :=
    two_property_model "query" "limit"
      [("type", VStr "string")] [("type", VStr "integer")] in
  let w := world_with [] in
  exists d props required fields,
    schema = VDict d
    /\ dict_get d "type" = Some (VStr "object")
    /\ dict_get d "properties" = Some (VDict props)
    /\ props <> []
    /\ py_set (dict_get_default d "required" (VList [])) w = (Ok required, w)
    /\ sample_create_model fields = Ok model
    /\ (forall p, dict_get fields p = None <-> dict_get props p = None)
    /\ (forall p f,
          dict_get fields p = Some f ->
          exists sp ty,
            In (p, VDict sp) props
            /\ python_type (json_type_of sp) = Some ty
            /\ f = field_of required p sp ty).
Proof.
  cbv zeta.
  apply (@build_args_schema_model sample_create_model
           (two_property_schema "query" "limit"
              [("type", VStr "string")] [("type", VStr "integer")])
           (world_with [])
           (two_property_model "query" "limit"
              [("type", VStr "string")] [("type", VStr "integer")])
           (world_with [])).
  reflexivity.
Defined.

(** X11 at a sample: one descriptor without a name, and the listing is
    lost. *)
Lemma create_langchain_tools_all_or_nothing_witness :
  exists e w',
    create_langchain_tools sample_create_model sample_tool_description
      (sample_client None)
      (world_with [ok_200 nameless_tools_response]) = (Raise e, w').
Proof.
  eapply (@create_langchain_tools_all_or_nothing sample_create_model
            sample_tool_description (sample_client None)
            (world_with [ok_200 nameless_tools_response])
            nameless_tools_response _ _
            (VDict [("description", VStr "No name")])).
  - reflexivity.
  - reflexivity.
  - right. left. reflexivity.
  - reflexivity.
Defined.


(** X13 at a sample: the merged list has the built-in tools only, and the
    loader has recorded the gateway tool. *)
Lemma load_trik_tools_partial_failure_witness :
  let after :=
    get_all_tools sample_repr sample_create_model sample_tool_description
      (ToolLoader_init "http://localhost:3002" None, vanishing_world) in
  fst after = Ok BUILT_IN_TOOLS
  /\ map t_name (trik_tools (fst (snd after))) = ["trikId_actionName"]
  /\ trik_client (fst (snd after)) = Some (sample_client None).
Proof.
  cbv zeta.
  erewrite (@load_trik_tools_partial_failure sample_repr sample_create_model
              sample_tool_description
              (ToolLoader_init "http://localhost:3002" None) vanishing_world)
    by (vm_compute; reflexivity).
  repeat split; reflexivity.
Defined.

(** X14 at a sample: the tool of the gateway is returned after the
    built-in tools, bound to the client that has [handle_passthrough] as
    its callback. *)
Lemma initialize_wires_passthrough_witness :
  let client := sample_client (Some handle_passthrough) in
  let wired :=
    mkTool "request_refund" (VStr "Refunds of the shop trik")
           inferred_args_schema
           (fn_tool_func client "request_refund") in
  exists loader w',
    initialize_agent_with_triks sample_repr sample_create_model
      sample_tool_description "http://localhost:3002" colliding_world =
    (Ok ((BUILT_IN_TOOLS ++ [wired])%list, loader), w')
    /\ trik_client loader = Some client
    /\ trik_tools loader = [wired].
Proof.
  cbv zeta.
  destruct (initialize_wires_passthrough sample_repr sample_create_model
              sample_tool_description "http://localhost:3002" colliding_world)
    as (_ & _ & _ & Hloads).
  destruct (Hloads
              (ok_200 (VDict [("version", VStr "1.0");
                              ("triks", VDict [("loaded", VInt 1)])]))
              (ok_200 colliding_tools_response)
              (ok_200 colliding_tools_response) []
              [VDict [("name", VStr "request_refund");
                      ("description", VStr "Refunds of the shop trik")]]
              ["shop"]
              [mkTool "request_refund" (VStr "Refunds of the shop trik")
                       inferred_args_schema
                       (fn_tool_func (sample_client (Some handle_passthrough))
                                     "request_refund")])
    as (loader & w' & Hinit & Hclient & Htools & _).
  - reflexivity.
  - eexists _, _. split; reflexivity.
  - eexists. split; reflexivity.
  - eexists _, _. split; [reflexivity |]. split; [reflexivity |].
    constructor; [| constructor]. eexists. split; reflexivity.
  - constructor; [| constructor]. intros w0. reflexivity.
  - exists loader, w'. split; [exact Hinit |].
    split; [exact Hclient | exact Htools].
Defined.

(** X15 at a sample: [find_order] called with a keyword it does not have
    raises and leaves the world alone. *)
Lemma builtin_tools_in_process_witness :
  let w' := snd (call_func sample_repr fn_find_order
                   [("order", VStr "lamp")] passthrough_world) in
  net w' = net passthrough_world /\ sent w' = sent passthrough_world
  /\ session_ids w' = session_ids passthrough_world
  /\ _last_passthrough_content w' = _last_passthrough_content passthrough_world.
Proof.
  destruct (builtin_tools_in_process sample_repr [("order", VStr "lamp")]
              passthrough_world) as (Hframe & _).
  apply (Hframe find_order). right. left. reflexivity.
Defined.

(** X16 at a sample: the first refund call has a good reason, the second
    has none, and both are dispatched. *)
Lemma first_refund_call_validates_message_witness :
  let calls := [damaged_refund_call; refund_call] in
  let messages := (sample_question ++ [AIMessage EmptyString calls])%list in
  let s := (@nil string, world_with []) in
  let s1 := (@nil string,
             set_stdout ["Reason validation: Valid"] (world_with [])) in
  step sample_repr sample_coerce true BUILT_IN_TOOLS sample_model
       accepting_validator N_validate_refund messages s =
  (Ok (N_tools, messages), s1)
  /\ dispatched (snd (step sample_repr sample_coerce true BUILT_IN_TOOLS
                           sample_model accepting_validator N_tools messages
                           s1)) =
     ["call_c"; "call_b"].
Proof.
  exact (@first_refund_call_validates_message sample_repr sample_coerce true
           BUILT_IN_TOOLS sample_model accepting_validator sample_question
           EmptyString [damaged_refund_call; refund_call]
           damaged_refund_call accepted (@nil string, world_with [])
           eq_refl eq_refl eq_refl).
Defined.

(** X17 at a sample: asked about a longer conversation, the sample model
    answers in plain text. *)
Lemma graph_invoke_first_decision_witness :
  let messages := [HumanMessage "Hello"; HumanMessage "Are you there?"] in
  graph_invoke sample_repr sample_coerce true BUILT_IN_TOOLS sample_model
    sample_validator messages (world_with []) =
  (Ok (messages ++ [AIMessage "Why would you like a refund?" []])%list,
   world_with []).
Proof.
  cbv zeta.
  destruct (graph_invoke_first_decision sample_repr sample_coerce true
              BUILT_IN_TOOLS sample_model sample_validator
              [HumanMessage "Hello"; HumanMessage "Are you there?"]
              (world_with [])) as (_ & Hplain).
  apply Hplain; reflexivity.
Defined.

(** X18 at a sample: the run with the refused refund. *)
Lemma graph_invoke_result_witness :
  exists final w',
    graph_invoke sample_repr sample_coerce true BUILT_IN_TOOLS sample_model
      sample_validator sample_question (world_with []) = (Ok final, w')
    /\ exists added front m,
         final = (sample_question ++ added)%list
         /\ final = (front ++ [m])%list
         /\ sample_model front = Ok m
         /\ next_after_agent m = N_END.
Proof.
  eexists _, _. split; [vm_compute; reflexivity |].
  eapply (@graph_invoke_result sample_repr sample_coerce true BUILT_IN_TOOLS
            sample_model sample_validator sample_question (world_with [])).
  vm_compute. reflexivity.
Defined.

(** X21 at a sample: the article was fetched and the model has answered,
    but the turn ends with the user message only. *)
Lemma turn_drops_result_on_bad_metadata_witness :
  let after :=
    turn sample_repr sample_coerce true [article_tool] article_model
      sample_validator "Read me the article" [] bad_metadata_world in
  fst after = Ok [HumanMessage "Read me the article"]
  /\ _last_passthrough_content (snd after) = None.
Proof.
  cbv zeta.
  erewrite (@turn_drops_result_on_bad_metadata sample_repr sample_coerce true
              [article_tool] article_model sample_validator
              "Read me the article" [] bad_metadata_world _ _
              (VStr "The text") (VStr "article"));
    [split; reflexivity | vm_compute; reflexivity | reflexivity
    | intros d; discriminate].
Defined.

(** X23 at a sample. *)
Lemma exposed_names_without_colon_witness :
  let client := sample_client None in
  Forall (fun t =>
            contains ":" (t_name t) = false
            /\ t_name t <> EmptyString
            /\ t_name t = replace_char colon underscore (t_name t)
            /\ exists name,
                 t_func t = fn_tool_func client name
                 /\ (name <> EmptyString ->
                     String.length (t_name t) = String.length name
                     /\ (contains ":" name = false -> t_name t = name)))
         [named_tool].
Proof.
  eapply (@exposed_names_without_colon sample_create_model
            sample_tool_description (sample_client None)
            (world_with [ok_200 named_tools_response])).
  vm_compute. reflexivity.
Defined.
